(** * Orange-Catalog: classification, extraction and consolidation scripts

    A shallow embedding of the Python scripts that classify products,
    extract identifiers and images from saved pages, and reconcile the
    category files, together with the properties proved about them.

    Text is modelled by [string]; the character classes of Python
    ([str.lower], [str.isdigit], [str.split], and the [re] classes
    [\s], [\d], [\w]) are given on the ASCII range, where they agree with
    Python 3.  Characters above 127 are left unchanged by [lower] and
    belong to no class, which is not what Python does with them: a
    statement that depends on what these classes accept is made for
    ASCII text ([ascii_text]), and says so. *)

From Stdlib Require Import String Ascii List Bool Arith ZArith Lia.
From Stdlib Require Import DecimalString Permutation.
Import ListNotations.
Open Scope list_scope.
Open Scope string_scope.
Open Scope nat_scope.

Set Implicit Arguments.

(* ================================================================== *)
(** * Python strings *)
(* ================================================================== *)

Module PyStr.

Definition in_range (lo hi c : ascii) : bool :=
  (nat_of_ascii lo <=? nat_of_ascii c) && (nat_of_ascii c <=? nat_of_ascii hi).

Definition is_upper (c : ascii) : bool := in_range "A" "Z" c.
Definition is_lower (c : ascii) : bool := in_range "a" "z" c.
Definition is_digit (c : ascii) : bool := in_range "0" "9" c.

(** [\w] on the ASCII range. *)
Definition is_word (c : ascii) : bool :=
  is_upper c || is_lower c || is_digit c || Ascii.eqb c "_".

(** [str.isspace] / [\s] on the ASCII range: TAB..CR, FS..US and space. *)
Definition is_space (c : ascii) : bool :=
  let n := nat_of_ascii c in
  ((9 <=? n) && (n <=? 13)) || ((28 <=? n) && (n <=? 32)).

Definition lower_char (c : ascii) : ascii :=
  if is_upper c then ascii_of_nat (nat_of_ascii c + 32) else c.

(** [s.lower()] *)
Fixpoint lower (s : string) : string :=
  match s with
  | EmptyString => EmptyString
  | String c tl => String (lower_char c) (lower tl)
  end.

Fixpoint all_chars (f : ascii -> bool) (s : string) : bool :=
  match s with
  | EmptyString => true
  | String c tl => f c && all_chars f tl
  end.

(** Text of the ASCII range: every character is below 128. *)
Definition is_ascii (c : ascii) : bool := nat_of_ascii c <? 128.

Definition ascii_text (s : string) : bool := all_chars is_ascii s.

(** [s.isdigit()]: non-empty and made of digits only. *)
Definition isdigit (s : string) : bool :=
  match s with
  | EmptyString => false
  | _ => all_chars is_digit s
  end.

(** [x in s] for strings: [x] occurs in [s] as a substring. *)
Fixpoint contains (x s : string) : bool :=
  if prefix x s then true
  else match s with
       | EmptyString => false
       | String _ tl => contains x tl
       end.

(** [x in l] for a list (or set) of strings. *)
Definition mem (x : string) (l : list string) : bool :=
  existsb (String.eqb x) l.

(** [any(x in s for x in l)] *)
Definition any_in (l : list string) (s : string) : bool :=
  existsb (fun x => contains x s) l.

Definition rev_string (s : string) : string :=
  string_of_list_ascii (rev (list_ascii_of_string s)).

(** [s.strip(c)] for a one-character argument. *)
Fixpoint lstrip_char (c : ascii) (s : string) : string :=
  match s with
  | String x tl => if Ascii.eqb x c then lstrip_char c tl else s
  | EmptyString => EmptyString
  end.

Definition strip_char (c : ascii) (s : string) : string :=
  rev_string (lstrip_char c (rev_string (lstrip_char c s))).

(** [s.replace(old, new)] for a non-empty [old]: every occurrence, left
    to right, without overlap. *)
Fixpoint replace_aux (skip : nat) (old new s : string) : string :=
  match s with
  | EmptyString => EmptyString
  | String c tl =>
      match skip with
      | S k => replace_aux k old new tl
      | O =>
          if prefix old s
          then new ++ replace_aux (String.length old - 1) old new tl
          else String c (replace_aux 0 old new tl)
      end
  end.

Definition replace (old new s : string) : string := replace_aux 0 old new s.

(** [s.split(sep)[0]] for a one-character separator. *)
Fixpoint before_char (sep : ascii) (s : string) : string :=
  match s with
  | EmptyString => EmptyString
  | String c tl => if Ascii.eqb c sep then EmptyString else String c (before_char sep tl)
  end.

(** [str(n)] for an integer. *)
Definition str_of_Z (z : Z) : string := NilZero.string_of_int (Z.to_int z).

(** The double-quote character, for patterns and texts that contain it. *)
Definition dquote : ascii := "034"%char.
Definition newline : ascii := "010"%char.

End PyStr.

(* ================================================================== *)
(** * The fragment of Python's [re] that the scripts use *)
(* ================================================================== *)

Module Re.
Import PyStr.

(** Pattern syntax.  [Cls] covers [.], [\s], [\d] and bracket classes;
    [Grp i] is the [i]-th capturing group; [NLook] is [(?!...)];
    [Bnd] is [\b]; [Eos] is [$] (without MULTILINE). *)
Inductive regex : Type :=
| Eps
| Chr (c : ascii)
| Cls (f : ascii -> bool)
| Bnd
| Eos
| Seq (r1 r2 : regex)
| Alt (r1 r2 : regex)
| Star (r : regex)
| Grp (i : nat) (r : regex)
| NLook (r : regex).

(** Matcher state: the character just before the current position (for
    [\b]), the text still to read, and the groups captured so far. *)
Record mstate : Type := MState {
  prev : option ascii;
  rest : string;
  caps : list (nat * string)
}.

Definition word_opt (o : option ascii) : bool :=
  match o with Some c => is_word c | None => false end.

Definition head (s : string) : option ascii :=
  match s with String c _ => Some c | EmptyString => None end.

(** [\b]: exactly one of the two neighbours is a word character. *)
Definition at_boundary (st : mstate) : bool :=
  xorb (word_opt (prev st)) (word_opt (head (rest st))).

(** [$]: at the end, or just before a final newline. *)
Definition at_end (st : mstate) : bool :=
  match rest st with
  | EmptyString => true
  | String c EmptyString => Ascii.eqb c newline
  | _ => false
  end.

(** Literal comparison; with IGNORECASE both sides are lowered. *)
Definition chr_eqb (ci : bool) (c x : ascii) : bool :=
  if ci then Ascii.eqb (lower_char c) (lower_char x) else Ascii.eqb c x.

Definition step (x : ascii) (tl : string) (st : mstate) : mstate :=
  MState (Some x) tl (caps st).

(** Text consumed between two states of one match attempt. *)
Definition consumed (st0 st1 : mstate) : string :=
  substring 0 (String.length (rest st0) - String.length (rest st1)) (rest st0).

Definition set_group (i : nat) (st0 st1 : mstate) : mstate :=
  MState (prev st1) (rest st1) ((i, consumed st0 st1) :: caps st1).

(** Greedy repetition of [body], then [k]: one more round is tried
    first, and a round that reads nothing is not taken.  [n] bounds the
    number of rounds; the text left is a sufficient bound. *)
Fixpoint star_loop {A : Type}
    (body : mstate -> (mstate -> option A) -> option A)
    (k : mstate -> option A) (n : nat) (st0 : mstate) : option A :=
  match n with
  | O => k st0
  | S n' =>
      match body st0
              (fun st1 =>
                 if String.length (rest st1) <? String.length (rest st0)
                 then star_loop body k n' st1 else None) with
      | Some a => Some a
      | None => k st0
      end
  end.

(** Backtracking matcher in continuation-passing style, with the
    priorities of Python's engine: alternatives left to right, greedy
    repetition. *)
Fixpoint rx (ci : bool) (r : regex) {A : Type} (st : mstate)
    (k : mstate -> option A) {struct r} : option A :=
  match r with
  | Eps => k st
  | Chr c =>
      match rest st with
      | String x tl => if chr_eqb ci c x then k (step x tl st) else None
      | EmptyString => None
      end
  | Cls f =>
      match rest st with
      | String x tl => if f x then k (step x tl st) else None
      | EmptyString => None
      end
  | Bnd => if at_boundary st then k st else None
  | Eos => if at_end st then k st else None
  | Seq r1 r2 => rx ci r1 st (fun st1 => rx ci r2 st1 k)
  | Alt r1 r2 =>
      match rx ci r1 st k with
      | Some a => Some a
      | None => rx ci r2 st k
      end
  | Star r1 =>
      star_loop (fun st0 k0 => rx ci r1 st0 k0) k
        (S (String.length (rest st))) st
  | Grp i r1 => rx ci r1 st (fun st1 => k (set_group i st st1))
  | NLook r1 =>
      match rx ci r1 st (fun _ => Some tt) with
      | Some _ => None
      | None => k st
      end
  end.

(** One match attempt at the current position. *)
Definition match_here (ci : bool) (r : regex) (pv : option ascii)
    (s : string) : option mstate :=
  rx ci r (MState pv s []) (fun st => Some st).

(** [re.search]: the leftmost position at which an attempt succeeds. *)
Fixpoint search_from (ci : bool) (r : regex) (pv : option ascii)
    (s : string) : option mstate :=
  match match_here ci r pv s with
  | Some m => Some m
  | None =>
      match s with
      | EmptyString => None
      | String c tl => search_from ci r (Some c) tl
      end
  end.

(** Truth value of [re.search(r, s)] and of [re.search(r, s, re.IGNORECASE)]. *)
Definition search (r : regex) (s : string) : bool :=
  match search_from false r None s with Some _ => true | None => false end.

Definition isearch (r : regex) (s : string) : bool :=
  match search_from true r None s with Some _ => true | None => false end.

(** Group [i] of a successful match (the innermost, latest capture). *)
Fixpoint lookup (i : nat) (l : list (nat * string)) : string :=
  match l with
  | [] => EmptyString
  | (j, v) :: tl => if Nat.eqb i j then v else lookup i tl
  end.

Definition group (i : nat) (m : mstate) : string := lookup i (caps m).

(** Left-to-right scan for non-overlapping matches, as [re.findall] and
    [re.sub] do.  None of the patterns scanned this way can match the
    empty string; the empty-match branch just moves on one character. *)
Fixpoint scan (fuel : nat) (r : regex) (pv : option ascii) (s : string)
    : list mstate :=
  match fuel with
  | O => []
  | S fuel' =>
      let next :=
        match s with
        | EmptyString => []
        | String c tl => scan fuel' r (Some c) tl
        end in
      match match_here false r pv s with
      | Some m =>
          if String.length (rest m) <? String.length s
          then m :: scan fuel' r (prev m) (rest m)
          else m :: next
      | None => next
      end
  end.

Definition finditer (r : regex) (s : string) : list mstate :=
  scan (S (String.length s)) r None s.

(** [re.findall] for a pattern with one group. *)
Definition findall1 (r : regex) (s : string) : list string :=
  map (group 1) (finditer r s).

(** [re.sub(r, repl, s)] for a replacement without back-references. *)
Fixpoint sub_scan (fuel : nat) (r : regex) (repl : string)
    (pv : option ascii) (s : string) : string :=
  match fuel with
  | O => s
  | S fuel' =>
      match match_here false r pv s with
      | Some m =>
          if String.length (rest m) <? String.length s
          then repl ++ sub_scan fuel' r repl (prev m) (rest m)
          else
            match s with
            | EmptyString => repl
            | String c tl => repl ++ String c (sub_scan fuel' r repl (Some c) tl)
            end
      | None =>
          match s with
          | EmptyString => EmptyString
          | String c tl => String c (sub_scan fuel' r repl (Some c) tl)
          end
      end
  end.

Definition sub (r : regex) (repl s : string) : string :=
  sub_scan (S (String.length s)) r repl None s.

(** ** What a successful attempt has read

    [Matches ci r st st'] holds when [r] can take the matcher from [st]
    to [st'].  The matcher only ever returns such a pair
    ([rx_sound] below); the relation forgets the order in which the
    alternatives are tried. *)
Inductive Matches (ci : bool) : regex -> mstate -> mstate -> Prop :=
| MEps st : Matches ci Eps st st
| MChr c x tl st :
    rest st = String x tl -> chr_eqb ci c x = true ->
    Matches ci (Chr c) st (step x tl st)
| MCls f x tl st :
    rest st = String x tl -> f x = true ->
    Matches ci (Cls f) st (step x tl st)
| MBnd st : at_boundary st = true -> Matches ci Bnd st st
| MEos st : at_end st = true -> Matches ci Eos st st
| MSeq r1 r2 st st1 st2 :
    Matches ci r1 st st1 -> Matches ci r2 st1 st2 ->
    Matches ci (Seq r1 r2) st st2
| MAltL r1 r2 st st' : Matches ci r1 st st' -> Matches ci (Alt r1 r2) st st'
| MAltR r1 r2 st st' : Matches ci r2 st st' -> Matches ci (Alt r1 r2) st st'
| MStar0 r st : Matches ci (Star r) st st
| MStarS r st st1 st2 :
    Matches ci r st st1 -> Matches ci (Star r) st1 st2 ->
    Matches ci (Star r) st st2
| MGrp i r st st1 :
    Matches ci r st st1 -> Matches ci (Grp i r) st (set_group i st st1)
| MNLook r st :
    rx ci r st (fun _ => Some tt) = None -> Matches ci (NLook r) st st.

(** ** Pattern combinators *)

Fixpoint lit (s : string) : regex :=
  match s with
  | EmptyString => Eps
  | String c EmptyString => Chr c
  | String c tl => Seq (Chr c) (lit tl)
  end.

Fixpoint seqs (l : list regex) : regex :=
  match l with
  | [] => Eps
  | [r] => r
  | r :: tl => Seq r (seqs tl)
  end.

Fixpoint alts (l : list regex) : regex :=
  match l with
  | [] => NLook Eps
  | [r] => r
  | r :: tl => Alt r (alts tl)
  end.

Definition plus (r : regex) : regex := Seq r (Star r).
Definition opt (r : regex) : regex := Alt r Eps.

Fixpoint rep (n : nat) (r : regex) : regex :=
  match n with
  | O => Eps
  | S n' => Seq r (rep n' r)
  end.

(** [r{n,}] *)
Definition at_least (n : nat) (r : regex) : regex := Seq (rep n r) (Star r).

Definition dot : regex := Cls (fun c => negb (Ascii.eqb c newline)).
Definition space : regex := Cls is_space.
Definition digit : regex := Cls is_digit.
Definition ws : regex := Star space.          (* \s*  *)
Definition anything : regex := Star dot.      (* .*   *)

(** [\bw\b] *)
Definition word (w : string) : regex := seqs [Bnd; lit w; Bnd].
(** [\bw1\s*w2\b] *)
Definition word2 (w1 w2 : string) : regex :=
  seqs [Bnd; lit w1; ws; lit w2; Bnd].
(** [\bw1\b.*\bw2\b] *)
Definition word_then (w1 w2 : string) : regex :=
  seqs [Bnd; lit w1; Bnd; anything; Bnd; lit w2; Bnd].

End Re.

(* ================================================================== *)
(** * scripts/cleanup_categories.py *)
(* ================================================================== *)

Module cleanup_categories.
Import PyStr Re.

(** [CATEGORY_RULES["appliances"]["keywords"]], in source order. *)
Definition APPLIANCES_KEYWORDS : list regex :=
  [ word "refrigerator"; word "fridge"; word "freezer";
    word "washer"; word "dryer"; word "laundry";
    word "dishwasher"; word "microwave";
    word "oven";
    seqs [Bnd; lit "range"; Bnd; NLook (Seq ws (lit "hood"))];
    word "cooktop"; word "stove";
    word2 "range" "hood"; word2 "vent" "hood";
    word2 "garbage" "disposal"; word "disposal";
    word2 "ice" "maker"; word2 "beverage" "cooler"; word2 "wine" "cooler";
    word2 "air" "conditioner"; word "dehumidifier"; word "humidifier";
    seqs [Bnd; lit "vacuum"; Bnd; NLook (Seq anything (lit "seal"))];
    word2 "floor" "care";
    word2 "compact" "kitchen" ].

(** The keys of [CATEGORY_RULES] with their ["valid_subcategories"].  The
    ["keywords"] of the other categories and every ["exclude_keywords"]
    list are never read by the script. *)
Definition VALID_SUBCATEGORIES : list (string * list string) :=
  [ ("appliances",
      [ "Refrigerators"; "French Door"; "Side By Side"; "Top Freezer";
        "Bottom Freezer"; "Mini Fridges"; "Freezerless"; "Freezers";
        "Washers Dryers"; "Dishwashers"; "Microwaves";
        "Ranges"; "Wall Ovens"; "Cooktops"; "Range Hoods";
        "Garbage Disposals"; "Ice Makers"; "Beverage Coolers";
        "Air Conditioners"; "Floor Care"; "Fans"; "Counter Depth" ]);
    ("tools",
      [ "Power Tools"; "Hand Tools"; "Power Drills"; "Saws";
        "Table Saws"; "Miter Saws"; "Circular Saws"; "Jigsaws";
        "Sanders"; "Grinders"; "Routers"; "Nailers";
        "Impact Drivers"; "Impact Wrenches"; "Oscillating Tools";
        "Air Compressors"; "Tool Storage"; "Welding" ]);
    ("home-decor",
      [ "Mirrors"; "Rugs"; "Curtains"; "Wall Art"; "Artificial Plants";
        "Decorative Accents"; "Candles"; "Picture Frames" ]);
    ("furniture",
      [ "Chairs"; "Sofas"; "Tables"; "Desks"; "Beds";
        "Dressers"; "Bookcases"; "Cabinets"; "Kitchen Carts" ]);
    ("plumbing",
      [ "Faucets"; "Kitchen Faucets"; "Bathroom Faucets";
        "Sinks"; "Toilets"; "Showers"; "Bathtubs";
        "Water Heaters"; "Pipes"; "Valves" ]);
    ("bath", [ "Bathroom Vanities"; "Shower Doors"; "Bath Accessories" ]);
    ("lighting",
      [ "Ceiling Lights"; "Chandeliers"; "Pendant Lights";
        "Wall Sconces"; "Lamps"; "Ceiling Fans"; "Outdoor Lighting" ]);
    ("garage", []);
    ("storage", []);
    ("outdoors", []) ].

Definition NON_APPLIANCE_BRANDS : list string :=
  [ "StyleWell"; "HOMESTYLES"; "FUFU&GAGA"; "US Pride Furniture";
    "NATURAE DECOR"; "Lincoln Electric"; "KOHLER"; "American Standard";
    "Delta"; "Moen"; "Pfister";
    "National Tree Company"; "Nearly Natural" ].

Definition APPLIANCE_BRANDS : list string :=
  [ "GE"; "LG"; "Samsung"; "Whirlpool"; "Frigidaire"; "KitchenAid";
    "Maytag"; "Bosch"; "Electrolux"; "Kenmore"; "Amana"; "Hotpoint";
    "Haier"; "Vissani"; "Magic Chef"; "Summit Appliance"; "ZLINE";
    "Thor Kitchen"; "InSinkErator"; "Dyson"; "Shark"; "iRobot" ].

(** A product entry of a category file.  [productId] is [None] when the
    key is absent; [title], [brand] and [subcategory] hold the value that
    [product.get(key, "")] returns.  [original_target] is the
    ["_original_target"] note that [apply_fixes] may add.  The remaining
    keys of an entry are never read and are carried along unchanged. *)
Record product : Type := Product {
  productId : option string;
  title : string;
  brand : string;
  subcategory : string;
  original_target : option string
}.

(** The patterns of [classify_product], named by the place they guard. *)
Definition re_faucet : regex := word "faucet".
Definition re_brand_furniture : regex :=
  alts [word "cart"; word "cabinet"; word "sideboard"; word "buffet"; word "chair"].
Definition re_brand_decor : regex :=
  alts [word "artificial"; word "hydrangea"; word "plant"].
Definition re_laundry : regex :=
  alts [word "washer"; word "dryer"; word "laundry"].
Definition re_chairs : regex :=
  alts [word2 "arm" "chair"; word2 "velvet" "chair"; word2 "accent" "chair"].
Definition re_artificial : regex :=
  seqs [Bnd; lit "artificial"; Bnd; anything; Bnd;
        Grp 1 (alts [lit "plant"; lit "flower"; lit "hydrangea"; lit "arrangement"]);
        Bnd].
Definition re_welding : regex := alts [word "welder"; word "welding"].
Definition re_saws : regex :=
  alts [word2 "table" "saw"; word2 "miter" "saw"; word2 "circular" "saw"].
Definition re_carts : regex :=
  alts [word2 "kitchen" "cart"; word2 "rolling" "cart"; word2 "island" "cart"].
Definition re_buffet : regex := alts [word "buffet"; word "sideboard"].
Definition re_coolers : regex :=
  alts [word2 "wine" "cooler"; word2 "beverage" "cooler";
        word2 "wine" "cellar"; word2 "wine" "refrigerator"].
Definition re_cold : regex :=
  alts [word "refrigerator";
        seqs [Bnd; lit "freezer"; Bnd; NLook (Seq ws (lit "bag"))];
        word "fridge"].
Definition re_clear_tools : regex :=
  alts [word2 "table" "saw"; word2 "miter" "saw";
        word2 "breaker" "hammer"; word "demolition"].
Definition re_clear_furniture : regex :=
  alts [word2 "vanity" "table"; word2 "makeup" "vanity"; word2 "dressing" "table"].

(** [classify_product(product, current_category)]: [Some c] is the
    suggested category, [None] means the product stays. *)
Definition classify_product (p : product) (current_category : string)
    : option string :=
  let title := lower (title p) in
  let brand := brand p in
  (* PRIORITY 1: brand-based rules *)
  if mem brand NON_APPLIANCE_BRANDS && (current_category =? "appliances")%string then
    if isearch re_faucet title then Some "other"
    else if isearch re_brand_furniture title then Some "furniture"
    else if mem brand ["StyleWell"; "HOMESTYLES"; "FUFU&GAGA"; "US Pride Furniture"]
    then Some "furniture"
    else if (brand =? "NATURAE DECOR")%string || isearch re_brand_decor title
    then Some "home-decor"
    else Some "other"
  else
  if mem brand APPLIANCE_BRANDS && negb (current_category =? "appliances")%string
     && existsb (fun keyword => isearch keyword title) APPLIANCES_KEYWORDS
  then Some "appliances"
  else
  (* PRIORITY 2: clear keyword mismatches in appliances *)
  let priority2 : option (option string) :=
    if (current_category =? "appliances")%string then
      if mem brand APPLIANCE_BRANDS then Some None
      else if isearch re_faucet title && negb (isearch re_laundry title)
      then Some (Some "other")
      else if isearch re_chairs title then Some (Some "furniture")
      else if isearch re_artificial title then Some (Some "home-decor")
      else if isearch re_welding title then Some (Some "tools")
      else if isearch re_saws title then Some (Some "tools")
      else if isearch re_carts title then Some (Some "furniture")
      else if isearch re_buffet title then Some (Some "furniture")
      else None
    else None in
  match priority2 with
  | Some verdict => verdict
  | None =>
  (* PRIORITY 3: appliances in wrong categories *)
  if mem current_category ["other"; "storage"] && isearch re_coolers title
  then Some "appliances"
  else if negb (current_category =? "appliances")%string && isearch re_cold title
  then Some "appliances"
  (* PRIORITY 4: garage, outdoors and home-decor items stay *)
  else if (current_category =? "garage")%string then None
  else if (current_category =? "outdoors")%string then None
  else if (current_category =? "home-decor")%string then None
  (* PRIORITY 5: conservative keyword matching *)
  else if mem current_category ["electrical"; "other"; "storage"] then
    if isearch re_clear_tools title then Some "tools"
    else if isearch re_clear_furniture title then Some "furniture"
    else None
  else None
  end.


(** [get_category_from_path(file_path)] *)
Definition get_category_from_path (file_path : string) : string :=
  replace ".json" "" (before_char "/" file_path).

(** [_suggest_subcategory(title, category)] *)
Definition _suggest_subcategory (title category : string) : option string :=
  let title_lower := lower title in
  if (category =? "appliances")%string then
    if search (word2 "french" "door") title_lower then Some "French Door"
    else if search (seqs [Bnd; lit "side"; ws; lit "by"; ws; lit "side"; Bnd]) title_lower
    then Some "Side By Side"
    else if search (word2 "top" "freezer") title_lower then Some "Top Freezer"
    else if search (word2 "bottom" "freezer") title_lower then Some "Bottom Freezer"
    else if search (alts [word2 "mini" "fridge"; word_then "compact" "refrigerator"]) title_lower
    then Some "Mini Fridges"
    else if search (word "freezerless") title_lower then Some "Freezerless"
    else if search (alts [word "refrigerator"; word "fridge"]) title_lower
    then Some "Refrigerators"
    else if search (seqs [Bnd; lit "freezer"; Bnd; NLook (Seq anything (lit "refrigerator"))])
                   title_lower
    then Some "Freezers"
    else if search (alts [word "washer"; word "dryer"; word "laundry"]) title_lower
    then Some "Washers Dryers"
    else if search (word "dishwasher") title_lower then Some "Dishwashers"
    else if search (word "microwave") title_lower then Some "Microwaves"
    else if search (alts [word2 "range" "hood"; word2 "vent" "hood"]) title_lower
    then Some "Range Hoods"
    else if search (word2 "wall" "oven") title_lower then Some "Wall Ovens"
    else if search (word "cooktop") title_lower then Some "Cooktops"
    else if search (alts [word "range"; word "stove"]) title_lower then Some "Ranges"
    else if search (alts [word2 "garbage" "disposal"; word "disposal"]) title_lower
    then Some "Garbage Disposals"
    else if search (word2 "ice" "maker") title_lower then Some "Ice Makers"
    else if search (alts [word2 "beverage" "cooler"; word2 "wine" "cooler"]) title_lower
    then Some "Beverage Coolers"
    else if search (word2 "air" "condition") title_lower then Some "Air Conditioners"
    else if search (alts [word "vacuum"; word2 "floor" "care"]) title_lower
    then Some "Floor Care"
    else if search (word "fan") title_lower then Some "Fans"
    else None
  else None.

Fixpoint assoc {V : Type} (key : string) (l : list (string * V)) : option V :=
  match l with
  | [] => None
  | (k, v) :: tl => if (k =? key)%string then Some v else assoc key tl
  end.

(** [validate_subcategory(category, subcategory, product)] *)
Definition validate_subcategory (category subcategory : string) (p : product)
    : option string :=
  match assoc category VALID_SUBCATEGORIES with
  | None => None
  | Some valid_subs =>
      if mem subcategory valid_subs then
        let title := lower (title p) in
        if (category =? "appliances")%string
           && (subcategory =? "Refrigerators")%string
           && negb (existsb (fun kw => isearch kw title)
                      [word "refrigerator"; word "fridge"; word "freezer"])
        then _suggest_subcategory title category
        else if (category =? "appliances")%string
           && (subcategory =? "Ranges")%string
           && negb (existsb (fun kw => isearch kw title)
                      [word "range"; word "stove"; word "oven"; word "cooktop"])
        then _suggest_subcategory title category
        else None
      else _suggest_subcategory (cleanup_categories.title p) category
  end.


(** ** The category files and the state of a [CategoryCleanup] object *)

(** Ordered dictionaries ([dict], [defaultdict]): assignment to an
    existing key keeps its position, a new key goes last. *)
Section Dict.
Variables K V : Type.
Variable keq : K -> K -> bool.

Fixpoint dict_get (k : K) (d : list (K * V)) : option V :=
  match d with
  | [] => None
  | (k', v) :: tl => if keq k k' then Some v else dict_get k tl
  end.

Fixpoint dict_set (k : K) (v : V) (d : list (K * V)) : list (K * V) :=
  match d with
  | [] => [(k, v)]
  | (k', v') :: tl =>
      if keq k k' then (k, v) :: tl else (k', v') :: dict_set k v tl
  end.

Definition dict_has (k : K) (d : list (K * V)) : bool :=
  match dict_get k d with Some _ => true | None => false end.
End Dict.

Definition oeqb (a b : option string) : bool :=
  match a, b with
  | Some x, Some y => (x =? y)%string
  | None, None => true
  | _, _ => false
  end.

Definition omem (a : option string) (l : list (option string)) : bool :=
  existsb (oeqb a) l.

(** What [json.load] gives for a category file: [products] is [None]
    when the key is absent or its value is not a list; [pageInfo] is
    [Some n] when the key holds an object (with [totalResults] [n]). *)
Record category_data : Type := CategoryData {
  products : option (list product);
  pageInfo : option nat;
  lastUpdated : string
}.

(** A file under the categories directory: its path relative to the
    directory, and its content ([None] when reading or parsing fails).
    The list is in the order of [rglob]. *)
Definition disk : Type := list (string * option category_data).

(** [Path.name] *)
Definition name (path : string) : string :=
  rev_string (before_char "/" (rev_string path)).

(** Product dictionaries are shared by reference between the lists that
    hold them.  [Ref r] is the [r]-th dictionary created by
    [load_all_categories]; [Fresh p] is a dictionary made by
    [product.copy()], which is held by one list only. *)
Inductive item : Type :=
| Ref (r : nat)
| Fresh (p : product).

Definition heap : Type := list product.

Definition no_product : product := Product None "" "" "" None.

Definition deref (h : heap) (i : item) : product :=
  match i with
  | Ref r => nth r h no_product
  | Fresh p => p
  end.

Record loaded_file : Type := LoadedFile {
  file_products : list item;
  file_pageInfo : option nat;
  file_lastUpdated : string
}.

Record misplaced : Type := Misplaced {
  mp_productId : option string;
  mp_title : string;
  mp_brand : string;
  mp_current_category : string;
  mp_current_file : string;
  mp_current_subcategory : string;
  mp_suggested_category : string
}.

Record subcategory_fix : Type := SubcategoryFix {
  sf_productId : option string;
  sf_title : string;
  sf_file : string;
  sf_current_subcategory : string;
  sf_suggested_subcategory : string
}.

Record CategoryCleanup : Type := Cleanup {
  dry_run : bool;
  objects : heap;
  all_products : list (string * nat);
  product_sources : list (string * string);
  category_files : list (string * loaded_file);
  misplaced_products : list misplaced;
  subcategory_fixes : list subcategory_fix
}.

(** [CategoryCleanup(base_path, dry_run)] *)
Definition init (dry_run : bool) : CategoryCleanup :=
  Cleanup dry_run [] [] [] [] [] [].

(** The loop over [data["products"]] in [load_all_categories]. *)
Fixpoint load_products (rel_path : string) (ps : list product)
    (c : CategoryCleanup) : CategoryCleanup * list item :=
  match ps with
  | [] => (c, [])
  | p :: tl =>
      let r := List.length (objects c) in
      let c1 :=
        match productId p with
        | Some product_id =>
            if (product_id =? "")%string
            then Cleanup (dry_run c) (objects c ++ [p])%list (all_products c)
                   (product_sources c) (category_files c)
                   (misplaced_products c) (subcategory_fixes c)
            else Cleanup (dry_run c) (objects c ++ [p])%list
                   (dict_set String.eqb product_id r (all_products c))
                   (dict_set String.eqb product_id rel_path (product_sources c))
                   (category_files c)
                   (misplaced_products c) (subcategory_fixes c)
        | None =>
            Cleanup (dry_run c) (objects c ++ [p])%list (all_products c)
              (product_sources c) (category_files c)
              (misplaced_products c) (subcategory_fixes c)
        end in
      let '(c2, refs) := load_products rel_path tl c1 in
      (c2, Ref r :: refs)
  end.

(** [load_all_categories] *)
Fixpoint load_files (d : disk) (c : CategoryCleanup) : CategoryCleanup :=
  match d with
  | [] => c
  | (rel_path, content) :: tl =>
      if (name rel_path =? "index.json")%string then load_files tl c
      else
        match content with
        | Some (CategoryData (Some ps) pi lu) =>
            let '(c1, refs) := load_products rel_path ps c in
            load_files tl
              (Cleanup (dry_run c1) (objects c1) (all_products c1)
                 (product_sources c1)
                 (dict_set String.eqb rel_path (LoadedFile refs pi lu)
                    (category_files c1))
                 (misplaced_products c1) (subcategory_fixes c1))
        | _ => load_files tl c
        end
  end.

Definition load_all_categories (d : disk) (c : CategoryCleanup)
    : CategoryCleanup :=
  load_files d c.

(** The body of the inner loop of [analyze_misplaced_products]. *)
Definition analyze_product (file_path current_category : string)
    (p : product) (c : CategoryCleanup) : CategoryCleanup :=
  match classify_product p current_category with
  | Some suggested_category =>
      Cleanup (dry_run c) (objects c) (all_products c) (product_sources c)
        (category_files c)
        (misplaced_products c ++
           [Misplaced (productId p) (title p) (brand p) current_category
              file_path (subcategory p) suggested_category])%list
        (subcategory_fixes c)
  | None =>
      match validate_subcategory current_category (subcategory p) p with
      | Some suggested_sub =>
          if (suggested_sub =? subcategory p)%string then c
          else
            Cleanup (dry_run c) (objects c) (all_products c)
              (product_sources c) (category_files c) (misplaced_products c)
              (subcategory_fixes c ++
                 [SubcategoryFix (productId p) (title p) file_path
                    (subcategory p) suggested_sub])%list
      | None => c
      end
  end.

(** [analyze_misplaced_products] *)
Definition analyze_misplaced_products (c : CategoryCleanup) : CategoryCleanup :=
  fold_left
    (fun c1 '(file_path, data) =>
       let current_category := get_category_from_path file_path in
       fold_left
         (fun c2 it => analyze_product file_path current_category
                         (deref (objects c) it) c2)
         (file_products data) c1)
    (category_files c) c.

(** What [generate_report] prints is a function of these four values:
    the two finding lists and the two totals of the summary. *)
Record report : Type := Report {
  report_misplaced : list misplaced;
  report_subcategory_fixes : list subcategory_fix;
  report_total_files : nat;
  report_total_products : nat
}.

Definition generate_report (c : CategoryCleanup) : report :=
  Report (misplaced_products c) (subcategory_fixes c)
    (List.length (category_files c)) (List.length (all_products c)).


(** ** [apply_fixes] *)

Definition set_subcategory (sub : string) (p : product) : product :=
  Product (productId p) (title p) (brand p) sub (original_target p).

Definition set_original_target (target : string) (p : product) : product :=
  Product (productId p) (title p) (brand p) (subcategory p) (Some target).

Fixpoint upd_nth (r : nat) (v : product) (h : heap) : heap :=
  match h, r with
  | [], _ => []
  | _ :: tl, O => v :: tl
  | x :: tl, S r' => x :: upd_nth r' v tl
  end.

(** [{get_category_from_path(fp) for fp in self.category_files.keys()}] *)
Definition categories_with_products (c : CategoryCleanup) : list string :=
  map (fun '(fp, _) => get_category_from_path fp) (category_files c).

(** The file that receives a product relocated to [target_category]. *)
Definition target_file (c : CategoryCleanup) (target_category : string)
    : string :=
  if mem target_category (categories_with_products c)
  then target_category ++ ".json"
  else "other.json".

(** The dictionary appended for one misplaced product whose id is known:
    the loaded one, or a copy with the new subcategory and, when the
    target is redirected, the ["_original_target"] note. *)
Definition relocated_item (c : CategoryCleanup) (r : nat)
    (target_category : string) : item :=
  let product := Ref r in
  let product :=
    match _suggest_subcategory (title (deref (objects c) product))
            target_category with
    | Some suggested_sub =>
        Fresh (set_subcategory suggested_sub (deref (objects c) product))
    | None => product
    end in
  if mem target_category (categories_with_products c) then product
  else Fresh (set_original_target target_category (deref (objects c) product)).

Definition lookup_product (c : CategoryCleanup) (product_id : option string)
    : option nat :=
  match product_id with
  | Some pid => dict_get String.eqb pid (all_products c)
  | None => None
  end.

Definition dict_default {V : Type} (k : string) (d : list (string * list V))
    : list V :=
  match dict_get String.eqb k d with Some l => l | None => [] end.

(** The loop "Process misplaced products": the ids to remove per source
    file and the dictionaries to append per target file. *)
Definition plan_relocations_of (c : CategoryCleanup) (mps : list misplaced)
    : list (string * list (option string)) * list (string * list item) :=
  fold_left
    (fun '(products_to_remove, products_to_add) mp =>
       let source_file := mp_current_file mp in
       let product_id := mp_productId mp in
       let target_category := mp_suggested_category mp in
       let products_to_remove :=
         dict_set String.eqb source_file
           (dict_default source_file products_to_remove ++ [product_id])%list
           products_to_remove in
       match lookup_product c product_id with
       | Some r =>
           let tf := target_file c target_category in
           (products_to_remove,
            dict_set String.eqb tf
              (dict_default tf products_to_add
                 ++ [relocated_item c r target_category])%list
              products_to_add)
       | None => (products_to_remove, products_to_add)
       end)
    mps ([], []).

Definition plan_relocations (c : CategoryCleanup)
    : list (string * list (option string)) * list (string * list item) :=
  plan_relocations_of c (misplaced_products c).

(** The loop "Process subcategory fixes". *)
Definition plan_subcategory_updates (c : CategoryCleanup)
    : list (string * list (option string * string)) :=
  fold_left
    (fun subcategory_updates sf =>
       dict_set String.eqb (sf_file sf)
         (dict_set oeqb (sf_productId sf) (sf_suggested_subcategory sf)
            (dict_default (sf_file sf) subcategory_updates))
         subcategory_updates)
    (subcategory_fixes c) [].

(** The loop "Fix subcategories" over the dictionaries of one file; a
    loaded dictionary is changed in place, for every list that holds it. *)
Fixpoint fix_subcategories (updates : list (option string * string))
    (l : list item) (h : heap) : list item * heap * bool :=
  match l with
  | [] => ([], h, false)
  | it :: tl =>
      let p := deref h it in
      match dict_get oeqb (productId p) updates with
      | Some sub =>
          let '(it', h1) :=
            match it with
            | Ref r => (Ref r, upd_nth r (set_subcategory sub p) h)
            | Fresh q => (Fresh (set_subcategory sub q), h)
            end in
          let '(tl', h2, _) := fix_subcategories updates tl h1 in
          (it' :: tl', h2, true)
      | None =>
          let '(tl', h2, m) := fix_subcategories updates tl h in
          (it :: tl', h2, m)
      end
  end.

(** How a call ends: it returns, or an exception leaves it; either way
    with the files as they are on disk at that moment. *)
Inductive outcome : Type :=
| Returned (d : disk)
| Raised (d : disk).

Definition files_of (o : outcome) : disk :=
  match o with Returned d => d | Raised d => d end.

(** The new list of one file after "Remove misplaced products" and
    "Add relocated products", and whether either changed the file. *)
Definition relocate_in_file
    (products_to_remove : list (string * list (option string)))
    (products_to_add : list (string * list item))
    (h : heap) (file_path : string) (l : list item) : list item * bool :=
  let '(l1, m1) :=
    match dict_get String.eqb file_path products_to_remove with
    | Some ids =>
        let kept := filter (fun it => negb (omem (productId (deref h it)) ids)) l in
        (kept, negb (List.length kept =? List.length l))
    | None => (l, false)
    end in
  match dict_get String.eqb file_path products_to_add with
  | Some added => ((l1 ++ added)%list, true)
  | None => (l1, m1)
  end.

(** The loop "Apply changes to files".  [now] is the time stamp.
    Writing [data["pageInfo"]["totalResults"]] needs the ["pageInfo"]
    object: without it the statement raises and the run stops there. *)
Fixpoint apply_to_files (now : string)
    (products_to_remove : list (string * list (option string)))
    (products_to_add : list (string * list item))
    (subcategory_updates : list (string * list (option string * string)))
    (files : list (string * loaded_file)) (h : heap) (d : disk) : outcome :=
  match files with
  | [] => Returned d
  | (file_path, data) :: tl =>
      let '(l1, m1) :=
        relocate_in_file products_to_remove products_to_add h file_path
          (file_products data) in
      let '(l2, h2, m2) :=
        match dict_get String.eqb file_path subcategory_updates with
        | Some updates => fix_subcategories updates l1 h
        | None => (l1, h, false)
        end in
      if m1 || m2 then
        match file_pageInfo data with
        | None => Raised d
        | Some _ =>
            let written :=
              CategoryData (Some (map (deref h2) l2))
                (Some (List.length l2)) now in
            apply_to_files now products_to_remove products_to_add
              subcategory_updates tl h2
              (dict_set String.eqb file_path (Some written) d)
        end
      else
        apply_to_files now products_to_remove products_to_add
          subcategory_updates tl h2 d
  end.

(** [apply_fixes] *)
Definition apply_fixes (now : string) (c : CategoryCleanup) (d : disk)
    : outcome :=
  if dry_run c then Returned d
  else
    let '(products_to_remove, products_to_add) := plan_relocations c in
    apply_to_files now products_to_remove products_to_add
      (plan_subcategory_updates c) (category_files c) (objects c) d.

(** ** What the report says and what the files hold *)

(** The products and the ids that a file of the directory holds. *)
Definition file_products_on_disk (d : disk) (f : string) : list product :=
  match dict_get String.eqb f d with
  | Some (Some (CategoryData (Some ps) _ _)) => ps
  | _ => []
  end.

Definition file_ids (d : disk) (f : string) : list (option string) :=
  map productId (file_products_on_disk d f).

(** The ids that the list of misplaced products takes out of file [f]. *)
Definition departures (mps : list misplaced) (f : string)
    : list (option string) :=
  map mp_productId
    (filter (fun mp => (mp_current_file mp =? f)%string) mps).

(** The ids that it brings to file [f]: those of the entries whose id is a
    key of [all_products] and whose target file is [f]. *)
Definition arrives_at (c : CategoryCleanup) (f : string) (mp : misplaced)
    : bool :=
  match lookup_product c (mp_productId mp) with
  | Some _ => (target_file c (mp_suggested_category mp) =? f)%string
  | None => false
  end.

Definition arrivals (c : CategoryCleanup) (mps : list misplaced) (f : string)
    : list (option string) :=
  map mp_productId (filter (arrives_at c f) mps).

(** The dictionaries appended to file [f]. *)
Definition added_items (c : CategoryCleanup) (mps : list misplaced)
    (f : string) : list item :=
  flat_map
    (fun mp =>
       match lookup_product c (mp_productId mp) with
       | Some r =>
           if (target_file c (mp_suggested_category mp) =? f)%string
           then [relocated_item c r (mp_suggested_category mp)]
           else []
       | None => []
       end)
    mps.

(** The reading of the specification: every relocation of the report is
    carried out as listed, the product ending in the file of the
    suggested category. *)
Definition relocated_as_reported (rep : report) (after : disk) : bool :=
  forallb
    (fun mp =>
       omem (mp_productId mp)
         (file_ids after (mp_suggested_category mp ++ ".json")))
    (report_misplaced rep).

(** The ids of file [f] once the listed products have left it and the
    arriving ones have been appended. *)
Definition ids_after_relocation (c : CategoryCleanup) (mps : list misplaced)
    (d : disk) (f : string) : list (option string) :=
  (filter (fun product_id => negb (omem product_id (departures mps f)))
     (file_ids d f)
   ++ arrivals c mps f)%list.

(** The ids that the listed relocations send to file [f]: those of the
    entries whose target file is [f]. *)
Definition relocated_to (c : CategoryCleanup) (mps : list misplaced)
    (f : string) : list (option string) :=
  map mp_productId
    (filter (fun mp => (target_file c (mp_suggested_category mp) =? f)%string)
       mps).

(** Every listed relocation can be carried out: the id of the product
    is a key of [all_products], and its target file is one of the
    loaded files. *)
Definition can_be_carried_out (c : CategoryCleanup) (mps : list misplaced)
    : Prop :=
  forall mp, In mp mps ->
    lookup_product c (mp_productId mp) <> None
    /\ In (target_file c (mp_suggested_category mp))
         (map fst (category_files c)).

(** Every key of [all_products] leads to a loaded dictionary with that
    id. *)
Definition ids_registered (c : CategoryCleanup) : Prop :=
  forall pid r,
    dict_get String.eqb pid (all_products c) = Some r ->
    r < List.length (objects c)
    /\ productId (nth r (objects c) no_product) = Some pid.

(** Every loaded file holds, by reference, the products that the file of
    that path has in the directory [d]. *)
Definition files_loaded (d : disk) (c : CategoryCleanup) : Prop :=
  NoDup (map fst (category_files c))
  /\ forall f data,
      In (f, data) (category_files c) ->
      In f (map fst d)
      /\ file_products_on_disk d f
         = map (deref (objects c)) (file_products data)
      /\ forall it, In it (file_products data) ->
                    exists r, it = Ref r /\ r < List.length (objects c).

(** Two states of the loaded dictionaries with the same ids. *)
Definition same_ids (h h' : heap) : Prop :=
  forall r, productId (nth r h' no_product) = productId (nth r h no_product).

(** The same object with another [dry_run] flag. *)
Definition with_dry_run (b : bool) (c : CategoryCleanup) : CategoryCleanup :=
  Cleanup b (objects c) (all_products c) (product_sources c)
    (category_files c) (misplaced_products c) (subcategory_fixes c).

(** ** [verify_no_products_lost] *)

(** The ids found by reloading every file: [new_products]. *)
Fixpoint reload_ids (d : disk) : list (option string) :=
  match d with
  | [] => []
  | (rel_path, content) :: tl =>
      if (name rel_path =? "index.json")%string then reload_ids tl
      else
        match content with
        | Some (CategoryData (Some ps) _ _) =>
            (map productId ps ++ reload_ids tl)%list
        | _ => reload_ids tl
        end
  end.

(** [original_ids - new_products] *)
Definition lost (c : CategoryCleanup) (d : disk) : list string :=
  filter (fun pid => negb (omem (Some pid) (reload_ids d)))
    (map fst (all_products c)).

(** The return value: [len(lost) == 0]; a non-empty [lost] is printed as
    "LOST n products!". *)
Definition verify_no_products_lost (c : CategoryCleanup) (d : disk) : bool :=
  List.length (lost c d) =? 0.

(** ** [main] *)

Record run : Type := Run {
  run_report : option report;
  run_files : outcome;
  run_verified : option bool
}.

(** [main()] with the parsed flags [--dry-run] and [--apply], on an
    existing categories directory. *)
Definition main (arg_dry_run arg_apply : bool) (now : string) (d : disk)
    : run :=
  if negb arg_dry_run && negb arg_apply then Run None (Returned d) None
  else
    let cleanup := init arg_dry_run in
    let cleanup := load_all_categories d cleanup in
    let cleanup := analyze_misplaced_products cleanup in
    let rep := generate_report cleanup in
    if arg_apply then
      match apply_fixes now cleanup d with
      | Returned d' =>
          Run (Some rep) (Returned d')
            (Some (verify_no_products_lost cleanup d'))
      | Raised d' => Run (Some rep) (Raised d') None
      end
    else Run (Some rep) (Returned d) None.

End cleanup_categories.

(* ================================================================== *)
(** * Gallery images: scripts/categorize_scraped_products.py and
      scripts/extract_gallery_from_scrapes.py *)
(* ================================================================== *)

Module images.
Import PyStr Re.

(** [[a-f0-9-]] *)
Definition uuid_char (c : ascii) : bool :=
  in_range "a" "f" c || is_digit c || Ascii.eqb c "-".

(** The negated class of the path suffix: anything but a double quote,
    a single quote, [<], [>] and white space. *)
Definition path_char (c : ascii) : bool :=
  negb (Ascii.eqb c dquote || Ascii.eqb c "'" || Ascii.eqb c "<"
        || Ascii.eqb c ">" || is_space c).

Definition extensions : list string := ["jpg"; "avif"; "webp"; "png"].

(** [productImages/([a-f0-9-]+)/svn/(P+\.(jpg|avif|webp|png))], where [P]
    is the negated class above. *)
Definition image_pattern : regex :=
  seqs [ lit "productImages/";
         Grp 1 (plus (Cls uuid_char));
         lit "/svn/";
         Grp 2 (seqs [plus (Cls path_char); Chr ".";
                      Grp 3 (alts (map lit extensions))]) ].

(** [_\d+\.(jpg|avif|webp|png)$] *)
Definition size_pattern : regex :=
  seqs [ Chr "_"; plus digit; Chr "."; Grp 1 (alts (map lit extensions)); Eos ].

(** The tuples [(uuid, path_suffix, ext)] of [re.findall(pattern, html)]. *)
Definition image_matches (html : string) : list (string * string * string) :=
  map (fun m => (group 1 m, group 2 m, group 3 m)) (finditer image_pattern html).

(** The f-string that builds the full URL. *)
Definition image_url (uuid path_suffix : string) : string :=
  "https://images.thdstatic.com/productImages/" ++ uuid ++ "/svn/" ++ path_suffix.

(** "Normalize to 1000px jpg" *)
Definition normalize (url : string) : string :=
  sub size_pattern "_1000.jpg" url.

(** The parts of a tuple, the gallery entry built from it, and the
    tuples that are the first with their UUID. *)
Definition uuid_of (m : string * string * string) : string := fst (fst m).
Definition suffix_of (m : string * string * string) : string := snd (fst m).

Definition entry (m : string * string * string) : string :=
  normalize (image_url (uuid_of m) (suffix_of m)).

Fixpoint first_by_uuid (seen : list string)
    (ms : list (string * string * string)) : list (string * string * string) :=
  match ms with
  | [] => []
  | m :: tl =>
      if mem (uuid_of m) seen then first_by_uuid seen tl
      else m :: first_by_uuid (uuid_of m :: seen) tl
  end.

(** The tuple that is the last with the UUID [u]. *)
Fixpoint last_by_uuid (u : string) (ms : list (string * string * string))
    : option (string * string * string) :=
  match ms with
  | [] => None
  | m :: tl =>
      match last_by_uuid u tl with
      | Some m' => Some m'
      | None => if (uuid_of m =? u)%string then Some m else None
      end
  end.

Definition not_underscore (c : ascii) : bool := negb (Ascii.eqb c "_").

(** ** The reading of the specification, for comparison *)



(** The character before the position reached by reading [w]. *)
Fixpoint last_of (w : string) (pv : option ascii) : option ascii :=
  match w with
  | EmptyString => pv
  | String c tl => last_of tl (Some c)
  end.

End images.

Module categorize_scraped_products.
Import PyStr Re images.

(** The loop of [extract_images_from_html], carrying [seen_uuids] and
    [images]. *)
Fixpoint collect (matches : list (string * string * string))
    (seen_uuids images : list string) : list string :=
  match matches with
  | [] => images
  | (uuid, path_suffix, ext) :: tl =>
      if mem uuid seen_uuids then collect tl seen_uuids images
      else collect tl (uuid :: seen_uuids)
             (images ++ [normalize (image_url uuid path_suffix)])%list
  end.

(** [extract_images_from_html(html_path)]; the argument is the text of
    the file, [None] when reading it raises. *)
Definition extract_images_from_html (html : option string) : list string :=
  match html with
  | Some text => collect (image_matches text) [] []
  | None => []
  end.

(** [categorize_product(title, slug)] *)
Definition categorize_product (title slug : string) : string * option string :=
  let title_lower := lower title in
  let slug_lower := lower slug in
  let has x := contains x title_lower in
  (* Tools *)
  if any_in ["drill"; "driver"; "impact"] title_lower then
    if has "hammer" then ("tools", Some "drills/hammer-drills")
    else if has "impact" && has "driver" then ("tools", Some "drills/impact-drivers")
    else if has "angle" then ("tools", Some "drills/angle-drills")
    else ("tools", Some "drills/other")
  else if any_in ["saw"; "miter"; "circular"; "table saw"; "reciprocating";
                  "jigsaw"; "band saw"] title_lower then
    if has "miter" then ("tools", Some "saws/miter-saws")
    else if has "circular" then ("tools", Some "saws/circular-saws")
    else if has "table" then ("tools", Some "saws/table-saws")
    else if has "reciprocating" then ("tools", Some "saws/reciprocating-saws")
    else if has "jigsaw" || has "jig saw" then ("tools", Some "saws/jigsaws")
    else if has "band" then ("tools", Some "saws/band-saws")
    else ("tools", Some "saws/other")
  else if any_in ["nailer"; "nail gun"; "framing nailer"; "finish nailer";
                  "brad nailer"; "stapler"] title_lower then
    if has "framing" then ("tools", Some "nailers/framing")
    else if has "finish" then ("tools", Some "nailers/finishing")
    else if has "roofing" then ("tools", Some "nailers/roofing")
    else if has "flooring" then ("tools", Some "nailers/flooring")
    else if has "pneumatic" then ("tools", Some "nailers/pneumatic")
    else ("tools", Some "nailers/other")
  else if has "grinder" then ("tools", Some "grinders")
  else if has "sander" then ("tools", Some "sanders")
  else if has "planer" then ("tools", Some "planers")
  else if has "router" && has "wood" then ("tools", Some "routers")
  else if has "air compressor" || has "compressor" then
    if has "portable" then ("tools", Some "air-compressors/portable")
    else if has "stationary" then ("tools", Some "air-compressors/stationary")
    else ("tools", Some "air-compressors/other")
  else if has "battery" && (has "volt" || has "ah") then ("tools", Some "batteries")
  else if has "combo kit" || has "power tool kit" then ("tools", Some "combo-kits")
  else if has "polisher" then ("tools", Some "sanders")
  else if has "rotary hammer" then ("tools", Some "drills/hammer-drills")
  (* Appliances *)
  else if has "refrigerator" || has "fridge" then
    if has "french door" then ("appliances", Some "refrigerators/french-door")
    else if has "side by side" || has "side-by-side"
    then ("appliances", Some "refrigerators/side-by-side")
    else if has "top freezer" then ("appliances", Some "refrigerators/top-freezer")
    else if has "bottom freezer" then ("appliances", Some "refrigerators/bottom-freezer")
    else if has "mini" || has "compact" then ("appliances", Some "refrigerators/mini-fridges")
    else ("appliances", Some "refrigerators/other")
  else if has "washer" || has "dryer" then ("appliances", Some "washers-dryers")
  else if has "dishwasher" then ("appliances", Some "dishwashers")
  else if has "microwave" then ("appliances", Some "microwaves")
  else if has "range" || has "stove" || has "oven" then
    if has "wall oven" then ("appliances", Some "wall-ovens")
    else ("appliances", Some "ranges")
  else if has "cooktop" then ("appliances", Some "cooktops")
  else if has "air conditioner" || has "ac unit" then ("appliances", Some "air-conditioners")
  else if has "fan" && (has "ceiling" || has "tower" || has "box")
  then ("appliances", Some "fans")
  else if has "vacuum" then ("appliances", Some "floor-care")
  (* Furniture *)
  else if any_in ["sofa"; "couch"; "loveseat"; "sectional"; "recliner"] title_lower
  then ("furniture", Some "living-room")
  else if any_in ["bed frame"; "mattress"; "headboard"; "nightstand"; "dresser";
                  "bedroom"] title_lower
  then ("furniture", Some "bedroom")
  else if any_in ["dining table"; "dining chair"; "dining set"] title_lower
  then ("furniture", Some "dining")
  else if any_in ["desk"; "office chair"; "bookcase"; "bookshelf"] title_lower
  then ("furniture", Some "office")
  else if (has "patio" || has "outdoor")
          && (has "chair" || has "lounge" || has "seating" || has "table" || has "set")
  then ("furniture", Some "outdoor")
  else if has "chair" || has "arm chair" then ("furniture", Some "living-room")
  else if has "table" && has "accent" then ("furniture", Some "living-room")
  else if has "coffee table" then ("furniture", Some "living-room")
  (* Home Decor *)
  else if has "rug" || has "carpet" then ("home-decor", Some "rugs")
  else if has "curtain" || has "drape" then ("home-decor", Some "curtains")
  else if has "mirror" then ("home-decor", Some "mirrors")
  else if has "wall art" || has "canvas" || has "picture frame" || has "digital frame"
  then ("home-decor", Some "wall-art")
  else if has "bedding" || has "comforter" || has "sheet" || has "pillow"
  then ("home-decor", Some "bedding")
  else if has "artificial" && (has "plant" || has "tree" || has "flower")
  then ("home-decor", Some "artificial-plants/other")
  (* Electrical *)
  else if has "switch" && (has "light" || has "smart" || has "dimmer")
  then ("electrical", Some "outlets")
  else if has "outlet" || has "receptacle" then ("electrical", Some "outlets")
  else if has "led" && (has "light" || has "strip" || has "fixture")
  then ("electrical", Some "lighting")
  else if has "wire" || has "cable" then ("electrical", Some "wire-cable")
  else if has "breaker" then ("electrical", Some "breakers")
  (* Garage *)
  else if has "garage door" then ("garage", Some "doors")
  else if has "floor coating" || has "garage floor" then ("garage", Some "flooring")
  (* Storage *)
  else if has "shelf" || has "shelving" then ("storage", Some "shelving")
  else if has "bin" || has "tote" || has "storage container"
  then ("storage", Some "bins-totes")
  (* Smart Home / Security *)
  else if has "security camera" || has "doorbell" || has "smart lock"
  then ("smart-home", Some "security")
  else if has "smart" && (has "speaker" || has "display") then ("smart-home", Some "speakers")
  (* Solar / Power *)
  else if has "solar" && (has "panel" || has "battery" || has "charger")
  then ("solar", Some "panels")
  else if has "power bank" || has "portable charger" then ("solar", Some "batteries")
  (* Default *)
  else ("other", None).

End categorize_scraped_products.

Module extract_gallery_from_scrapes.
Import PyStr Re images cleanup_categories.

(** The loop of [extract_images_from_html]: [uuid_images[uuid] = normalized]. *)
Fixpoint collect (matches : list (string * string * string))
    (uuid_images : list (string * string)) : list (string * string) :=
  match matches with
  | [] => uuid_images
  | (uuid, path_suffix, ext) :: tl =>
      collect tl
        (dict_set String.eqb uuid (normalize (image_url uuid path_suffix))
           uuid_images)
  end.

(** [extract_images_from_html(html_path)]: the dictionary from UUID to
    normalized URL; the argument is as above. *)
Definition extract_images_from_html (html : option string)
    : list (string * string) :=
  match html with
  | Some text => collect (image_matches text) []
  | None => []
  end.

End extract_gallery_from_scrapes.

(* ================================================================== *)
(** * scraping_toolkit/process_all_saved_html.py and
      scraping_toolkit/parse_manual_html.py: [extract_product_ids] *)
(* ================================================================== *)

Module process_all_saved_html.
Import PyStr Re.

(** Values of [json.loads].  A number with a fraction or an exponent is a
    Python float; [JFloat ip fp] stands for the float printed as
    [ip.fp].  An object lists its keys in order, each key once. *)
#[local] Unset Elimination Schemes.
Inductive json : Type :=
| JNull
| JBool (b : bool)
| JInt (z : Z)
| JFloat (ip : Z) (fp : string)
| JStr (s : string)
| JArr (l : list json)
| JObj (l : list (string * json)).
#[local] Set Elimination Schemes.

(** [repr(v)].  String escapes are not modelled: the text of a list or of
    an object starts with a bracket, that of a float has a dot, and this
    is all the digit test below can see of them. *)
Fixpoint py_repr (j : json) : string :=
  match j with
  | JNull => "None"
  | JBool true => "True"
  | JBool false => "False"
  | JInt z => str_of_Z z
  | JFloat ip fp => str_of_Z ip ++ "." ++ fp
  | JStr s => "'" ++ s ++ "'"
  | JArr l => "[" ++ String.concat ", " (map py_repr l) ++ "]"
  | JObj l =>
      "{" ++ String.concat ", "
               (map (fun kv => "'" ++ fst kv ++ "': " ++ py_repr (snd kv)) l)
          ++ "}"
  end.

(** [str(v)] *)
Definition py_str (j : json) : string :=
  match j with
  | JStr s => s
  | _ => py_repr j
  end.

(** A [<script>] element: whether its type is [application/ld+json], its
    [.string] ([None] when it has no single text child), and what
    [json.loads(script.string)] returns ([None] when it raises). *)
Record script : Type := Script {
  is_ld_json : bool;
  script_string : option string;
  script_json : option json
}.

(** The parsed page, as the queries of the function see it, each list in
    document order: the [data-product-id] values of the elements that
    carry the attribute, the [href] values of the [<a>] elements that
    carry one, and the [<script>] elements. *)
Record soup : Type := Soup {
  data_product_ids : list string;
  hrefs : list string;
  scripts : list script
}.

(** [/p/[^/]+/(\d{9,})] *)
Definition href_pattern : regex :=
  seqs [ lit "/p/"; plus (Cls (fun c => negb (Ascii.eqb c "/"))); Chr "/";
         Grp 1 (at_least 9 digit) ].

(** The pattern of Method 4: a quoted key [productId], [itemId] or [sku],
    a colon, optional white space, an optional quote, [(\d{9,})] and an
    optional quote. *)
Definition embedded_pattern : regex :=
  seqs [ Chr dquote; alts [lit "productId"; lit "itemId"; lit "sku"];
         Chr dquote; Chr ":"; ws; opt (Chr dquote);
         Grp 1 (at_least 9 digit); opt (Chr dquote) ].

(** [pid.isdigit() and len(pid) >= 8] *)
Definition valid_id (pid : string) : bool :=
  isdigit pid && (8 <=? String.length pid).

(** [if pid not in product_ids: product_ids.append(pid)] *)
Definition add_new (product_ids : list string) (pid : string) : list string :=
  if mem pid product_ids then product_ids else (product_ids ++ [pid])%list.

(** Method 1: data-product-id attributes. *)
Definition method1 (page : soup) (product_ids : list string) : list string :=
  fold_left
    (fun ids pid =>
       if negb (pid =? "")%string && valid_id pid then add_new ids pid else ids)
    (data_product_ids page) product_ids.

(** Method 2: links to product pages. *)
Definition method2 (page : soup) (product_ids : list string) : list string :=
  fold_left
    (fun ids href =>
       if contains "/p/" href
       then fold_left add_new (findall1 href_pattern href) ids
       else ids)
    (hrefs page) product_ids.

Definition id_fields : list string := ["sku"; "productID"; "itemId"].

Fixpoint get_field (field : string) (l : list (string * json)) : option json :=
  match l with
  | [] => None
  | (k, v) :: tl => if (k =? field)%string then Some v else get_field field tl
  end.

(** The loop over the three fields of one JSON-LD object. *)
Definition object_ids (data : list (string * json)) (product_ids : list string)
    : list string :=
  fold_left
    (fun ids field =>
       match get_field field data with
       | Some v =>
           let pid := py_str v in
           if valid_id pid then add_new ids pid else ids
       | None => ids
       end)
    id_fields product_ids.

(** Method 3: JSON-LD structured data. *)
Definition method3 (page : soup) (product_ids : list string) : list string :=
  fold_left
    (fun ids sc =>
       if is_ld_json sc then
         match script_json sc with
         | Some (JObj data) => object_ids data ids
         | Some (JArr items) =>
             fold_left
               (fun ids' item =>
                  match item with
                  | JObj data => object_ids data ids'
                  | _ => ids'
                  end)
               items ids
         | _ => ids
         end
       else ids)
    (scripts page) product_ids.

(** Method 4: embedded JSON data. *)
Definition method4 (page : soup) (product_ids : list string) : list string :=
  fold_left
    (fun ids sc =>
       match script_string sc with
       | Some text =>
           if (text =? "")%string then ids
           else fold_left add_new (findall1 embedded_pattern text) ids
       | None => ids
       end)
    (scripts page) product_ids.

(** [extract_product_ids], on the parsed page. *)
Definition extract_product_ids (page : soup) : list string :=
  method4 page (method3 page (method2 page (method1 page []))).

(** ** The candidates each method accepts, in the order it meets them *)

Definition candidates1 (page : soup) : list string :=
  filter (fun pid => negb (pid =? "")%string && valid_id pid)
    (data_product_ids page).

Definition candidates2 (page : soup) : list string :=
  flat_map
    (fun href =>
       if contains "/p/" href then findall1 href_pattern href else [])
    (hrefs page).

(** The texts [str(data[field])] that Method 3 tests. *)
Definition object_values (data : list (string * json)) : list string :=
  flat_map
    (fun field =>
       match get_field field data with
       | Some v => [py_str v]
       | None => []
       end)
    id_fields.

Definition script_values (sc : script) : list string :=
  if is_ld_json sc then
    match script_json sc with
    | Some (JObj data) => object_values data
    | Some (JArr items) =>
        flat_map
          (fun item =>
             match item with
             | JObj data => object_values data
             | _ => []
             end)
          items
    | _ => []
    end
  else [].

Definition ld_values (page : soup) : list string :=
  flat_map script_values (scripts page).


Definition candidates3 (page : soup) : list string :=
  filter valid_id (ld_values page).

Definition candidates4 (page : soup) : list string :=
  flat_map
    (fun sc =>
       match script_string sc with
       | Some text =>
           if (text =? "")%string then []
           else findall1 embedded_pattern text
       | None => []
       end)
    (scripts page).

(** ** The reading of the specification, for comparison *)

(** "Attempt the strategies in a fixed priority order and take the first
    that yields a non-empty result": each strategy run alone, in the
    order (1) structured data, (2) DOM attributes, (3) anchor hrefs,
    (4) script-variable regex. *)
Fixpoint first_non_empty (results : list (list string)) : list string :=
  match results with
  | [] => []
  | [] :: tl => first_non_empty tl
  | r :: _ => r
  end.

Definition spec_extract_product_ids (page : soup) : list string :=
  first_non_empty
    [method3 page []; method1 page []; method2 page []; method4 page []].


(** Keep the first occurrence of each string. *)
Fixpoint dedup (seen l : list string) : list string :=
  match l with
  | [] => []
  | x :: tl => if mem x seen then dedup seen tl else x :: dedup (x :: seen) tl
  end.

End process_all_saved_html.

(* ================================================================== *)
(** * scraping_toolkit/extract_from_saved_html.py: merging in [main] *)
(* ================================================================== *)

Module extract_from_saved_html.
Import cleanup_categories.

Section Merge.
(** A normalized product (the dictionary built by [_normalize_product]),
    its ['itemId'], and the text [str(product)] of the dictionary. *)
Variable product : Type.
Variable itemId : product -> string.
Variable str : product -> string.

(** The body of the loop over the products of one file: the dictionary
    [all_products] and [duplicate_count]. *)
Definition merge (state : list (string * product) * nat) (p : product)
    : list (string * product) * nat :=
  let '(all_products, duplicate_count) := state in
  let item_id := itemId p in
  match dict_get String.eqb item_id all_products with
  | Some stored =>
      if String.length (str stored) <? String.length (str p)
      then (dict_set String.eqb item_id p all_products, S duplicate_count)
      else (all_products, S duplicate_count)
  | None => (dict_set String.eqb item_id p all_products, duplicate_count)
  end.

(** The two nested loops of [main]; [files] holds, per HTML file, the
    products returned by [process_html_file]. *)
Definition merge_all (files : list (list product))
    : list (string * product) * nat :=
  fold_left (fun state products => fold_left merge products state)
    files ([], 0).

(** [len(str(product))] *)
Definition len (p : product) : nat := String.length (str p).

(** [q] is, among the records of [ps] with the id [item_id], the first
    of the longest. *)
Definition first_longest (ps : list product) (item_id : string)
    (q : product) : Prop :=
  exists l1 l2,
    ps = (l1 ++ q :: l2)%list /\ itemId q = item_id
    /\ (forall y, In y l1 -> itemId y = item_id -> len y < len q)
    /\ (forall y, In y l2 -> itemId y = item_id -> len y <= len q).
End Merge.

End extract_from_saved_html.

(* ================================================================== *)
(** * scripts/consolidate_structure.py: [consolidate_category] *)
(* ================================================================== *)

Module consolidate_structure.
Import PyStr Re cleanup_categories.

(** [slugify(name)] *)
Definition slugify (name : string) : string :=
  let slug := lower name in
  let slug :=
    sub (plus (Cls (fun c => negb (is_lower c || is_digit c)))) "-" slug in
  strip_char "-" slug.

(** [get_product_subcategory_slug(product)] *)
Definition get_product_subcategory_slug (p : product) : option string :=
  let title := lower (title p) in
  let subcategory := subcategory p in
  let has x := contains x title in
  (* Refrigerator types *)
  if has "french door" || has "french-door" then Some "french-door"
  else if has "side by side" || has "side-by-side" then Some "side-by-side"
  else if has "top freezer" || has "top-freezer" then Some "top-freezer"
  else if has "bottom freezer" || has "bottom-freezer" then Some "bottom-freezer"
  else if has "counter depth" || has "counter-depth" then Some "counter-depth"
  else if has "freezerless" then Some "freezerless"
  else if has "mini fridge" || has "compact" || has "mini refrigerator"
  then Some "mini-fridges"
  (* Saw types *)
  else if has "table saw" then Some "table-saws"
  else if has "miter saw" || has "mitre saw" then Some "miter-saws"
  else if has "circular saw" then Some "circular-saws"
  else if has "jigsaw" || has "jig saw" then Some "jigsaws"
  else if has "band saw" then Some "band-saws"
  else if has "reciprocating saw" || has "recip saw" || has "sawzall"
  then Some "reciprocating-saws"
  (* Drill types *)
  else if has "hammer drill" then Some "hammer-drills"
  else if has "right angle" then Some "right-angle-drills"
  else if has "impact driver" then Some "impact-drivers"
  (* Nailer types *)
  else if has "framing" then Some "framing"
  else if has "finishing" || has "finish nailer" || has "brad nailer"
  then Some "finishing"
  else if has "roofing" then Some "roofing"
  else if has "flooring" then Some "flooring"
  else if has "pneumatic" then Some "pneumatic"
  (* Air compressor types *)
  else if has "portable" || has "pancake" then Some "portable"
  else if has "stationary" || has "vertical" then Some "stationary"
  (* Artificial plant types *)
  else if has "hydrangea" then Some "hydrangeas"
  else if has "succulent" then Some "succulents"
  else if has "tree" || has "palm" || has "ficus" then Some "trees"
  else if has "flower" || has "rose" || has "orchid" then Some "flowers"
  (* Fall back to the slugified subcategory *)
  else if negb (subcategory =? "")%string then Some (slugify subcategory)
  else None.

(** A child file: its ["products"] list when the key is present and the
    [totalResults] of its ["pageInfo"] object when that is present.
    [featuredBrands], [lastUpdated] and the descriptive keys do not bear
    on the counts and are left out. *)
Record child_data : Type := ChildData {
  child_products : option (list product);
  child_pageInfo : option nat
}.

(** An entry of the parent's ["subcategories"] list. *)
Record subcategory_ref : Type := SubcategoryRef {
  ref_id : string;
  ref_slug : string;
  ref_productCount : nat;
  ref_path : string
}.

Record parent_data : Type := ParentData {
  parent_products : option (list product);
  parent_pageInfo : option nat;
  parent_subcategories : list subcategory_ref
}.

(** [data.get("products", [])] *)
Definition products_of (d : child_data) : list product :=
  match child_products d with Some l => l | None => [] end.

(** [child_files[slug]["data"]["products"].append(product)]; [None] is
    the [KeyError] of a child without a ["products"] key. *)
Fixpoint append_product (slug : string) (p : product)
    (child_files : list (string * child_data))
    : option (list (string * child_data)) :=
  match child_files with
  | [] => None
  | (k, d) :: tl =>
      if (k =? slug)%string then
        match child_products d with
        | Some l => Some ((k, ChildData (Some (l ++ [p])%list) (child_pageInfo d)) :: tl)
        | None => None
        end
      else
        match append_product slug p tl with
        | Some tl' => Some ((k, d) :: tl')
        | None => None
        end
  end.

(** "Distribute parent products to appropriate child files". *)
Fixpoint distribute (parent_products : list product)
    (child_files : list (string * child_data)) (unmatched : list product)
    : option (list (string * child_data) * list product) :=
  match parent_products with
  | [] => Some (child_files, unmatched)
  | p :: tl =>
      match get_product_subcategory_slug p with
      | Some target_slug =>
          if negb (target_slug =? "")%string
             && dict_has String.eqb target_slug child_files then
            match append_product target_slug p child_files with
            | Some child_files' => distribute tl child_files' unmatched
            | None => None
            end
          else distribute tl child_files (unmatched ++ [p])%list
      | None => distribute tl child_files (unmatched ++ [p])%list
      end
  end.

(** The "other" child for the unmatched products. *)
Definition add_unmatched (unmatched : list product)
    (child_files : list (string * child_data))
    : option (list (string * child_data)) :=
  match unmatched with
  | [] => Some child_files
  | _ =>
      let child_files :=
        if dict_has String.eqb "other" child_files then child_files
        else (child_files ++ [("other", ChildData (Some []) (Some 0))])%list in
      fold_left
        (fun acc p =>
           match acc with
           | Some cf => append_product "other" p cf
           | None => None
           end)
        unmatched (Some child_files)
  end.

(** "Update and save all modified child files": the children saved so
    far, and whether the loop ran to its end ([false]: a child with
    products has no ["pageInfo"]). *)
Fixpoint save_children (child_files : list (string * child_data))
    : list (string * child_data) * bool :=
  match child_files with
  | [] => ([], true)
  | (slug, d) :: tl =>
      match products_of d with
      | [] => save_children tl
      | products =>
          match child_pageInfo d with
          | None => ([], false)
          | Some _ =>
              let '(saved, ok) := save_children tl in
              ((slug, ChildData (child_products d) (Some (List.length products)))
                 :: saved, ok)
          end
      end
  end.

(** [sorted(child_files.items())]: by slug. *)
Fixpoint insert_sorted {V : Type} (kv : string * V) (l : list (string * V))
    : list (string * V) :=
  match l with
  | [] => [kv]
  | x :: tl =>
      if String.leb (fst kv) (fst x) then kv :: l else x :: insert_sorted kv tl
  end.

Fixpoint sorted {V : Type} (l : list (string * V)) : list (string * V) :=
  match l with
  | [] => []
  | x :: tl => insert_sorted x (sorted tl)
  end.

(** The list comprehension that builds ["subcategories"]. *)
Definition subcategory_refs (category_name subdir_name : string)
    (child_files : list (string * child_data)) : list subcategory_ref :=
  map (fun '(slug, d) =>
         SubcategoryRef
           (category_name ++ "/" ++ subdir_name ++ "/" ++ slug) slug
           (List.length (products_of d))
           ("/categories/" ++ category_name ++ "/" ++ subdir_name ++ "/" ++ slug))
    (filter (fun '(_, d) => negb (List.length (products_of d) =? 0))
       (sorted child_files)).

(** What a call leaves behind: the child files and the parent file it
    saved, and whether it ended by an exception. *)
Record result : Type := Result {
  saved_children : list (string * child_data);
  saved_parent : option parent_data;
  raised : bool
}.

(** [consolidate_category(category_name, subdir_name)].  [parent] is the
    content of the parent JSON ([None] when the file does not exist),
    [children] the files of the subdirectory by stem, in the order of
    [glob] ([None] when the directory does not exist).  The files are
    taken to be readable: [load_json] is not guarded, and a file that
    fails to parse ends the run before anything is written. *)
Definition consolidate_category (category_name subdir_name : string)
    (parent : option parent_data)
    (children : option (list (string * child_data))) : result :=
  match parent, children with
  | Some parent_data, Some child_files =>
      match parent_products parent_data with
      | None | Some [] => Result [] None false
      | Some products =>
          match distribute products child_files [] with
          | None => Result [] None true
          | Some (child_files, unmatched) =>
              match add_unmatched unmatched child_files with
              | None => Result [] None true
              | Some child_files =>
                  let '(saved, ok) := save_children child_files in
                  if negb ok then Result saved None true
                  else
                    match parent_pageInfo parent_data with
                    | None => Result saved None true
                    | Some _ =>
                        let total_products :=
                          list_sum
                            (map (fun '(_, d) => List.length (products_of d))
                               child_files) in
                        Result saved
                          (Some (ParentData None (Some total_products)
                                   (subcategory_refs category_name subdir_name
                                      child_files)))
                          false
                    end
              end
          end
      end
  | _, _ => Result [] None false
  end.

End consolidate_structure.

(* ================================================================== *)
(** * scripts/rebuild_category_index.py *)
(* ================================================================== *)

Module rebuild_category_index.
Import PyStr cleanup_categories.

(** What the ["products"] key of a category file holds, as far as
    [get_category_counts] looks at it: nothing (the key is absent), a
    list of products, another value that has a length (a string, an
    object, a list of other things), or a value without one ([null], a
    number, [true], [false]). *)
Inductive products_value : Type :=
| NoKey
| Listed (l : list product)
| Sized (n : nat)
| Unsized.

(** [len(data.get("products", []))]; [None] is the [TypeError] of a
    value without a length. *)
Definition products_len (v : products_value) : option nat :=
  match v with
  | NoKey => Some 0
  | Listed l => Some (List.length l)
  | Sized n => Some n
  | Unsized => None
  end.

(** The JSON files under the categories directory, in the order of
    [rglob]: the path relative to the directory, and what the file
    holds; [None] when it cannot be read or parsed, or when it does not
    hold an object, so that [data.get] raises. *)
Definition files : Type := list (string * option products_value).

(** [get_category_counts()]: per category id, [len] of the file's
    ["products"] value ([0] without the key).  Files whose name starts
    with an underscore and [index.json] are passed over; a file is
    skipped when anything raises inside the [try]: it fails to load, or
    its ["products"] value has no length. *)
Definition get_category_counts (d : files) : list (string * nat) :=
  fold_left
    (fun counts '(rel_path, content) =>
       if prefix "_" (name rel_path) || (name rel_path =? "index.json")%string
       then counts
       else
         match content with
         | Some products =>
             match products_len products with
             | Some n =>
                 dict_set String.eqb (replace ".json" "" rel_path) n counts
             | None => counts
             end
         | None => counts
         end)
    d [].

(** A node of [index.json]: its ["id"], its ["productCount"], and its
    ["subcategories"] list when the key is present. *)
#[local] Unset Elimination Schemes.
Inductive category : Type :=
| Category (id : string) (productCount : nat)
    (subcategories : option (list category)).
#[local] Set Elimination Schemes.

Definition id (c : category) : string :=
  match c with Category i _ _ => i end.
Definition productCount (c : category) : nat :=
  match c with Category _ n _ => n end.
Definition subcategories (c : category) : option (list category) :=
  match c with Category _ _ s => s end.

(** [cat.get("subcategories", [])] *)
Definition children (c : category) : list category :=
  match subcategories c with Some l => l | None => [] end.

Record index : Type := Index {
  categories : list category;
  totalProducts : nat;
  index_lastUpdated : string
}.

(** [update_category(cat, counts)] *)
Fixpoint update_category (counts : list (string * nat)) (cat : category)
    : category :=
  match cat with
  | Category cat_id count subs =>
      Category cat_id
        (match dict_get String.eqb cat_id counts with
         | Some n => n
         | None => count
         end)
        (match subs with
         | Some l => Some (map (update_category counts) l)
         | None => None
         end)
  end.

(** "Check if we need to add furniture/outdoor", on the first category
    whose id is [furniture]; [None] is the [KeyError] of appending to a
    category without a ["subcategories"] key. *)
Fixpoint add_outdoor (counts : list (string * nat)) (cats : list category)
    : option (list category) :=
  match cats with
  | [] => Some []
  | c :: tl =>
      if (id c =? "furniture")%string then
        let outdoor_exists :=
          existsb (fun s => (id s =? "furniture/outdoor")%string) (children c) in
        if negb outdoor_exists && dict_has String.eqb "furniture/outdoor" counts
        then
          match subcategories c with
          | Some l =>
              let n := match dict_get String.eqb "furniture/outdoor" counts with
                       | Some n => n | None => 0 end in
              Some (Category (id c) (productCount c)
                      (Some (l ++ [Category "furniture/outdoor" n None])%list)
                    :: tl)
          | None => None
          end
        else Some cats
      else
        match add_outdoor counts tl with
        | Some tl' => Some (c :: tl')
        | None => None
        end
  end.

(** [main()]: the index written back, [None] when the run raises. *)
Definition main (now : string) (d : files) (idx : index) : option index :=
  let counts := get_category_counts d in
  let total_products := list_sum (map snd counts) in
  match add_outdoor counts (categories idx) with
  | Some cats =>
      Some (Index (map (update_category counts) cats) total_products now)
  | None => None
  end.


(** ** The reading of the specification, for comparison *)





End rebuild_category_index.

(* ================================================================== *)
(** * Patterns and texts in lower case *)
(* ================================================================== *)

Module Lowered.
Import PyStr Re.

(** No upper-case letter occurs in the text. *)
Definition no_upper (s : string) : bool :=
  all_chars (fun c => negb (is_upper c)) s.

(** No upper-case letter occurs as a literal of the pattern. *)
Fixpoint lower_pattern (r : regex) : bool :=
  match r with
  | Chr c => negb (is_upper c)
  | Seq r1 r2 | Alt r1 r2 => lower_pattern r1 && lower_pattern r2
  | Star r1 | Grp _ r1 | NLook r1 => lower_pattern r1
  | Eps | Cls _ | Bnd | Eos => true
  end.

End Lowered.

(* ================================================================== *)
(** * Findings of [analyze_misplaced_products] *)
(* ================================================================== *)

Module findings.
Import PyStr cleanup_categories.

(** What holds of every entry of the two finding lists: an entry of
    [misplaced_products] names the category of its file and suggests one
    of five other categories; an entry of [subcategory_fixes] suggests
    a valid subcategory of appliances other than the current one. *)
Definition sound_misplaced (mp : misplaced) : Prop :=
  mp_current_category mp = get_category_from_path (mp_current_file mp)
  /\ mp_suggested_category mp <> mp_current_category mp
  /\ In (mp_suggested_category mp)
        ["other"; "furniture"; "home-decor"; "tools"; "appliances"].

Definition sound_fix (sf : subcategory_fix) : Prop :=
  sf_suggested_subcategory sf <> sf_current_subcategory sf
  /\ exists valid_subs,
       assoc "appliances" VALID_SUBCATEGORIES = Some valid_subs
       /\ mem (sf_suggested_subcategory sf) valid_subs = true.

(** The number of products in the loaded files. *)
Definition loaded_products (c : CategoryCleanup) : nat :=
  list_sum (map (fun '(_, data) => List.length (file_products data))
              (category_files c)).

(** A file as [apply_fixes] writes it at time [now]: a products list,
    its length as [totalResults], and the time stamp. *)
Definition written_at (now : string) (content : option (option category_data))
    : Prop :=
  exists ps,
    content = Some (Some (CategoryData (Some ps) (Some (List.length ps)) now)).

End findings.

(* ================================================================== *)
(** * scripts/consolidate_structure.py: the products of a directory and
      [compute_featured_brands] *)
(* ================================================================== *)

Module consolidation.
Import PyStr Re cleanup_categories consolidate_structure.

(** All the products held by a list of child files, file after file. *)
Definition all_child_products (child_files : list (string * child_data))
    : list product :=
  flat_map (fun kv => products_of (snd kv)) child_files.

(** Every child file has a ["products"] list and a ["pageInfo"] object. *)
Definition well_formed (child_files : list (string * child_data)) : Prop :=
  Forall (fun kv => child_products (snd kv) <> None
                    /\ child_pageInfo (snd kv) <> None) child_files.

(** [brand_counts]: how many products carry each non-empty brand, the
    brands in the order in which they first occur. *)
Definition count_brand (brand_counts : list (string * nat)) (p : product)
    : list (string * nat) :=
  let brand := brand p in
  if (brand =? "")%string then brand_counts
  else
    dict_set String.eqb brand
      (match dict_get String.eqb brand brand_counts with
       | Some n => n
       | None => 0
       end + 1)
      brand_counts.

Definition brand_counts (products : list product) : list (string * nat) :=
  fold_left count_brand products [].

(** The order of [key=lambda x: (-x[1], x[0])]: larger counts first,
    equal counts by name. *)
Definition brand_before (a b : string * nat) : bool :=
  (snd b <? snd a) || ((snd a =? snd b) && String.leb (fst a) (fst b)).

(** [sorted(items, key=...)], a stable sort. *)
Fixpoint insert_by {A : Type} (le : A -> A -> bool) (x : A) (l : list A)
    : list A :=
  match l with
  | [] => [x]
  | y :: tl => if le x y then x :: l else y :: insert_by le x tl
  end.

Fixpoint sort_by {A : Type} (le : A -> A -> bool) (l : list A) : list A :=
  match l with
  | [] => []
  | x :: tl => insert_by le x (sort_by le tl)
  end.

Record featured_brand : Type := FeaturedBrand {
  brandId : string;
  brandName : string;
  logoUrl : string;
  count : nat
}.

(** [compute_featured_brands(products, max_brands)] *)
Definition compute_featured_brands (products : list product) (max_brands : nat)
    : list featured_brand :=
  let sorted_brands := sort_by brand_before (brand_counts products) in
  map (fun '(brand_name, count) =>
         FeaturedBrand (slugify brand_name) brand_name
           ("images/brands/" ++ slugify brand_name ++ ".svg") count)
    (firstn max_brands sorted_brands).

(** The number of products that carry the brand [b]. *)
Definition products_of_brand (b : string) (products : list product) : nat :=
  List.length (filter (fun p => (brand p =? b)%string) products).

End consolidation.

(* ================================================================== *)
(** * scraping_toolkit/extract_from_saved_html.py: [process_html_file] *)
(* ================================================================== *)

Module saved_html_files.
Import PyStr.

Section Files.
Variable product : Type.
Variable itemId : product -> string.

(** [process_html_file]: of the products extracted from the file, those
    with a non-empty ['itemId'] ("Filter out products without itemId"). *)
Definition process_html_file (extracted : list product) : list product :=
  filter (fun p => negb (itemId p =? "")%string) extracted.
End Files.

End saved_html_files.

(* ================================================================== *)
(** * Manifests of scraped pages: scripts/categorize_scraped_products.py
      and scripts/extract_gallery_from_scrapes.py *)
(* ================================================================== *)

Module manifests.
Import PyStr Re cleanup_categories process_all_saved_html.

(** [/p/([^/]+)/] *)
Definition slug_pattern : regex :=
  seqs [ lit "/p/"; Grp 1 (plus (Cls (fun c => negb (Ascii.eqb c "/"))));
         Chr "/" ].

(** [s.strip()]: white space removed at both ends. *)
Fixpoint lstrip (s : string) : string :=
  match s with
  | String x tl => if is_space x then lstrip tl else s
  | EmptyString => EmptyString
  end.

Definition strip (s : string) : string :=
  rev_string (lstrip (rev_string (lstrip s))).

(** The dictionary that [extract_product_from_manifest] returns, with
    the ["images"] entry that [main] may add: the primary image and the
    gallery. *)
Record scraped_product : Type := ScrapedProduct {
  sp_productId : string;
  sp_url : string;
  sp_title : string;
  sp_slug : string;
  sp_images : option (string * list string)
}.

(** categorize_scraped_products.py, [extract_product_from_manifest].
    The argument is what [json.loads] returns for the manifest, [None]
    when reading or parsing raises.  A manifest that is not an object,
    or whose [originalUrl] or [title] is not a string, makes a later
    statement raise, and the handler returns [None]. *)
Definition extract_product_from_manifest (manifest : option json)
    : option scraped_product :=
  match manifest with
  | Some (JObj data) =>
      match get_field "originalUrl" data with
      | Some (JStr original_url) =>
          if negb (contains "homedepot.com/p/" original_url) then None
          else
            match search_from false href_pattern None original_url with
            | None => None
            | Some m =>
                let product_id := group 1 m in
                let product_slug :=
                  match search_from false slug_pattern None original_url with
                  | Some name_match => group 1 name_match
                  | None => ""
                  end in
                match get_field "title" data with
                | Some (JStr title) =>
                    Some (ScrapedProduct product_id original_url
                            (strip (replace " - The Home Depot" "" title))
                            product_slug None)
                | None =>
                    Some (ScrapedProduct product_id original_url "" product_slug
                            None)
                | Some _ => None
                end
            end
      | _ => None
      end
  | _ => None
  end.

(** extract_gallery_from_scrapes.py, [extract_product_id_from_manifest] *)
Definition extract_product_id_from_manifest (manifest : option json)
    : option string :=
  match manifest with
  | Some (JObj data) =>
      match get_field "originalUrl" data with
      | Some (JStr original_url) =>
          match search_from false href_pattern None original_url with
          | Some m => Some (group 1 m)
          | None => None
          end
      | None => None
      | Some _ => None
      end
  | _ => None
  end.

(** A folder of scraped data: whether it is a directory, its
    manifest.json when the file exists, and the text of its index.html
    when the file exists ([Some None]: reading it raises). *)
Record folder : Type := Folder {
  is_dir : bool;
  manifest_json : option (option json);
  index_html : option (option string)
}.

(** [get_existing_products()]: the ids in the category files whose name
    does not start with an underscore. *)
Fixpoint get_existing_products (d : disk) : list string :=
  match d with
  | [] => []
  | (rel_path, content) :: tl =>
      if prefix "_" (name rel_path) then get_existing_products tl
      else
        match content with
        | Some (CategoryData (Some ps) _ _) =>
            (flat_map
               (fun p =>
                  match productId p with
                  | Some pid => if (pid =? "")%string then [] else [pid]
                  | None => []
                  end) ps
             ++ get_existing_products tl)%list
        | _ => get_existing_products tl
        end
  end.

(** What the scanning loop of categorize_scraped_products.py [main]
    keeps: [products_by_category] and the three counters. *)
Record scan : Type := Scan {
  products_by_category : list (string * list scraped_product);
  total_products : nat;
  new_products : nat;
  skipped : nat
}.

(** [f"{category}/{subcategory}" if subcategory else category] *)
Definition category_key (c : string * option string) : string :=
  match c with
  | (category, Some subcategory) =>
      if (subcategory =? "")%string then category
      else category ++ "/" ++ subcategory
  | (category, None) => category
  end.

(** The ["images"] entry for a non-empty list of images. *)
Definition images_entry (images : list string) : option (string * list string) :=
  match images with
  | [] => None
  | primary :: _ =>
      Some (primary, if 1 <? List.length images then images else [])
  end.

(** The body of the loop over the folders. *)
Definition scan_folder (existing_products : list string) (s : scan)
    (f : folder) : scan :=
  if negb (is_dir f) then s
  else
    match manifest_json f with
    | None => s
    | Some manifest =>
        match extract_product_from_manifest manifest with
        | None =>
            Scan (products_by_category s) (total_products s) (new_products s)
              (skipped s + 1)
        | Some product =>
            if mem (sp_productId product) existing_products then
              Scan (products_by_category s) (total_products s + 1)
                (new_products s) (skipped s)
            else
              let images :=
                match index_html f with
                | Some html =>
                    categorize_scraped_products.extract_images_from_html html
                | None => []
                end in
              let product :=
                match images_entry images with
                | Some entry =>
                    ScrapedProduct (sp_productId product) (sp_url product)
                      (sp_title product) (sp_slug product) (Some entry)
                | None => product
                end in
              let key :=
                category_key
                  (categorize_scraped_products.categorize_product
                     (sp_title product) (sp_slug product)) in
              Scan
                (dict_set String.eqb key
                   (dict_default key (products_by_category s) ++ [product])%list
                   (products_by_category s))
                (total_products s + 1) (new_products s + 1) (skipped s)
        end
    end.

Definition scan_folders (existing_products : list string)
    (folders : list folder) : scan :=
  fold_left (scan_folder existing_products) folders (Scan [] 0 0 0).

(** The number of products filed under all the keys. *)
Definition filed (s : scan) : nat :=
  list_sum (map (fun kv => List.length (snd kv)) (products_by_category s)).

(** The check that a result of [categorize_product] names one of the
    ten categories, and has a subcategory, which is not empty, unless
    the category is other. *)
Definition well_shaped (r : string * option string) : bool :=
  mem (fst r)
    ["tools"; "appliances"; "furniture"; "home-decor"; "electrical";
     "garage"; "storage"; "smart-home"; "solar"; "other"]
  && match snd r with
     | Some subcategory =>
         negb (fst r =? "other")%string && negb (subcategory =? "")%string
     | None => (fst r =? "other")%string
     end.

(** What holds of a product that the loop has filed under [key]; its
    id is a run of nine digits or more when its URL is ASCII text. *)
Definition filed_well (existing_products : list string) (key : string)
    (p : scraped_product) : Prop :=
  mem (sp_productId p) existing_products = false
  /\ key = category_key
             (categorize_scraped_products.categorize_product
                (sp_title p) (sp_slug p))
  /\ (ascii_text (sp_url p) = true ->
      all_chars is_digit (sp_productId p) = true
      /\ 9 <= String.length (sp_productId p)).

End manifests.

(* ================================================================== *)
(** * scripts/extract_gallery_from_scrapes.py: matching in [main] and
      [extract_images_from_manifest] *)
(* ================================================================== *)

Module gallery_matching.
Import PyStr Re cleanup_categories images process_all_saved_html.

(** [/productImages/([a-f0-9-]+)/] *)
Definition uuid_pattern : regex :=
  seqs [ lit "/productImages/"; Grp 1 (plus (Cls uuid_char)); Chr "/" ].

(** [_\d+\.jpg$], [_\d+\.avif$] and [\.(avif|webp)$] *)
Definition jpg_size_pattern : regex :=
  seqs [ Chr "_"; plus digit; Chr "."; lit "jpg"; Eos ].
Definition avif_size_pattern : regex :=
  seqs [ Chr "_"; plus digit; Chr "."; lit "avif"; Eos ].
Definition modern_extension_pattern : regex :=
  seqs [ Chr "."; Grp 1 (alts [lit "avif"; lit "webp"]); Eos ].

(** The UUID of a URL, when the pattern is found in it. *)
Definition url_uuid (url : string) : option string :=
  match search_from false uuid_pattern None url with
  | Some m => Some (group 1 m)
  | None => None
  end.

(** "Filter to unique UUIDs and normalize": the loop of [main] over
    [gallery], carrying [seen_uuids] and [unique_gallery]. *)
Fixpoint filter_unique (gallery seen_uuids unique_gallery : list string)
    : list string :=
  match gallery with
  | [] => unique_gallery
  | url :: tl =>
      match url_uuid url with
      | Some uuid =>
          if mem uuid seen_uuids then filter_unique tl seen_uuids unique_gallery
          else
            let normalized := sub jpg_size_pattern "_1000.jpg" url in
            let normalized := sub modern_extension_pattern ".jpg" normalized in
            filter_unique tl (uuid :: seen_uuids)
              (unique_gallery ++ [normalized])%list
      | None => filter_unique tl seen_uuids unique_gallery
      end
  end.

(** What [for url in gallery] yields when [gallery] is a string: its
    characters, one by one. *)
Definition characters (s : string) : list string :=
  map (fun c => String c "") (list_ascii_of_string s).

(** The gallery that [main] looks at for a catalog product:
    [product_galleries[pid]], a list of URLs, or else
    [all_images[primary_uuid]], which is one URL, a string. *)
Definition gallery_of (pid : string) (primary_uuid : option string)
    (product_galleries : list (string * list string))
    (all_images : list (string * string)) : option (list string) :=
  match dict_get String.eqb pid product_galleries with
  | Some gallery => Some gallery
  | None =>
      match primary_uuid with
      | Some uuid =>
          if (uuid =? "")%string then None
          else
            match dict_get String.eqb uuid all_images with
            | Some url => Some (characters url)
            | None => None
            end
      | None => None
      end
  end.

(** [data["new_gallery"]] for a catalog product, when [main] sets it:
    "only accept reasonable gallery sizes (2-20 images)". *)
Definition new_gallery (pid : string) (primary_uuid : option string)
    (product_galleries : list (string * list string))
    (all_images : list (string * string)) : option (list string) :=
  match gallery_of pid primary_uuid product_galleries all_images with
  | Some gallery =>
      let unique_gallery := filter_unique gallery [] [] in
      if (2 <=? List.length unique_gallery)
         && (List.length unique_gallery <=? 20)
      then Some unique_gallery
      else None
  | None => None
  end.

(** The UUIDs found in the URLs of a gallery, in order. *)
Definition uuids (gallery : list string) : list string :=
  flat_map (fun url => match url_uuid url with
                       | Some uuid => [uuid]
                       | None => []
                       end) gallery.

(** The three substitutions of [extract_images_from_manifest]; the
    result of the first is overwritten by the second, which starts from
    [original_url] again. *)
Definition manifest_normalize (original_url : string) : string :=
  let normalized_url := sub jpg_size_pattern "_1000.jpg" original_url in
  let normalized_url := sub avif_size_pattern "_1000.jpg" original_url in
  let normalized_url := sub modern_extension_pattern ".jpg" normalized_url in
  normalized_url.

(** The last character of a text. *)
Fixpoint last_char (s : string) : option ascii :=
  match s with
  | EmptyString => None
  | String c EmptyString => Some c
  | String _ tl => last_char tl
  end.

End gallery_matching.

(* ================================================================== *)
(** * Runs of characters: what [re.sub] of a repeated class and
      [str.strip] of one character compute *)
(* ================================================================== *)

Module Runs.
Import PyStr.

(** The longest beginning of [s] made of characters of [f], and what
    follows it. *)
Fixpoint take_run (f : ascii -> bool) (s : string) : string :=
  match s with
  | String c tl => if f c then String c (take_run f tl) else EmptyString
  | EmptyString => EmptyString
  end.

Fixpoint drop_run (f : ascii -> bool) (s : string) : string :=
  match s with
  | String c tl => if f c then drop_run f tl else s
  | EmptyString => EmptyString
  end.

(** [s] with every run of characters of [f] replaced by [repl];
    [in_run] tells that the run before [s] has been replaced already. *)
Fixpoint squeeze (f : ascii -> bool) (repl : string) (in_run : bool)
    (s : string) : string :=
  match s with
  | EmptyString => EmptyString
  | String c tl =>
      if f c then
        if in_run then squeeze f repl true tl
        else repl ++ squeeze f repl true tl
      else String c (squeeze f repl false tl)
  end.

(** [s] without the characters [c] at its end. *)
Fixpoint rstrip_char (c : ascii) (s : string) : string :=
  match s with
  | EmptyString => EmptyString
  | String x tl =>
      match rstrip_char c tl with
      | EmptyString => if Ascii.eqb x c then EmptyString else String x EmptyString
      | r => String x r
      end
  end.

(** No two hyphens follow each other. *)
Fixpoint no_double_hyphen (s : string) : bool :=
  match s with
  | EmptyString => true
  | String a tl =>
      match tl with
      | String b _ => negb (Ascii.eqb a "-" && Ascii.eqb b "-")
      | EmptyString => true
      end && no_double_hyphen tl
  end.

Definition starts_with (c : ascii) (s : string) : bool :=
  match s with
  | String x _ => Ascii.eqb x c
  | EmptyString => false
  end.

Fixpoint ends_with (c : ascii) (s : string) : bool :=
  match s with
  | EmptyString => false
  | String x EmptyString => Ascii.eqb x c
  | String _ tl => ends_with c tl
  end.

(** The characters of a slug: [a-z], [0-9] and the hyphen. *)
Definition slug_char (c : ascii) : bool :=
  is_lower c || is_digit c || Ascii.eqb c "-".

(** [[^a-z0-9]] *)
Definition not_alnum (c : ascii) : bool := negb (is_lower c || is_digit c).

(** A slug: characters of [a-z0-9-] only, hyphens single and neither
    first nor last. *)
Definition is_slug (s : string) : Prop :=
  all_chars slug_char s = true
  /\ no_double_hyphen s = true
  /\ starts_with "-" s = false
  /\ ends_with "-" s = false.

End Runs.

(* ================================================================== *)
(** * scraping_toolkit/parse_manual_html.py: [parse_html_file], [main] *)
(* ================================================================== *)

Module parse_manual_html.
Import PyStr process_all_saved_html.

(** A path of the command line: no such file, a file that [open] or
    [read] cannot deliver as UTF-8 text, or a saved page, with its text
    and the tree that BeautifulSoup builds from it. *)
Inductive html_file : Type :=
| Missing
| Unreadable
| Page (html_content : string) (page : soup).

(** What is written to [<category>_plp.json] and to [manifest.json].
    [scrapedAt] and [timestamp] hold the time of the call and are left
    out. *)
Record plp : Type := Plp {
  categoryName : string;
  url : string;
  productIds : list string;
  totalProducts : nat
}.

Record manifest : Type := Manifest {
  manifest_url : string;
  productCount : nat;
  manifest_totalProducts : nat
}.

(** The three files of the category's output directory, [None] for a
    file that is not there.  The directory is taken to be writable. *)
Record cat_dir : Type := CatDir {
  plp_json : option plp;
  manifest_json : option manifest;
  page_html : option string
}.

(** [parse_html_file(html_file, category_slug, output_dir)] for a
    readable file named [name]: the directory as the call leaves it, and
    the number returned. *)
Definition parse_html_file (name html_content : string) (page : soup)
    (category_slug : string) : cat_dir * nat :=
  let product_ids := extract_product_ids page in
  let data :=
    Plp category_slug ("manually_saved_" ++ name) product_ids
      (List.length product_ids) in
  let manifest :=
    Manifest (url data) (List.length product_ids) (List.length product_ids) in
  (CatDir (Some data) (Some manifest) (Some html_content),
   List.length product_ids).

(** The loop of [main] over the paths, each with the name of its last
    component: the directory at the end and the total printed, [None]
    when a read raises and ends the run. *)
Fixpoint process (html_files : list (string * html_file)) (category : string)
    (total_products : nat) (out : cat_dir) : cat_dir * option nat :=
  match html_files with
  | [] => (out, Some total_products)
  | (name, f) :: tl =>
      match f with
      | Missing => process tl category total_products out
      | Unreadable => (out, None)
      | Page html_content page =>
          let '(out', count) :=
            parse_html_file name html_content page category in
          process tl category (total_products + count) out'
      end
  end.

(** [main()]; [html_files] takes one path or more, and the parser exits
    before anything is done when none is given. *)
Definition main (html_files : list (string * html_file)) (category : string)
    (out : cat_dir) : cat_dir * option nat :=
  match html_files with
  | [] => (out, None)
  | _ => process html_files category 0 out
  end.

(** The number of identifiers found in a path's page. *)
Definition found (f : string * html_file) : nat :=
  match snd f with
  | Page _ page => List.length (extract_product_ids page)
  | _ => 0
  end.

(** The last saved page among the paths. *)
Fixpoint last_page (html_files : list (string * html_file))
    : option (string * string * soup) :=
  match html_files with
  | [] => None
  | (name, f) :: tl =>
      match last_page tl with
      | Some x => Some x
      | None =>
          match f with
          | Page html_content page => Some (name, html_content, page)
          | _ => None
          end
      end
  end.

End parse_manual_html.

(* ================================================================== *)
(** * Properties *)
(* ================================================================== *)

Import PyStr Re cleanup_categories.

(** ** Strings *)

Lemma append_assoc (a b c : string) : (a ++ b) ++ c = a ++ (b ++ c).
Proof. induction a; simpl; congruence. Qed.

Lemma append_nil_r (a : string) : a ++ "" = a.
Proof. induction a; simpl; congruence. Qed.

Lemma length_append (a b : string) :
  String.length (a ++ b) = String.length a + String.length b.
Proof. induction a; simpl; congruence. Qed.

Lemma substring_0_append (w s : string) :
  substring 0 (String.length (w ++ s) - String.length s) (w ++ s) = w.
Proof.
  rewrite length_append.
  replace (String.length w + String.length s - String.length s)
    with (String.length w) by lia.
  induction w; simpl.
  - destruct s; reflexivity.
  - rewrite IHw. reflexivity.
Qed.

Lemma all_chars_append f (a b : string) :
  all_chars f (a ++ b) = all_chars f a && all_chars f b.
Proof. induction a; simpl; [reflexivity|]. rewrite IHa. apply andb_assoc. Qed.

(** ** The matcher returns matches of the pattern *)

Lemma star_loop_sound ci r (A : Type) (k : mstate -> option A) a
    (IH : forall st (k0 : mstate -> option A) a0,
        rx ci r st k0 = Some a0 ->
        exists st', Matches ci r st st' /\ k0 st' = Some a0) :
  forall n st,
    star_loop (fun st0 k0 => rx ci r st0 k0) k n st = Some a ->
    exists st', Matches ci (Star r) st st' /\ k st' = Some a.
Proof.
  induction n; intros st H; simpl in H.
  - exists st. split; [constructor | assumption].
  - match type of H with
    | match ?e with _ => _ end = _ => destruct e eqn:E
    end.
    + injection H as ->. apply IH in E. destruct E as [st1 [H1 H]].
      destruct (String.length (rest st1) <? String.length (rest st));
        [|discriminate].
      apply IHn in H. destruct H as [st2 [H2 H]].
      exists st2. split; [eapply MStarS; eassumption | assumption].
    + exists st. split; [constructor | assumption].
Qed.

Lemma rx_sound ci r : forall (A : Type) st (k : mstate -> option A) a,
  rx ci r st k = Some a -> exists st', Matches ci r st st' /\ k st' = Some a.
Proof.
  induction r; intros A st k a H; cbn [rx] in H.
  - exists st. split; [constructor | assumption].
  - destruct (rest st) as [|x tl] eqn:E; [discriminate|].
    destruct (chr_eqb ci c x) eqn:Ec; [|discriminate].
    eexists. split; [econstructor; eassumption | assumption].
  - destruct (rest st) as [|x tl] eqn:E; [discriminate|].
    destruct (f x) eqn:Ec; [|discriminate].
    eexists. split; [econstructor; eassumption | assumption].
  - destruct (at_boundary st) eqn:E; [|discriminate].
    exists st. split; [constructor; assumption | assumption].
  - destruct (at_end st) eqn:E; [|discriminate].
    exists st. split; [constructor; assumption | assumption].
  - apply IHr1 in H. destruct H as [st1 [H1 H]].
    apply IHr2 in H. destruct H as [st2 [H2 H]].
    exists st2. split; [econstructor; eassumption | assumption].
  - destruct (rx ci r1 st k) eqn:E.
    + injection H as <-. apply IHr1 in E. destruct E as [st' [H1 H]].
      exists st'. split; [apply MAltL; assumption | assumption].
    + apply IHr2 in H. destruct H as [st' [H1 H]].
      exists st'. split; [apply MAltR; assumption | assumption].
  - eapply star_loop_sound; [|eassumption]. intros. apply IHr. assumption.
  - apply IHr in H. destruct H as [st1 [H1 H]].
    eexists. split; [constructor; eassumption | assumption].
  - destruct (rx ci r st (fun _ => Some tt)) eqn:E; [discriminate|].
    exists st. split; [constructor; assumption | assumption].
Qed.


Lemma consumed_append st st' w :
  rest st = w ++ rest st' -> consumed st st' = w.
Proof. intros E. unfold consumed. rewrite E. apply substring_0_append. Qed.

(** Repetition of a class reads characters of the class and captures
    nothing. *)
Lemma Matches_star_cls ci f st st' :
  Matches ci (Star (Cls f)) st st' ->
  exists w, rest st = w ++ rest st' /\ all_chars f w = true
            /\ caps st' = caps st.
Proof.
  intros H. remember (Star (Cls f)) as r eqn:Er.
  induction H; try discriminate.
  - exists "". auto.
  - injection Er as ->. specialize (IHMatches2 eq_refl).
    destruct IHMatches2 as [w [E [Hw Hc]]].
    inversion H as [| |? x tl ? Hr Hf| | | | | | | | |]; subst.
    exists (String x w). simpl in *.
    rewrite Hf, Hw, Hr. subst tl. auto.
Qed.

Lemma Matches_rep_cls ci f n : forall st st',
  Matches ci (rep n (Cls f)) st st' ->
  exists w, rest st = w ++ rest st' /\ all_chars f w = true
            /\ String.length w = n /\ caps st' = caps st.
Proof.
  induction n; intros st st' H; simpl in H.
  - inversion H; subst. exists "". auto.
  - inversion H as [| | | | |? ? ? st1 ? H1 H2| | | | | |]; subst.
    apply IHn in H2. destruct H2 as [w [E [Hw [Hl Hc]]]].
    inversion H1 as [| |? x tl ? Hr Hf| | | | | | | | |]; subst.
    exists (String x w). simpl in *.
    rewrite Hf, Hw, Hr. subst tl. auto.
Qed.

Lemma Matches_at_least_cls ci f n st st' :
  Matches ci (at_least n (Cls f)) st st' ->
  exists w, rest st = w ++ rest st' /\ all_chars f w = true
            /\ n <= String.length w /\ caps st' = caps st.
Proof.
  intros H. unfold at_least in H.
  inversion H as [| | | | |? ? ? st1 ? H1 H2| | | | | |]; subst.
  apply Matches_rep_cls in H1. destruct H1 as [w1 [E1 [Hw1 [Hl1 Hc1]]]].
  apply Matches_star_cls in H2. destruct H2 as [w2 [E2 [Hw2 Hc2]]].
  exists (w1 ++ w2). rewrite all_chars_append, length_append, Hw1, Hw2.
  rewrite E1, E2, append_assoc. repeat split; [lia | congruence].
Qed.

(** Every match reported by a scan is a match of the pattern, started
    with no group captured. *)
Lemma scan_sound r : forall fuel pv s m,
  In m (scan fuel r pv s) ->
  exists pv' s', Matches false r (MState pv' s' []) m.
Proof.
  induction fuel; intros pv s m H; simpl in H; [contradiction|].
  assert (Hnext : In m match s with
                       | "" => []
                       | String c tl => scan fuel r (Some c) tl
                       end ->
                  exists pv' s', Matches false r (MState pv' s' []) m).
  { destruct s; [intros []|]. apply IHfuel. }
  destruct (match_here false r pv s) as [m0|] eqn:E; [|auto].
  assert (H0 : exists pv' s', Matches false r (MState pv' s' []) m0).
  { unfold match_here in E. apply rx_sound in E. destruct E as [st' [HM E]].
    injection E as ->. eauto. }
  destruct (String.length (rest m0) <? String.length s);
    destruct H as [<-|H]; eauto.
Qed.

Lemma group_set_group i st0 st1 :
  group i (set_group i st0 st1) = consumed st0 st1.
Proof. unfold group, set_group. simpl. rewrite Nat.eqb_refl. reflexivity. Qed.

(** Inversion of a match of a sequence, and of a match of [r]. *)
Ltac invert_seq :=
  repeat match goal with
         | H : Matches _ (Seq _ _) _ _ |- _ => inversion H; subst; clear H
         end.

Ltac invert_one r :=
  match goal with
  | H : Matches _ r _ _ |- _ => inversion H; subst; clear H
  end.


(** ** The classifier of cleanup_categories.py *)

(** The two brand lists share no name. *)
Lemma brands_disjoint b :
  mem b APPLIANCE_BRANDS = true -> mem b NON_APPLIANCE_BRANDS = false.
Proof.
  intros H. destruct (mem b NON_APPLIANCE_BRANDS) eqn:E; [|reflexivity].
  unfold mem in E. apply existsb_exists in E. destruct E as [x [Hin Hx]].
  apply String.eqb_eq in Hx. subst x. simpl in Hin.
  repeat (destruct Hin as [Hin|Hin]; [subst b; vm_compute in H; discriminate|]).
  contradiction.
Qed.

(** The condition that decides the next branch of a chain of tests. *)
Ltac head_bool t :=
  match t with
  | (if ?b then _ else _) => head_bool b
  | match ?x with Some _ => _ | None => _ end => head_bool x
  | (?a && _)%bool => head_bool a
  | (?a || _)%bool => head_bool a
  | negb ?a => head_bool a
  | _ => let _ := match goal with _ => is_var t end in constr:(t)
  end.

(** Follow a chain of tests in a hypothesis or in the goal, one test at a
    time. *)
Ltac walk_hyp H :=
  repeat (cbn in H;
          match type of H with
          | ?l = _ => let b := head_bool l in destruct b
          end);
  cbn in H.





(** C8.  StyleWell is on the deny-list of non-appliance brands, and a
    StyleWell product that is filed under appliances is therefore always
    sent away, whatever its title and its other fields are: to other or
    to furniture, and, for an ASCII title, to other when the title has
    the word faucet and to furniture when it has not.  The product
    titled "StyleWell Rolling Kitchen Cart" is sent to furniture. *)
Theorem stylewell_cart_goes_to_furniture p :
  brand p = "StyleWell" ->
  mem (brand p) NON_APPLIANCE_BRANDS = true
  /\ (classify_product p "appliances" = Some "other"
      \/ classify_product p "appliances" = Some "furniture")
  /\ (ascii_text (title p) = true ->
      classify_product p "appliances"
      = Some (if isearch re_faucet (lower (title p)) then "other"
              else "furniture"))
  /\ (title p = "StyleWell Rolling Kitchen Cart" ->
      classify_product p "appliances" = Some "furniture").
Proof.
  intros Hb.
  assert (H : classify_product p "appliances"
              = Some (if isearch re_faucet (lower (title p)) then "other"
                      else "furniture")).
  { unfold classify_product. rewrite Hb.
    change (mem "StyleWell" NON_APPLIANCE_BRANDS
            && ("appliances" =? "appliances")%string) with true.
    cbv iota.
    destruct (isearch re_faucet (lower (title p))); [reflexivity|].
    destruct (isearch re_brand_furniture (lower (title p))); reflexivity. }
  rewrite H, Hb. split; [reflexivity|]. split.
  - destruct (isearch re_faucet (lower (title p))); auto.
  - split; [intros _; reflexivity|].
    intros Ht. rewrite Ht. reflexivity.
Qed.

Lemma stylewell_cart_goes_to_furniture_witness :
  classify_product
    (Product (Some "100000002") "StyleWell Rolling Kitchen Cart" "StyleWell"
       "Kitchen Carts" None)
    "appliances" = Some "furniture".
Proof.
  refine (proj2 (proj2 (proj2
            (@stylewell_cart_goes_to_furniture
               (Product (Some "100000002") "StyleWell Rolling Kitchen Cart"
                  "StyleWell" "Kitchen Carts" None) _))) _);
    reflexivity.
Defined.

(** ** [categorize_product] *)

(** C7, as stated, fails: no value of the second argument makes the
    result the pair of appliances and the bare slug french-door. *)
Lemma categorize_product_not_bare_slug :
  ~ (exists slug,
        categorize_scraped_products.categorize_product
          "GE 27 cu. ft. French Door Refrigerator" slug
        = ("appliances", Some "french-door")).
Proof.
  intros [slug H]. vm_compute in H. discriminate.
Qed.

(** C7, amended.  [categorize_product] is a function of the title (its
    second argument, the slug of the page, is not consulted; it takes no
    brand), and on the title "GE 27 cu. ft. French Door Refrigerator" it
    returns appliances with the subcategory path
    refrigerators/french-door. *)
Theorem categorize_product_french_door slug :
  categorize_scraped_products.categorize_product
    "GE 27 cu. ft. French Door Refrigerator" slug
  = ("appliances", Some "refrigerators/french-door").
Proof. reflexivity. Qed.

(** ** [extract_product_ids] *)

Section Extractor.
Import process_all_saved_html.

Lemma mem_In x l : mem x l = true <-> In x l.
Proof.
  unfold mem. rewrite existsb_exists. split.
  - intros [y [Hy E]]. apply String.eqb_eq in E. subst. assumption.
  - intros H. exists x. split; [assumption | apply String.eqb_refl].
Qed.

Lemma mem_ext x l1 l2 :
  (forall y, In y l1 <-> In y l2) -> mem x l1 = mem x l2.
Proof.
  intros H. destruct (mem x l1) eqn:E1, (mem x l2) eqn:E2; try reflexivity.
  - apply mem_In, H, mem_In in E1. congruence.
  - apply mem_In, H, mem_In in E2. congruence.
Qed.

Lemma dedup_ext l : forall s1 s2,
  (forall y, In y s1 <-> In y s2) -> dedup s1 l = dedup s2 l.
Proof.
  induction l as [|x l IH]; intros s1 s2 H; simpl; [reflexivity|].
  rewrite (mem_ext x _ _ H). destruct (mem x s2).
  - apply IH, H.
  - f_equal. apply IH. intros y. simpl. rewrite H. reflexivity.
Qed.

(** Appending what is new, one by one, keeps the first occurrences. *)
Lemma fold_add_new l : forall acc,
  fold_left add_new l acc = (acc ++ dedup acc l)%list.
Proof.
  induction l as [|x l IH]; intros acc; simpl.
  - symmetry. apply app_nil_r.
  - rewrite IH. unfold add_new. destruct (mem x acc) eqn:E.
    + reflexivity.
    + rewrite <- app_assoc. simpl. do 2 f_equal. apply dedup_ext.
      intros y. rewrite in_app_iff. simpl. tauto.
Qed.

(** Appending a list or its first occurrences comes to the same. *)
Lemma fold_add_new_dedup l : forall seen acc,
  incl seen acc ->
  fold_left add_new (dedup seen l) acc = fold_left add_new l acc.
Proof.
  induction l as [|x l IH]; intros seen acc Hs; simpl; [reflexivity|].
  destruct (mem x seen) eqn:E.
  - apply mem_In, Hs, mem_In in E.
    replace (add_new acc x) with acc by (unfold add_new; rewrite E; reflexivity).
    apply IH, Hs.
  - simpl. apply IH. intros y [<-|Hy]; unfold add_new.
    + destruct (mem x acc) eqn:Ea; [apply mem_In, Ea|].
      apply in_or_app. right. left. reflexivity.
    + destruct (mem x acc); [apply Hs, Hy|].
      apply in_or_app. left. apply Hs, Hy.
Qed.

(** What a method finds alone adds what the method adds. *)
Lemma fold_add_new_alone l acc :
  fold_left add_new (fold_left add_new l []) acc = fold_left add_new l acc.
Proof.
  rewrite (fold_add_new l []). simpl. apply fold_add_new_dedup. intros ? [].
Qed.

Lemma fold_flat_map (A : Type) (g : A -> list string) xs : forall acc,
  fold_left (fun ids x => fold_left add_new (g x) ids) xs acc
  = fold_left add_new (flat_map g xs) acc.
Proof.
  induction xs as [|x xs IH]; intros acc; simpl; [reflexivity|].
  rewrite fold_left_app. apply IH.
Qed.

Lemma fold_left_ext (A B : Type) (f g : A -> B -> A) l :
  (forall a b, f a b = g a b) ->
  forall acc, fold_left f l acc = fold_left g l acc.
Proof.
  intros H. induction l as [|x l IH]; intros acc; simpl; [reflexivity|].
  rewrite H. apply IH.
Qed.

Lemma method1_candidates page acc :
  method1 page acc = fold_left add_new (candidates1 page) acc.
Proof.
  unfold method1, candidates1.
  generalize (data_product_ids page) acc. clear.
  induction l as [|x l IH]; intros acc; simpl; [reflexivity|].
  destruct (negb (x =? "")%string && valid_id x); simpl; apply IH.
Qed.

Lemma method2_candidates page acc :
  method2 page acc = fold_left add_new (candidates2 page) acc.
Proof.
  unfold method2, candidates2. rewrite <- fold_flat_map.
  apply fold_left_ext. intros a b. destruct (contains "/p/" b); reflexivity.
Qed.

Lemma object_ids_candidates data acc :
  object_ids data acc
  = fold_left add_new (filter valid_id (object_values data)) acc.
Proof.
  unfold object_ids, object_values, id_fields. simpl.
  destruct (get_field "sku" data) as [v1|];
    destruct (get_field "productID" data) as [v2|];
    destruct (get_field "itemId" data) as [v3|]; simpl;
    repeat match goal with
           | |- context [valid_id ?x] => destruct (valid_id x); simpl
           end; reflexivity.
Qed.

Lemma filter_flat_map (A B : Type) (f : B -> bool) (g : A -> list B) l :
  filter f (flat_map g l) = flat_map (fun x => filter f (g x)) l.
Proof.
  induction l as [|x l IH]; simpl; [reflexivity|].
  rewrite filter_app, IH. reflexivity.
Qed.

Lemma method3_candidates page acc :
  method3 page acc = fold_left add_new (candidates3 page) acc.
Proof.
  unfold method3, candidates3, ld_values.
  rewrite filter_flat_map, <- fold_flat_map.
  apply fold_left_ext. intros a sc. unfold script_values.
  destruct (is_ld_json sc); [|reflexivity].
  destruct (script_json sc) as [[| | | | |items|data]|]; try reflexivity.
  - rewrite filter_flat_map, <- fold_flat_map.
    apply fold_left_ext. intros a' item.
    destruct item; try reflexivity. apply object_ids_candidates.
  - apply object_ids_candidates.
Qed.

Lemma method4_candidates page acc :
  method4 page acc = fold_left add_new (candidates4 page) acc.
Proof.
  unfold method4, candidates4. rewrite <- fold_flat_map.
  apply fold_left_ext. intros a sc.
  destruct (script_string sc) as [text|]; [|reflexivity].
  destruct (text =? "")%string; reflexivity.
Qed.


Lemma digits_captured st0 st1 :
  Matches false (at_least 9 digit) st0 st1 ->
  all_chars is_digit (consumed st0 st1) = true
  /\ 9 <= String.length (consumed st0 st1).
Proof.
  intros H. apply Matches_at_least_cls in H. destruct H as [w [E [Hw [Hl _]]]].
  apply consumed_append in E. rewrite E. auto.
Qed.










(** C5, as stated, fails.  On a page that has a [data-product-id]
    attribute and a JSON-LD block with another id, taking the first
    strategy that yields something would return the JSON-LD id alone;
    the function returns both, the attribute's first. *)
Lemma extract_product_ids_is_not_first_success :
  ~ (forall page, extract_product_ids page = spec_extract_product_ids page).
Proof.
  intros H.
  specialize
    (H (Soup ["87654321"] []
          [Script true
             (Some ("{" ++ String dquote "sku" ++ String dquote ": "
                    ++ String dquote "12345678" ++ String dquote "}"))
             (Some (JObj [("sku", JStr "12345678")]))])).
  vm_compute in H. discriminate.
Qed.

(** C5, amended.  For every page the extractor runs all four methods, in
    the order (1) [data-product-id] attributes, (2) anchor hrefs,
    (3) JSON-LD blocks, (4) script text, and returns what each of them
    finds on the page when run alone, in that order, each id once, at
    its first occurrence. *)
Theorem extract_product_ids_runs_all_methods page :
  extract_product_ids page
  = dedup [] (method1 page [] ++ method2 page []
              ++ method3 page [] ++ method4 page [])%list.
Proof.
  unfold extract_product_ids.
  rewrite !method4_candidates, !method3_candidates, !method2_candidates,
    !method1_candidates.
  rewrite <- (app_nil_l (dedup [] _)), <- fold_add_new, !fold_left_app.
  rewrite !fold_add_new_alone. reflexivity.
Qed.




End Extractor.

(** ** Ordered dictionaries *)

Lemma dict_get_set_same (V : Type) k (v : V) d :
  dict_get String.eqb k (dict_set String.eqb k v d) = Some v.
Proof.
  induction d as [|[k' v'] d IH]; simpl.
  - rewrite String.eqb_refl. reflexivity.
  - destruct (k =? k')%string eqn:E; simpl.
    + rewrite String.eqb_refl. reflexivity.
    + rewrite E. assumption.
Qed.

Lemma dict_get_set_other (V : Type) k k' (v : V) d :
  k <> k' ->
  dict_get String.eqb k' (dict_set String.eqb k v d)
  = dict_get String.eqb k' d.
Proof.
  intros Hne. induction d as [|[k0 v0] d IH]; simpl.
  - apply String.eqb_neq in Hne. rewrite String.eqb_sym, Hne. reflexivity.
  - destruct (k =? k0)%string eqn:E; simpl.
    + apply String.eqb_eq in E. subst k0.
      apply String.eqb_neq in Hne. rewrite String.eqb_sym, Hne. reflexivity.
    + destruct (k' =? k0)%string; [reflexivity | assumption].
Qed.

(** ** Merging of duplicates in extract_from_saved_html.py *)

Section MergeProperties.
Import extract_from_saved_html.

Variable product : Type.
Variable itemId : product -> string.
Variable str : product -> string.

Lemma merge_all_concat files :
  merge_all itemId str files
  = fold_left (merge itemId str) (concat files) ([], 0).
Proof.
  unfold merge_all. generalize (@nil (string * product), 0).
  induction files as [|f files IH]; intros acc; simpl; [reflexivity|].
  rewrite fold_left_app. apply IH.
Qed.

Lemma merge_invariant ps :
  forall item_id,
    match dict_get String.eqb item_id
            (fst (fold_left (merge itemId str) ps ([], 0))) with
    | Some q => first_longest itemId str ps item_id q
    | None => forall y, In y ps -> itemId y <> item_id
    end.
Proof.
  induction ps as [|p ps IH] using rev_ind; intros item_id.
  - simpl. intros y [].
  - rewrite fold_left_app. simpl.
    destruct (fold_left (merge itemId str) ps ([], 0)) as [d n] eqn:Ed.
    simpl in IH. unfold merge.
    destruct (string_dec (itemId p) item_id) as [<-|Hne].
    + specialize (IH (itemId p)).
      destruct (dict_get String.eqb (itemId p) d) as [stored|] eqn:Eg.
      * destruct IH as [l1 [l2 [-> [Hid [H1 H2]]]]].
        destruct (String.length (str stored) <? String.length (str p)) eqn:El;
          simpl.
        -- rewrite dict_get_set_same. apply Nat.ltb_lt in El.
           exists (l1 ++ stored :: l2)%list, []. repeat split.
           ++ intros y Hy Hy'. apply in_app_iff in Hy.
              destruct Hy as [Hy|[<-|Hy]].
              ** specialize (H1 y Hy Hy'). unfold len in *. lia.
              ** exact El.
              ** specialize (H2 y Hy Hy'). unfold len in *. lia.
           ++ intros y [].
        -- rewrite Eg. apply Nat.ltb_ge in El.
           exists l1, (l2 ++ [p])%list. repeat split.
           ++ rewrite <- app_assoc. reflexivity.
           ++ assumption.
           ++ assumption.
           ++ intros y Hy Hy'. apply in_app_iff in Hy.
              destruct Hy as [Hy|[<-|[]]]; [auto | exact El].
      * simpl. rewrite dict_get_set_same.
        exists ps, []. repeat split.
        -- intros y Hy Hy'. exfalso. exact (IH y Hy Hy').
        -- intros y [].
    + specialize (IH item_id).
      assert (Hget : dict_get String.eqb item_id
                (fst match dict_get String.eqb (itemId p) d with
                     | Some stored =>
                         if String.length (str stored) <? String.length (str p)
                         then (dict_set String.eqb (itemId p) p d, S n)
                         else (d, S n)
                     | None => (dict_set String.eqb (itemId p) p d, n)
                     end)
              = dict_get String.eqb item_id d).
      { destruct (dict_get String.eqb (itemId p) d) as [stored|];
          [destruct (String.length (str stored) <? String.length (str p))|];
          simpl; try reflexivity; apply dict_get_set_other; assumption. }
      rewrite Hget.
      destruct (dict_get String.eqb item_id d) as [q|].
      * destruct IH as [l1 [l2 [-> [Hid [H1 H2]]]]].
        exists l1, (l2 ++ [p])%list. repeat split.
        -- rewrite <- app_assoc. reflexivity.
        -- assumption.
        -- assumption.
        -- intros y Hy Hy'. apply in_app_iff in Hy.
           destruct Hy as [Hy|[<-|[]]]; [auto | contradiction].
      * intros y Hy. apply in_app_iff in Hy.
        destruct Hy as [Hy|[<-|[]]]; [auto | assumption].
Qed.

(** C10.  After the merge, the record stored for the id of any extracted
    record is the first, in iteration order, of the longest records with
    that id (length of [str(product)]): a later record replaces the
    stored one only when it is strictly longer, and an equally long one
    does not. *)
Theorem merge_keeps_first_longest files x :
  In x (concat files) ->
  exists q,
    dict_get String.eqb (itemId x) (fst (merge_all itemId str files)) = Some q
    /\ first_longest itemId str (concat files) (itemId x) q.
Proof.
  intros Hx. rewrite merge_all_concat.
  pose proof (merge_invariant (concat files) (itemId x)) as H.
  destruct (dict_get String.eqb (itemId x)
              (fst (fold_left (merge itemId str) (concat files) ([], 0))))
    as [q|].
  - exists q. auto.
  - exfalso. exact (H x Hx eq_refl).
Qed.

End MergeProperties.

Lemma merge_keeps_first_longest_witness :
  exists q,
    dict_get String.eqb "100000001"
      (fst (extract_from_saved_html.merge_all fst snd
              [[("100000001", "{'itemId': '100000001', 'name': 'A'}");
                ("100000002", "{'itemId': '100000002', 'name': 'B'}")];
               [("100000001", "{'itemId': '100000001', 'name': 'C'}");
                ("100000001", "{'itemId': '100000001', 'name': 'Dd'}")]]))
    = Some q
    /\ extract_from_saved_html.first_longest fst snd
         [("100000001", "{'itemId': '100000001', 'name': 'A'}");
          ("100000002", "{'itemId': '100000002', 'name': 'B'}");
          ("100000001", "{'itemId': '100000001', 'name': 'C'}");
          ("100000001", "{'itemId': '100000001', 'name': 'Dd'}")]
         "100000001" q.
Proof.
  apply (@merge_keeps_first_longest (string * string) fst snd
           [[("100000001", "{'itemId': '100000001', 'name': 'A'}");
             ("100000002", "{'itemId': '100000002', 'name': 'B'}")];
            [("100000001", "{'itemId': '100000001', 'name': 'C'}");
             ("100000001", "{'itemId': '100000001', 'name': 'Dd'}")]]
           ("100000001", "{'itemId': '100000001', 'name': 'A'}")).
  simpl. left. reflexivity.
Defined.

(** ** The size pattern and [normalize] *)

Section Gallery.
Import images.

Lemma Matches_chr c st st' :
  Matches false (Chr c) st st' ->
  rest st = String c (rest st') /\ caps st' = caps st.
Proof.
  intros H. inversion H as [|? x tl ? Hr Hc| | | | | | | | | |]; subst.
  simpl in Hc. apply Ascii.eqb_eq in Hc. subst x. auto.
Qed.

Lemma Matches_lit s : forall st st',
  Matches false (lit s) st st' ->
  rest st = s ++ rest st' /\ caps st' = caps st.
Proof.
  induction s as [|c s IH]; intros st st' H.
  - inversion H; subst. auto.
  - destruct s as [|c' s'].
    + apply Matches_chr in H. exact H.
    + change (lit (String c (String c' s')))
        with (Seq (Chr c) (lit (String c' s'))) in H.
      inversion H as [| | | | |? ? ? st1 ? H1 H2| | | | | |]; subst.
      apply Matches_chr in H1. apply IH in H2.
      destruct H1 as [E1 C1], H2 as [E2 C2].
      rewrite E1, E2. split; [reflexivity | congruence].
Qed.

Lemma Matches_extension st st' :
  Matches false (alts (map lit extensions)) st st' ->
  exists e, In e extensions /\ rest st = e ++ rest st'.
Proof.
  intros H. cbn [alts map extensions] in H.
  repeat match goal with
         | H : Matches _ (Alt _ _) _ _ |- _ => inversion H; subst; clear H
         end;
    match goal with
    | H : Matches _ _ _ _ |- _ =>
        first [ apply (@Matches_lit "jpg") in H; exists "jpg"
              | apply (@Matches_lit "avif") in H; exists "avif"
              | apply (@Matches_lit "webp") in H; exists "webp"
              | apply (@Matches_lit "png") in H; exists "png" ];
        destruct H as [H _]
    end; (split; [simpl; tauto | assumption]).
Qed.

Lemma all_chars_impl (f g : ascii -> bool) w :
  (forall c, f c = true -> g c = true) ->
  all_chars f w = true -> all_chars g w = true.
Proof.
  intros Hfg. induction w as [|c w IH]; simpl; [reflexivity|].
  rewrite !andb_true_iff. intros [H1 H2]. auto.
Qed.

Lemma digit_not_underscore c : is_digit c = true -> not_underscore c = true.
Proof.
  intros H. unfold not_underscore.
  destruct (Ascii.eqb_spec c "_") as [->|]; [discriminate H | reflexivity].
Qed.

Lemma extension_no_underscore e :
  In e extensions -> all_chars not_underscore e = true.
Proof.
  simpl. intros [<-|[<-|[<-|[<-|[]]]]]; reflexivity.
Qed.

(** What a match of the size pattern has read: an underscore, digits, a
    dot and an extension, up to the end of the text or to its final
    newline. *)
Lemma size_pattern_shape pv s m :
  match_here false size_pattern pv s = Some m ->
  exists size e nl,
    s = String "_" (size ++ String "." (e ++ nl))
    /\ all_chars is_digit size = true /\ In e extensions
    /\ (nl = "" \/ nl = String newline "") /\ rest m = nl.
Proof.
  unfold match_here. intros H. apply rx_sound in H.
  destruct H as [st' [H E]]. injection E as ->.
  cbv [size_pattern seqs plus] in H. invert_seq.
  repeat match goal with
         | H : Matches _ (Chr _) _ _ |- _ =>
             apply Matches_chr in H; destruct H as [H _]
         end.
  match goal with
  | H : Matches _ (Grp 1 _) _ _ |- _ => inversion H; subst; clear H
  end.
  match goal with
  | H : Matches _ (Alt _ _) _ _ |- _ =>
      apply Matches_extension in H; destruct H as [e [He Ee]]
  end.
  match goal with
  | H : Matches _ (Star _) _ _ |- _ =>
      apply Matches_star_cls in H; destruct H as [w [Ew [Hw _]]]
  end.
  match goal with
  | H : Matches _ digit _ _ |- _ =>
      inversion H as [| |? x tl ? Hr Hf| | | | | | | | |]; subst; clear H
  end.
  match goal with
  | H : Matches _ Eos _ _ |- _ =>
      inversion H as [| | | |? Hend| | | | | | |]; subst; clear H
  end.
  simpl in *. subst s tl.
  exists (String x w), e, (rest st5).
  rewrite Hr, H3, Ee. simpl. rewrite Hw.
  repeat split; try assumption.
  - rewrite Hf. reflexivity.
  - unfold at_end in Hend. simpl in Hend.
    destruct (rest st5) as [|c [|c' r]]; try discriminate; [left; reflexivity|].
    right. apply Ascii.eqb_eq in Hend. subst c. reflexivity.
Qed.

Lemma star_loop_step ci f (A : Type) (k : mstate -> option A) n pv c tl cs :
  star_loop (fun st0 k0 => rx ci (Cls f) st0 k0) k (S n)
    (MState pv (String c tl) cs)
  = if f c then
      match star_loop (fun st0 k0 => rx ci (Cls f) st0 k0) k n
              (MState (Some c) tl cs) with
      | Some a => Some a
      | None => k (MState pv (String c tl) cs)
      end
    else k (MState pv (String c tl) cs).
Proof.
  simpl. destruct (f c); [|reflexivity].
  replace (String.length tl <? S (String.length tl)) with true
    by (symmetry; apply Nat.ltb_lt; lia).
  reflexivity.
Qed.

(** Greedy repetition of a class reads the whole run when what follows
    the run succeeds. *)
Lemma star_loop_greedy ci f (A : Type) (k : mstate -> option A) a r' cs :
  match r' with String c _ => f c = false | EmptyString => True end ->
  forall w pv n,
    all_chars f w = true -> String.length w < n ->
    k (MState (last_of w pv) r' cs) = Some a ->
    star_loop (fun st0 k0 => rx ci (Cls f) st0 k0) k n
      (MState pv (w ++ r') cs) = Some a.
Proof.
  intros Hr'. induction w as [|c w IH]; intros pv n Hw Hn Hk.
  - destruct n as [|n]; [simpl in Hn; lia|].
    change ("" ++ r') with r'. change (last_of "" pv) with pv in Hk.
    destruct r' as [|c r'']; [simpl; assumption|].
    rewrite star_loop_step, Hr'. assumption.
  - destruct n as [|n]; [simpl in Hn; lia|].
    change (String c w ++ r') with (String c (w ++ r')).
    simpl in Hw, Hn, Hk.
    apply andb_true_iff in Hw. destruct Hw as [Hc Hw].
    rewrite star_loop_step, Hc.
    rewrite (IH (Some c) n Hw); [reflexivity | lia | assumption].
Qed.

(** At the underscore of a final size suffix the pattern matches, and
    reads to the end. *)
Lemma size_pattern_at_suffix pv d size e :
  is_digit d = true -> all_chars is_digit size = true -> In e extensions ->
  exists m,
    match_here false size_pattern pv
      (String "_" (String d size ++ String "." e)) = Some m
    /\ rest m = "".
Proof.
  intros Hd Hs He. unfold match_here.
  cbv [size_pattern seqs plus]. cbn [rx]. simpl rest. cbn [chr_eqb].
  change (Ascii.eqb "_" "_") with true. cbn iota.
  unfold digit. cbn [rx step rest caps]. rewrite Hd.
  simpl in He.
  destruct He as [<-|[<-|[<-|[<-|[]]]]];
    (eexists; split;
     [ apply (@star_loop_greedy false is_digit);
       [ reflexivity | assumption | rewrite length_append; lia | reflexivity ]
     | reflexivity ]).
Qed.

(** Before that underscore the pattern does not match: a match reads
    up to the end, and the text from there on still has an underscore. *)
Lemma size_pattern_not_before pv c pre tail :
  match_here false size_pattern pv (String c (pre ++ String "_" tail)) = None.
Proof.
  destruct (match_here false size_pattern pv (String c (pre ++ String "_" tail)))
    as [m|] eqn:E; [exfalso | reflexivity].
  apply size_pattern_shape in E.
  destruct E as [size [e [nl [E [Hs [He [Hnl _]]]]]]].
  injection E as _ E.
  assert (H : all_chars not_underscore (pre ++ String "_" tail) = true).
  { rewrite E, all_chars_append. simpl. rewrite all_chars_append.
    rewrite (@all_chars_impl is_digit not_underscore size digit_not_underscore Hs).
    rewrite (@extension_no_underscore e He).
    destruct Hnl as [->| ->]; reflexivity. }
  rewrite all_chars_append in H. simpl in H.
  rewrite andb_false_r in H. discriminate.
Qed.

(** The substitution replaces a final size suffix, and nothing else. *)
Lemma sub_scan_size_suffix d size e :
  is_digit d = true -> all_chars is_digit size = true -> In e extensions ->
  forall pre pv fuel,
    String.length (pre ++ String "_" (String d size ++ String "." e)) < fuel ->
    sub_scan fuel size_pattern "_1000.jpg" pv
      (pre ++ String "_" (String d size ++ String "." e))
    = pre ++ "_1000.jpg".
Proof.
  intros Hd Hs He. induction pre as [|c pre IH]; intros pv fuel Hf.
  - destruct fuel as [|fuel]; [lia|].
    destruct (@size_pattern_at_suffix pv d size e Hd Hs He) as [m [Em Hm]].
    change ("" ++ String "_" (String d size ++ String "." e))
      with (String "_" (String d size ++ String "." e)).
    cbn [sub_scan]. rewrite Em, Hm.
    change (String.length "" <? String.length (String "_" (String d size ++ String "." e)))
      with true. cbn iota.
    destruct fuel as [|fuel]; reflexivity.
  - destruct fuel as [|fuel]; [lia|].
    change (String c pre ++ String "_" (String d size ++ String "." e))
      with (String c (pre ++ String "_" (String d size ++ String "." e))).
    cbn [sub_scan]. rewrite size_pattern_not_before.
    change (String c pre ++ "_1000.jpg") with (String c (pre ++ "_1000.jpg")).
    f_equal. apply IH. simpl in Hf. simpl. lia.
Qed.



(** ** One gallery entry per UUID *)

Lemma collect_first ms : forall seen images,
  categorize_scraped_products.collect ms seen images
  = (images ++ map entry (first_by_uuid seen ms))%list.
Proof.
  induction ms as [|[[u s] x] ms IH]; intros seen images; simpl.
  - symmetry. apply app_nil_r.
  - unfold uuid_of at 1. simpl. destruct (mem u seen).
    + apply IH.
    + rewrite IH, <- app_assoc. reflexivity.
Qed.

Lemma count_first u ms : forall seen,
  count_occ string_dec (map uuid_of (first_by_uuid seen ms)) u
  = if mem u seen then 0
    else if mem u (map uuid_of ms) then 1 else 0.
Proof.
  induction ms as [|m ms IH]; intros seen; simpl.
  - destruct (mem u seen); reflexivity.
  - destruct (mem (uuid_of m) seen) eqn:Em.
    + rewrite IH. destruct (mem u seen) eqn:Eu; [reflexivity|].
      destruct (String.eqb_spec u (uuid_of m)) as [->|Hne]; [congruence|].
      reflexivity.
    + simpl. rewrite IH. simpl.
      destruct (string_dec (uuid_of m) u) as [E|Hne].
      * rewrite E in *. rewrite Em, String.eqb_refl. reflexivity.
      * assert (E : (u =? uuid_of m)%string = false)
          by (apply String.eqb_neq; congruence).
        rewrite E. simpl. reflexivity.
Qed.

Lemma dict_set_keys (V : Type) k (v : V) d :
  map fst (dict_set String.eqb k v d)
  = if dict_has String.eqb k d then map fst d else (map fst d ++ [k])%list.
Proof.
  unfold dict_has. induction d as [|[k' v'] d IH]; simpl; [reflexivity|].
  destruct (String.eqb_spec k k') as [->|Hne]; simpl; [reflexivity|].
  rewrite IH. destruct (dict_get String.eqb k d); reflexivity.
Qed.

Lemma dict_has_In (V : Type) k (d : list (string * V)) :
  dict_has String.eqb k d = true <-> In k (map fst d).
Proof.
  unfold dict_has. induction d as [|[k' v'] d IH]; simpl.
  - split; [discriminate | tauto].
  - destruct (String.eqb_spec k k') as [->|Hne].
    + tauto.
    + rewrite IH. split; [tauto|]. intros [E|H]; [congruence | assumption].
Qed.

Lemma dict_set_NoDup (V : Type) k (v : V) d :
  NoDup (map fst d) -> NoDup (map fst (dict_set String.eqb k v d)).
Proof.
  intros H. rewrite dict_set_keys.
  destruct (dict_has String.eqb k d) eqn:E; [assumption|].
  apply NoDup_app; [assumption | repeat constructor; intros [] |].
  intros x Hx [<-|[]]. apply dict_has_In in Hx. congruence.
Qed.

Lemma dict_set_In (V : Type) k (v : V) d x :
  In x (map fst (dict_set String.eqb k v d)) <-> x = k \/ In x (map fst d).
Proof.
  rewrite dict_set_keys. destruct (dict_has String.eqb k d) eqn:E.
  - apply dict_has_In in E. split; [tauto|]. intros [->|H]; assumption.
  - rewrite in_app_iff. simpl. split.
    + intros [H|[->|[]]]; tauto.
    + intros [->|H]; tauto.
Qed.

Lemma gallery_collect_keys ms : forall d,
  NoDup (map fst d) ->
  NoDup (map fst (extract_gallery_from_scrapes.collect ms d))
  /\ forall x, In x (map fst (extract_gallery_from_scrapes.collect ms d))
               <-> In x (map uuid_of ms) \/ In x (map fst d).
Proof.
  induction ms as [|[[u s] e] ms IH]; intros d Hd; simpl.
  - split; [assumption | tauto].
  - destruct (IH (dict_set String.eqb u (normalize (image_url u s)) d)
                (@dict_set_NoDup _ u (normalize (image_url u s)) d Hd))
      as [H1 H2].
    split; [assumption|]. intros x. rewrite H2, dict_set_In.
    unfold uuid_of at 2. simpl. split; intros H; intuition congruence.
Qed.

Lemma gallery_collect_get u ms : forall d,
  dict_get String.eqb u (extract_gallery_from_scrapes.collect ms d)
  = match last_by_uuid u ms with
    | Some m => Some (entry m)
    | None => dict_get String.eqb u d
    end.
Proof.
  induction ms as [|[[u' s] e] ms IH]; intros d; simpl; [reflexivity|].
  rewrite IH. destruct (last_by_uuid u ms); [reflexivity|].
  unfold uuid_of at 1. simpl.
  destruct (String.eqb_spec u' u) as [->|Hne].
  - rewrite dict_get_set_same. reflexivity.
  - apply dict_get_set_other. assumption.
Qed.

Lemma last_by_uuid_In u ms m :
  last_by_uuid u ms = Some m -> In m ms /\ uuid_of m = u.
Proof.
  induction ms as [|m0 ms IH]; simpl; [discriminate|].
  destruct (last_by_uuid u ms) as [m'|].
  - intros E. injection E as ->. destruct (IH eq_refl). tauto.
  - destruct (String.eqb_spec (uuid_of m0) u) as [E|]; [|discriminate].
    intros E'. injection E' as ->. tauto.
Qed.


(** ** What the image pattern captures *)

Lemma Matches_extension_caps st st' :
  Matches false (alts (map lit extensions)) st st' -> caps st' = caps st.
Proof.
  intros H. cbn [alts map extensions] in H.
  repeat match goal with
         | H : Matches _ (Alt _ _) _ _ |- _ => inversion H; subst; clear H
         end;
    match goal with
    | H : Matches _ _ _ _ |- _ =>
        first [ apply (@Matches_lit "jpg") in H
              | apply (@Matches_lit "avif") in H
              | apply (@Matches_lit "webp") in H
              | apply (@Matches_lit "png") in H ];
        destruct H as [_ H]; exact H
    end.
Qed.

Lemma Matches_plus_cls f st st' :
  Matches false (plus (Cls f)) st st' ->
  exists w, rest st = w ++ rest st' /\ all_chars f w = true
            /\ w <> "" /\ caps st' = caps st.
Proof.
  intros H. unfold plus in H.
  inversion H as [| | | | |? ? ? st1 ? H1 H2| | | | | |]; subst.
  inversion H1 as [| |? x tl ? Hr Hf| | | | | | | | |]; subst.
  apply Matches_star_cls in H2. destruct H2 as [w [Ew [Hw Hc]]].
  exists (String x w). simpl in *. rewrite Hr, Ew, Hf, Hw.
  repeat split; [discriminate | assumption].
Qed.

(** The UUID captured by the image pattern is a non-empty run of the
    characters [a-f0-9-]. *)
Lemma image_match_uuid text m :
  In m (image_matches text) ->
  all_chars uuid_char (uuid_of m) = true /\ uuid_of m <> "".
Proof.
  unfold image_matches, finditer. intros H. apply in_map_iff in H.
  destruct H as [st [<- H]]. apply scan_sound in H. destruct H as [pv [s H]].
  unfold uuid_of. cbn [fst].
  cbv [image_pattern seqs] in H. invert_seq.
  repeat match goal with
         | H : Matches _ (Grp _ _) _ _ |- _ => inversion H; subst; clear H
         end.
  invert_seq.
  repeat match goal with
         | H : Matches _ (Grp _ _) _ _ |- _ => inversion H; subst; clear H
         end.
  repeat match goal with
         | H : Matches _ (Alt _ _) _ _ |- _ =>
             apply Matches_extension_caps in H
         | H : Matches _ (Chr _) _ _ |- _ =>
             apply Matches_chr in H; destruct H as [_ H]
         | H : Matches _ (lit _) _ _ |- _ =>
             apply Matches_lit in H; destruct H as [_ H]
         | H : Matches _ (Seq (Chr _) _) _ _ |- _ =>
             first [ apply (@Matches_lit "productImages/") in H
                   | apply (@Matches_lit "/svn/") in H ];
             destruct H as [_ H]
         end.
  unfold group, set_group in *. simpl in *.
  match goal with
  | H : Matches _ (plus (Cls path_char)) _ _ |- _ =>
      apply Matches_plus_cls in H; destruct H as [w' [_ [_ [_ Hc]]]]
  end.
  match goal with
  | H : Matches _ (plus (Cls uuid_char)) ?a ?b |- _ =>
      apply Matches_plus_cls in H; destruct H as [w [E [Hw [Hn _]]]]
  end.
  repeat match goal with
         | H : caps ?x = _ |- context [caps ?x] => rewrite H
         end.
  simpl. rewrite (@consumed_append _ _ _ E). split; assumption.
Qed.

Lemma no_underscore_no_match pv c s :
  not_underscore c = true ->
  match_here false size_pattern pv (String c s) = None.
Proof.
  intros H. unfold match_here. cbv [size_pattern seqs]. cbn [rx rest].
  unfold not_underscore in H. apply negb_true_iff in H.
  unfold chr_eqb. rewrite Ascii.eqb_sym, H. reflexivity.
Qed.

(** The substitution leaves in place a beginning without underscore. *)
Lemma sub_scan_keeps_prefix pre s : forall fuel pv,
  all_chars not_underscore pre = true ->
  exists tail,
    sub_scan fuel size_pattern "_1000.jpg" pv (pre ++ s) = pre ++ tail.
Proof.
  induction pre as [|c pre IH]; intros fuel pv H; simpl in *;
    [eexists; reflexivity|].
  apply andb_true_iff in H. destruct H as [Hc Hp].
  destruct fuel as [|fuel]; [exists s; reflexivity|].
  cbn [sub_scan]. rewrite (@no_underscore_no_match pv c (pre ++ s) Hc).
  destruct (IH fuel (Some c) Hp) as [tail ->]. eauto.
Qed.

Lemma uuid_char_not_underscore c : uuid_char c = true -> not_underscore c = true.
Proof.
  intros H. unfold not_underscore.
  destruct (Ascii.eqb_spec c "_") as [->|]; [discriminate H | reflexivity].
Qed.

Lemma entry_is_image_url text m :
  In m (image_matches text) ->
  exists tail, entry m = image_url (uuid_of m) tail.
Proof.
  intros H. apply image_match_uuid in H. destruct H as [Hu _].
  unfold entry, normalize, sub, image_url.
  rewrite <- !append_assoc.
  destruct (@sub_scan_keeps_prefix
              (("https://images.thdstatic.com/productImages/" ++ uuid_of m)
               ++ "/svn/")
              (suffix_of m)
              (S (String.length
                    ((("https://images.thdstatic.com/productImages/"
                       ++ uuid_of m) ++ "/svn/") ++ suffix_of m)))
              None) as [tail E].
  - rewrite !all_chars_append.
    rewrite (@all_chars_impl uuid_char not_underscore _ uuid_char_not_underscore Hu).
    reflexivity.
  - exists tail. rewrite E, !append_assoc. reflexivity.
Qed.

Lemma first_by_uuid_In ms : forall seen m,
  In m (first_by_uuid seen ms) -> In m ms.
Proof.
  induction ms as [|x ms IH]; intros seen m H; simpl in H; [contradiction|].
  destruct (mem (uuid_of x) seen).
  - right. eapply IH. eassumption.
  - destruct H as [<-|H]; [left; reflexivity | right; eapply IH; eassumption].
Qed.

(** ** The image pattern at an image reference *)

















(** ** Finding the image references of a text *)













(** ** One entry for the UUID of the first reference *)






Lemma path_no_underscore stem e :
  all_chars not_underscore stem = true -> In e extensions ->
  all_chars not_underscore (stem ++ "." ++ e) = true.
Proof.
  intros Hs He. rewrite all_chars_append, Hs. simpl.
  apply (extension_no_underscore He).
Qed.





(** The case named in the specification: three URLs that differ only in
    the size suffix give one canonical entry. *)
Example three_sizes_one_entry :
  categorize_scraped_products.extract_images_from_html
    (Some ("productImages/0a1b-22c3/svn/ge-fridge-64_100.jpg "
           ++ "productImages/0a1b-22c3/svn/ge-fridge-64_300.jpg "
           ++ "productImages/0a1b-22c3/svn/ge-fridge-64_600.jpg"))
  = ["https://images.thdstatic.com/productImages/0a1b-22c3/svn/ge-fridge-64_1000.jpg"]
  /\ extract_gallery_from_scrapes.extract_images_from_html
    (Some ("productImages/0a1b-22c3/svn/ge-fridge-64_100.jpg "
           ++ "productImages/0a1b-22c3/svn/ge-fridge-64_300.jpg "
           ++ "productImages/0a1b-22c3/svn/ge-fridge-64_600.jpg"))
  = [("0a1b-22c3",
      "https://images.thdstatic.com/productImages/0a1b-22c3/svn/ge-fridge-64_1000.jpg")].
Proof. split; reflexivity. Qed.

End Gallery.

(** ** A run of cleanup_categories.py *)

Section CleanupRun.

(** The verification reports a loss exactly when an id that was loaded
    is in no file any more. *)
Lemma verification_detects_loss c d :
  verify_no_products_lost c d = true
  <-> forall pid, In pid (map fst (all_products c)) ->
                  In (Some pid) (reload_ids d).
Proof.
  unfold verify_no_products_lost, lost. rewrite Nat.eqb_eq, length_zero_iff_nil.
  generalize (map fst (all_products c)) as l.
  induction l as [|x l IH]; simpl.
  - split; [intros _ pid [] | reflexivity].
  - destruct (omem (Some x) (reload_ids d)) eqn:E; simpl.
    + rewrite IH. split.
      * intros H pid [<-|Hp]; [|auto].
        unfold omem in E. apply existsb_exists in E.
        destruct E as [[y|] [Hy Ey]]; simpl in Ey; [|discriminate].
        apply String.eqb_eq in Ey. subst y. assumption.
      * intros H pid Hp. apply H. right. assumption.
    + split; [discriminate|]. intros H. exfalso.
      specialize (H x (or_introl eq_refl)).
      assert (E' : omem (Some x) (reload_ids d) = true).
      { unfold omem. apply existsb_exists. exists (Some x).
        split; [assumption | simpl; apply String.eqb_refl]. }
      congruence.
Qed.

(** C1.  An apply run can lose a product.  The cart is taken out of
    appliances.json; its target category furniture has a loaded file
    (furniture/chairs.json), so the target file is furniture.json, which
    is not among the loaded files, and the cart is appended nowhere.
    The run does not raise, and the verification reports the loss. *)
Theorem apply_run_loses_a_product :
  let before :=
    [("appliances.json",
      Some (CategoryData
              (Some [Product (Some "100000002") "StyleWell Rolling Kitchen Cart"
                       "StyleWell" "" None])
              (Some 1) "2025-12-01T00:00:00"));
     ("furniture/chairs.json",
      Some (CategoryData
              (Some [Product (Some "100000004") "Accent Chair" "StyleWell"
                       "Chairs" None])
              (Some 1) "2025-12-01T00:00:00"))] in
  let after :=
    [("appliances.json",
      Some (CategoryData (Some []) (Some 0) "2026-01-01T00:00:00"));
     ("furniture/chairs.json",
      Some (CategoryData
              (Some [Product (Some "100000004") "Accent Chair" "StyleWell"
                       "Chairs" None])
              (Some 1) "2025-12-01T00:00:00"))] in
  let r := main false true "2026-01-01T00:00:00" before in
  run_files r = Returned after
  /\ run_verified r = Some false
  /\ In (Some "100000002") (reload_ids before)
  /\ ~ In (Some "100000002") (reload_ids after).
Proof.
  cbv zeta. split; [|split; [|split]].
  - vm_compute. reflexivity.
  - vm_compute. reflexivity.
  - vm_compute. tauto.
  - vm_compute. intuition discriminate.
Qed.

(** C4, as stated, fails.  The report lists the cart as to be moved to
    furniture; no loaded file belongs to that category, and the apply run
    appends the cart to other.json instead. *)
Lemma apply_run_redirects_a_relocation :
  ~ (forall now d,
        match run_report (main false true now d) with
        | Some rep =>
            relocated_as_reported rep
              (files_of (run_files (main false true now d))) = true
        | None => True
        end).
Proof.
  intros H.
  specialize
    (H "2026-01-01T00:00:00"
       [("appliances.json",
         Some (CategoryData
                 (Some [Product (Some "100000002")
                          "StyleWell Rolling Kitchen Cart" "StyleWell" "" None])
                 (Some 1) "2025-12-01T00:00:00"));
        ("other.json",
         Some (CategoryData (Some []) (Some 0) "2025-12-01T00:00:00"))]).
  vm_compute in H. discriminate.
Qed.

(** *** The report does not depend on the [dry_run] flag *)

Lemma load_products_dry b f ps : forall c,
  load_products f ps (with_dry_run b c)
  = (with_dry_run b (fst (load_products f ps c)), snd (load_products f ps c)).
Proof.
  induction ps as [|p ps IH]; intros [dr objs ap src cf mp sf]; [reflexivity|].
  unfold with_dry_run. cbn [load_products]. simpl.
  destruct (productId p) as [pid|]; [destruct (pid =? "")%string|];
    match goal with
    | |- context [load_products f ps (Cleanup b ?o ?a ?s ?c ?m ?x)] =>
        pose proof (IH (Cleanup dr o a s c m x)) as E;
        unfold with_dry_run in E; simpl in E; rewrite E;
        destruct (load_products f ps (Cleanup dr o a s c m x)); reflexivity
    end.
Qed.

Lemma load_files_dry b d : forall c,
  load_files d (with_dry_run b c) = with_dry_run b (load_files d c).
Proof.
  induction d as [|[rel_path content] d IH]; intros c; [reflexivity|].
  cbn [load_files]. destruct (name rel_path =? "index.json")%string; [apply IH|].
  destruct content as [[[ps|] pi lu]|]; try apply IH.
  rewrite load_products_dry.
  destruct (load_products rel_path ps c) as [c1 refs]. simpl.
  apply (IH (Cleanup (dry_run c1) (objects c1) (all_products c1)
               (product_sources c1)
               (dict_set String.eqb rel_path (LoadedFile refs pi lu)
                  (category_files c1))
               (misplaced_products c1) (subcategory_fixes c1))).
Qed.

Lemma analyze_product_dry b f cat p c :
  analyze_product f cat p (with_dry_run b c)
  = with_dry_run b (analyze_product f cat p c).
Proof.
  unfold analyze_product.
  destruct (classify_product p cat); [reflexivity|].
  destruct (validate_subcategory cat (subcategory p) p) as [s|]; [|reflexivity].
  destruct (s =? subcategory p)%string; reflexivity.
Qed.

Lemma fold_left_dry (A : Type) (g : CategoryCleanup -> A -> CategoryCleanup) b l :
  (forall c x, g (with_dry_run b c) x = with_dry_run b (g c x)) ->
  forall c, fold_left g l (with_dry_run b c) = with_dry_run b (fold_left g l c).
Proof.
  intros H. induction l as [|x l IH]; intros c; simpl; [reflexivity|].
  rewrite H. apply IH.
Qed.

Lemma analyze_dry b c :
  analyze_misplaced_products (with_dry_run b c)
  = with_dry_run b (analyze_misplaced_products c).
Proof.
  unfold analyze_misplaced_products.
  change (category_files (with_dry_run b c)) with (category_files c).
  change (objects (with_dry_run b c)) with (objects c).
  apply fold_left_dry. intros c1 [file_path data].
  apply fold_left_dry. intros c2 it. apply analyze_product_dry.
Qed.

Lemma report_dry_run b d :
  generate_report
    (analyze_misplaced_products (load_all_categories d (init b)))
  = generate_report
      (analyze_misplaced_products (load_all_categories d (init false))).
Proof.
  unfold load_all_categories.
  change (init b) with (with_dry_run b (init false)).
  rewrite load_files_dry, analyze_dry. reflexivity.
Qed.

(** *** What [load_all_categories] establishes *)

Lemma dict_get_In_NoDup (V : Type) k (v : V) d :
  NoDup (map fst d) -> In (k, v) d -> dict_get String.eqb k d = Some v.
Proof.
  induction d as [|[k' v'] d IH]; simpl; intros Hnd Hin; [contradiction|].
  inversion Hnd as [|? ? Hni Hnd']; subst.
  destruct Hin as [E|Hin].
  - injection E as -> ->. rewrite String.eqb_refl. reflexivity.
  - destruct (String.eqb_spec k k') as [->|Hne]; [|auto].
    exfalso. apply Hni. apply in_map_iff. exists (k', v). auto.
Qed.

Lemma dict_get_In (V : Type) k (v : V) d :
  dict_get String.eqb k d = Some v -> In (k, v) d.
Proof.
  induction d as [|[k' v'] d IH]; simpl; [discriminate|].
  destruct (String.eqb_spec k k') as [->|Hne].
  - intros E. injection E as ->. auto.
  - auto.
Qed.

Lemma dict_set_In_pair (V : Type) k (v : V) d kv :
  In kv (dict_set String.eqb k v d) -> kv = (k, v) \/ In kv d.
Proof.
  induction d as [|[k' v'] d IH]; simpl.
  - intros [<-|[]]. auto.
  - destruct (String.eqb_spec k k') as [->|Hne]; simpl.
    + intros [<-|H]; auto.
    + intros [<-|H]; auto. destruct (IH H); auto.
Qed.

Lemma nth_app_left (l1 l2 : list product) r :
  r < List.length l1 -> nth r (l1 ++ l2)%list no_product = nth r l1 no_product.
Proof. intros H. apply app_nth1. assumption. Qed.

(** The loop over the products of one file. *)
Lemma load_products_spec f ps : forall c,
  ids_registered c ->
  let c' := fst (load_products f ps c) in
  ids_registered c'
  /\ objects c' = (objects c ++ ps)%list
  /\ snd (load_products f ps c)
     = map Ref (seq (List.length (objects c)) (List.length ps))
  /\ category_files c' = category_files c.
Proof.
  induction ps as [|p ps IH]; intros c Hreg; cbn zeta.
  - simpl. rewrite app_nil_r. auto.
  - cbn [load_products].
    set (c1 :=
           match productId p with
           | Some product_id =>
               if (product_id =? "")%string
               then Cleanup (dry_run c) (objects c ++ [p])%list (all_products c)
                      (product_sources c) (category_files c)
                      (misplaced_products c) (subcategory_fixes c)
               else Cleanup (dry_run c) (objects c ++ [p])%list
                      (dict_set String.eqb product_id (List.length (objects c))
                         (all_products c))
                      (dict_set String.eqb product_id f (product_sources c))
                      (category_files c)
                      (misplaced_products c) (subcategory_fixes c)
           | None =>
               Cleanup (dry_run c) (objects c ++ [p])%list (all_products c)
                 (product_sources c) (category_files c)
                 (misplaced_products c) (subcategory_fixes c)
           end).
    assert (Hobj : objects c1 = (objects c ++ [p])%list).
    { subst c1. destruct (productId p) as [pid|];
        [destruct (pid =? "")%string|]; reflexivity. }
    assert (Hcf : category_files c1 = category_files c).
    { subst c1. destruct (productId p) as [pid|];
        [destruct (pid =? "")%string|]; reflexivity. }
    assert (Hreg1 : ids_registered c1).
    { intros pid r Hget. rewrite Hobj, length_app. simpl.
      assert (Hold : dict_get String.eqb pid (all_products c) = Some r ->
                     r < List.length (objects c) + 1
                     /\ productId (nth r (objects c ++ [p])%list no_product)
                        = Some pid).
      { intros H. destruct (Hreg pid r H) as [Hlt Hid].
        split; [lia|]. rewrite nth_app_left by assumption. assumption. }
      subst c1. destruct (productId p) as [pid0|] eqn:Ep;
        [destruct (pid0 =? "")%string|]; simpl in Hget; auto.
      destruct (string_dec pid0 pid) as [->|Hne].
      - rewrite dict_get_set_same in Hget. injection Hget as <-.
        split; [lia|]. rewrite app_nth2 by lia. rewrite Nat.sub_diag.
        simpl. assumption.
      - rewrite dict_get_set_other in Hget by assumption. auto. }
    specialize (IH c1 Hreg1). cbn zeta in IH.
    destruct (load_products f ps c1) as [c2 refs]. simpl in *.
    destruct IH as [H1 [H2 [H3 H4]]].
    split; [assumption|]. split.
    + rewrite H2, Hobj, <- app_assoc. reflexivity.
    + split; [|congruence].
      rewrite H3, Hobj, length_app. simpl.
      replace (List.length (objects c) + 1) with (S (List.length (objects c)))
        by lia.
      reflexivity.
Qed.

Lemma map_deref_seq objs ps :
  map (deref (objs ++ ps)%list) (map Ref (seq (List.length objs) (List.length ps)))
  = ps.
Proof.
  rewrite map_map. simpl.
  revert objs. induction ps as [|p ps IH]; intros objs; simpl; [reflexivity|].
  f_equal.
  - rewrite app_nth2 by lia. rewrite Nat.sub_diag. reflexivity.
  - specialize (IH (objs ++ [p])%list).
    rewrite <- app_assoc, length_app in IH. simpl in IH.
    replace (List.length objs + 1) with (S (List.length objs)) in IH by lia.
    exact IH.
Qed.

Lemma deref_app objs ps it :
  (exists r, it = Ref r /\ r < List.length objs) ->
  deref (objs ++ ps)%list it = deref objs it.
Proof. intros [r [-> Hr]]. simpl. apply nth_app_left. assumption. Qed.

(** The loop over the files. *)
Lemma load_files_spec D :
  NoDup (map fst D) ->
  forall suffix c,
    (forall x, In x suffix -> In x D) ->
    NoDup (map fst suffix) ->
    (forall f, In f (map fst (category_files c)) -> ~ In f (map fst suffix)) ->
    ids_registered c -> files_loaded D c ->
    ids_registered (load_files suffix c) /\ files_loaded D (load_files suffix c).
Proof.
  intros HD. induction suffix as [|[rel_path content] suffix IH];
    intros c Hsub Hnd Hdis Hreg Hload; [simpl; auto|].
  inversion Hnd as [|? ? Hni Hnd']; subst.
  assert (Hsub' : forall x, In x suffix -> In x D)
    by (intros x Hx; apply Hsub; right; assumption).
  assert (Hdis' : forall f, In f (map fst (category_files c)) ->
                            ~ In f (map fst suffix)).
  { intros f Hf Hin. apply (Hdis f Hf). right. assumption. }
  cbn [load_files].
  destruct (name rel_path =? "index.json")%string; [apply IH; assumption|].
  destruct content as [[[ps|] pi lu]|]; try (apply IH; assumption).
  pose proof (load_products_spec rel_path ps Hreg) as Hlp. cbn zeta in Hlp.
  destruct (load_products rel_path ps c) as [c1 refs]. simpl in Hlp.
  destruct Hlp as [Hreg1 [Hobj [Hrefs Hcf]]].
  assert (Hnew : ~ In rel_path (map fst (category_files c))).
  { intros Hin. apply (Hdis rel_path Hin). left. reflexivity. }
  apply IH; try assumption.
  - simpl. intros f Hf Hin. apply dict_set_In in Hf. rewrite Hcf in Hf.
    destruct Hf as [->|Hf]; [contradiction | exact (Hdis' f Hf Hin)].
  - destruct Hload as [Hnd0 Hfiles]. split; simpl.
    + apply dict_set_NoDup. rewrite Hcf. assumption.
    + intros f data Hin. apply dict_set_In_pair in Hin. rewrite Hcf in Hin.
      destruct Hin as [E|Hin].
      * injection E as -> ->. simpl. split; [|split].
        -- apply in_map_iff. exists (rel_path, Some (CategoryData (Some ps) pi lu)).
           split; [reflexivity | apply Hsub; left; reflexivity].
        -- unfold file_products_on_disk.
           rewrite (@dict_get_In_NoDup _ rel_path
                      (Some (CategoryData (Some ps) pi lu)) D HD)
             by (apply Hsub; left; reflexivity).
           rewrite Hobj, Hrefs. symmetry. apply map_deref_seq.
        -- intros it Hit. rewrite Hrefs in Hit. apply in_map_iff in Hit.
           destruct Hit as [r [<- Hr]]. apply in_seq in Hr.
           exists r. split; [reflexivity|]. rewrite Hobj, length_app. lia.
      * destruct (Hfiles f data Hin) as [H1 [H2 H3]]. split; [|split].
        -- assumption.
        -- rewrite H2, Hobj. apply map_ext_in. intros it Hit.
           symmetry. apply deref_app. apply H3. assumption.
        -- intros it Hit. destruct (H3 it Hit) as [r [-> Hr]].
           exists r. split; [reflexivity|]. rewrite Hobj, length_app. lia.
Qed.

Lemma analyze_product_keeps f cat p c :
  let c' := analyze_product f cat p c in
  objects c' = objects c /\ all_products c' = all_products c
  /\ category_files c' = category_files c /\ dry_run c' = dry_run c.
Proof.
  cbn zeta. unfold analyze_product.
  destruct (classify_product p cat); [simpl; auto|].
  destruct (validate_subcategory cat (subcategory p) p) as [s|]; [|auto].
  destruct (s =? subcategory p)%string; simpl; auto.
Qed.

Lemma fold_left_keeps (A : Type) (g : CategoryCleanup -> A -> CategoryCleanup) l :
  (forall c x,
      objects (g c x) = objects c /\ all_products (g c x) = all_products c
      /\ category_files (g c x) = category_files c
      /\ dry_run (g c x) = dry_run c) ->
  forall c,
    objects (fold_left g l c) = objects c
    /\ all_products (fold_left g l c) = all_products c
    /\ category_files (fold_left g l c) = category_files c
    /\ dry_run (fold_left g l c) = dry_run c.
Proof.
  intros H. induction l as [|x l IH]; intros c; simpl; [auto|].
  destruct (IH (g c x)) as [H1 [H2 [H3 H4]]].
  destruct (H c x) as [G1 [G2 [G3 G4]]].
  repeat split; congruence.
Qed.

Lemma analyze_keeps c :
  let c' := analyze_misplaced_products c in
  objects c' = objects c /\ all_products c' = all_products c
  /\ category_files c' = category_files c /\ dry_run c' = dry_run c.
Proof.
  cbn zeta. unfold analyze_misplaced_products.
  apply fold_left_keeps. intros c1 [file_path data].
  apply fold_left_keeps. intros c2 it. apply analyze_product_keeps.
Qed.

(** The state after loading and analysing a directory whose paths are
    distinct. *)
Lemma analyzed_state d b :
  NoDup (map fst d) ->
  let c := analyze_misplaced_products (load_all_categories d (init b)) in
  ids_registered c /\ files_loaded d c /\ dry_run c = b.
Proof.
  intros Hd. cbn zeta.
  destruct (analyze_keeps (load_all_categories d (init b)))
    as [H1 [H2 [H3 H4]]].
  assert (H0 : ids_registered (load_files d (init b))
               /\ files_loaded d (load_files d (init b))).
  { apply load_files_spec; try assumption.
    - auto.
    - simpl. tauto.
    - intros pid r Hget. discriminate.
    - split; [constructor | intros f data []]. }
  destruct H0 as [Hreg [Hnd Hfiles]]. unfold load_all_categories in *.
  split; [|split].
  - intros pid r Hget. rewrite H2 in Hget. rewrite H1. apply Hreg. assumption.
  - split; [rewrite H3; assumption|].
    intros f data Hin. rewrite H3 in Hin. rewrite H1. apply Hfiles. assumption.
  - rewrite H4.
    change (init b) with (with_dry_run b (init false)).
    rewrite load_files_dry. reflexivity.
Qed.

(** *** The plan of [apply_fixes] *)

Lemma dict_default_spec (V : Type) k (d : list (string * list V)) X :
  match dict_get String.eqb k d with
  | Some l => l = X
  | None => X = []
  end ->
  dict_default k d = X.
Proof.
  unfold dict_default. destruct (dict_get String.eqb k d); congruence.
Qed.

Lemma grouped_append (V : Type) k (d : list (string * list V)) v f X :
  match dict_get String.eqb f d with
  | Some l => l = X
  | None => X = []
  end ->
  match dict_get String.eqb f
          (dict_set String.eqb k (dict_default k d ++ [v])%list d) with
  | Some l => l = (X ++ if (k =? f)%string then [v] else [])%list
  | None => (X ++ if (k =? f)%string then [v] else [])%list = []
  end.
Proof.
  intros H. destruct (String.eqb_spec k f) as [->|Hne].
  - rewrite dict_get_set_same. rewrite (@dict_default_spec _ f d X H). reflexivity.
  - rewrite dict_get_set_other by assumption. rewrite app_nil_r. assumption.
Qed.

Lemma plan_relocations_spec c mps f :
  match dict_get String.eqb f (fst (plan_relocations_of c mps)) with
  | Some ids => ids = departures mps f
  | None => departures mps f = []
  end
  /\ match dict_get String.eqb f (snd (plan_relocations_of c mps)) with
     | Some l => l = added_items c mps f
     | None => added_items c mps f = []
     end.
Proof.
  induction mps as [|mp mps IH] using rev_ind; [simpl; auto|].
  unfold plan_relocations_of in *. rewrite fold_left_app. simpl.
  match goal with
  | H : context [fold_left ?g mps ([], [])] |- _ =>
      destruct (fold_left g mps ([], [])) as [rm add]
  end.
  simpl in IH. destruct IH as [IH1 IH2].
  unfold departures, added_items.
  rewrite filter_app, map_app, flat_map_app. simpl.
  fold (departures mps f). fold (added_items c mps f).
  assert (Hrm :
    match dict_get String.eqb f
            (dict_set String.eqb (mp_current_file mp)
               (dict_default (mp_current_file mp) rm ++ [mp_productId mp])%list
               rm) with
    | Some ids =>
        ids = (departures mps f
               ++ map mp_productId
                    (if (mp_current_file mp =? f)%string then [mp] else []))%list
    | None =>
        (departures mps f
         ++ map mp_productId
              (if (mp_current_file mp =? f)%string then [mp] else []))%list = []
    end).
  { pose proof (@grouped_append _ (mp_current_file mp) rm (mp_productId mp) f
                  (departures mps f) IH1) as G.
    destruct (mp_current_file mp =? f)%string; exact G. }
  destruct (lookup_product c (mp_productId mp)) as [r|]; simpl.
  - split; [exact Hrm|]. rewrite app_nil_r.
    apply (@grouped_append _ (target_file c (mp_suggested_category mp)) add
             (relocated_item c r (mp_suggested_category mp)) f
             (added_items c mps f) IH2).
  - split; [exact Hrm|]. rewrite !app_nil_r. exact IH2.
Qed.

(** *** Product ids are not changed by the subcategory fixes *)

Lemma upd_nth_same_ids v : forall h r,
  productId v = productId (nth r h no_product) ->
  same_ids h (upd_nth r v h).
Proof.
  induction h as [|x h IH]; intros r Hv r'; [destruct r; reflexivity|].
  destruct r as [|r]; simpl.
  - destruct r' as [|r']; simpl; [assumption | reflexivity].
  - destruct r' as [|r']; simpl; [reflexivity|]. apply IH. assumption.
Qed.

Lemma same_ids_deref h h' it :
  same_ids h h' -> productId (deref h' it) = productId (deref h it).
Proof. intros H. destruct it as [r|p]; simpl; [apply H | reflexivity]. Qed.

Lemma same_ids_map h h' l :
  same_ids h h' ->
  map (fun it => productId (deref h' it)) l
  = map (fun it => productId (deref h it)) l.
Proof. intros H. apply map_ext. intros it. apply same_ids_deref. assumption. Qed.

Lemma fix_subcategories_ids updates l : forall h,
  let '(l', h', _) := fix_subcategories updates l h in
  same_ids h h'
  /\ map (fun it => productId (deref h' it)) l'
     = map (fun it => productId (deref h it)) l.
Proof.
  induction l as [|it l IH]; intros h; [simpl; split; [intros r|]; reflexivity|].
  cbn [fix_subcategories].
  destruct (dict_get oeqb (productId (deref h it)) updates) as [sub|].
  - destruct it as [r|q].
    + specialize (IH (upd_nth r (set_subcategory sub (deref h (Ref r))) h)).
      destruct (fix_subcategories updates l
                  (upd_nth r (set_subcategory sub (deref h (Ref r))) h))
        as [[tl' h2] m2].
      destruct IH as [Hs Hm].
      assert (Hu : same_ids h (upd_nth r (set_subcategory sub (deref h (Ref r))) h))
        by (apply upd_nth_same_ids; reflexivity).
      assert (Hall : same_ids h h2) by (intros r'; rewrite Hs; apply Hu).
      split; [exact Hall|]. simpl. f_equal.
      * apply Hall.
      * rewrite Hm. apply same_ids_map. assumption.
    + specialize (IH h).
      destruct (fix_subcategories updates l h) as [[tl' h2] m2].
      destruct IH as [Hs Hm]. split; [assumption|]. simpl. f_equal. assumption.
  - specialize (IH h).
    destruct (fix_subcategories updates l h) as [[tl' h2] m2].
    destruct IH as [Hs Hm]. split; [assumption|]. simpl. f_equal.
    + apply same_ids_deref. assumption.
    + assumption.
Qed.

(** *** The loop over the files *)

Lemma filter_length_eq (A : Type) (p : A -> bool) l :
  List.length (filter p l) = List.length l -> filter p l = l.
Proof.
  induction l as [|x l IH]; simpl; [reflexivity|].
  destruct (p x); simpl; intros H.
  - f_equal. apply IH. lia.
  - pose proof (filter_length_le p l). lia.
Qed.

Lemma map_filter_comm (A B : Type) (g : A -> B) (p : B -> bool) l :
  map g (filter (fun x => p (g x)) l) = filter p (map g l).
Proof.
  induction l as [|x l IH]; simpl; [reflexivity|].
  destruct (p (g x)); simpl; rewrite IH; reflexivity.
Qed.

Lemma filter_all (A : Type) (l : list A) : filter (fun _ => true) l = l.
Proof. induction l as [|x l IH]; simpl; congruence. Qed.

Lemma relocate_in_file_spec c mps h f l l1 m1 :
  relocate_in_file (fst (plan_relocations_of c mps))
    (snd (plan_relocations_of c mps)) h f l = (l1, m1) ->
  map (fun it => productId (deref h it)) l1
  = (filter (fun product_id => negb (omem product_id (departures mps f)))
       (map (fun it => productId (deref h it)) l)
     ++ map (fun it => productId (deref h it)) (added_items c mps f))%list
  /\ (m1 = false -> l1 = l).
Proof.
  unfold relocate_in_file.
  destruct (plan_relocations_spec c mps f) as [Hrm Hadd].
  destruct (dict_get String.eqb f (fst (plan_relocations_of c mps)))
    as [ids|];
    destruct (dict_get String.eqb f (snd (plan_relocations_of c mps)))
      as [added|];
    intros E; injection E as <- <-; subst;
    rewrite ?Hadd, ?Hrm; simpl; rewrite ?map_app, ?app_nil_r.
  - split; [|discriminate]. f_equal.
    apply (map_filter_comm (fun it => productId (deref h it))
             (fun product_id => negb (omem product_id (departures mps f)))).
  - split.
    + apply (map_filter_comm (fun it => productId (deref h it))
               (fun product_id => negb (omem product_id (departures mps f)))).
    + intros Hm. apply negb_false_iff, Nat.eqb_eq in Hm.
      apply filter_length_eq. assumption.
  - split; [|discriminate]. rewrite filter_all. reflexivity.
  - split; [|reflexivity]. rewrite filter_all. reflexivity.
Qed.

Lemma file_ids_ext d1 d2 f :
  dict_get String.eqb f d1 = dict_get String.eqb f d2 ->
  file_ids d1 f = file_ids d2 f.
Proof. unfold file_ids, file_products_on_disk. intros ->. reflexivity. Qed.

Lemma same_ids_trans h0 h1 h2 :
  same_ids h0 h1 -> same_ids h1 h2 -> same_ids h0 h2.
Proof. intros H1 H2 r. rewrite H2. apply H1. Qed.

Lemma apply_to_files_spec now c mps upd h0 :
  forall files h dk d',
    NoDup (map fst files) ->
    same_ids h0 h ->
    (forall f data, In (f, data) files ->
        file_ids dk f
        = map (fun it => productId (deref h0 it)) (file_products data)) ->
    apply_to_files now (fst (plan_relocations_of c mps))
      (snd (plan_relocations_of c mps)) upd files h dk = Returned d' ->
    (forall f data, In (f, data) files ->
        file_ids d' f
        = (filter (fun product_id => negb (omem product_id (departures mps f)))
             (map (fun it => productId (deref h0 it)) (file_products data))
           ++ map (fun it => productId (deref h0 it)) (added_items c mps f))%list)
    /\ (forall f, ~ In f (map fst files) ->
          dict_get String.eqb f d' = dict_get String.eqb f dk).
Proof.
  induction files as [|[f0 data0] files IH]; intros h dk d' Hnd Hh Hdk Hrun.
  - simpl in Hrun. injection Hrun as <-. split; [intros f data [] | auto].
  - inversion Hnd as [|? ? Hni Hnd']; subst.
    cbn [apply_to_files] in Hrun.
    destruct (relocate_in_file (fst (plan_relocations_of c mps))
                (snd (plan_relocations_of c mps)) h f0 (file_products data0))
      as [l1 m1] eqn:Er.
    apply relocate_in_file_spec in Er. destruct Er as [Hl1 Hm1].
    rewrite !(same_ids_map _ Hh) in Hl1.
    assert (Hfix :
      forall l2 h2 m2,
        match dict_get String.eqb f0 upd with
        | Some updates => fix_subcategories updates l1 h
        | None => (l1, h, false)
        end = (l2, h2, m2) ->
        same_ids h0 h2
        /\ map (fun it => productId (deref h2 it)) l2
           = map (fun it => productId (deref h0 it)) l1).
    { intros l2 h2 m2 E.
      destruct (dict_get String.eqb f0 upd) as [updates|].
      - pose proof (fix_subcategories_ids updates l1 h) as Hf.
        rewrite E in Hf. destruct Hf as [Hs Hm].
        split; [eapply same_ids_trans; eassumption|].
        rewrite Hm. apply same_ids_map. assumption.
      - injection E as <- <- <-. split; [assumption|].
        apply same_ids_map. assumption. }
    destruct (match dict_get String.eqb f0 upd with
              | Some updates => fix_subcategories updates l1 h
              | None => (l1, h, false)
              end) as [[l2 h2] m2] eqn:Ef.
    destruct (Hfix l2 h2 m2 eq_refl) as [Hh2 Hl2]. clear Hfix.
    assert (Htail : forall dk',
      (forall f, f <> f0 -> dict_get String.eqb f dk' = dict_get String.eqb f dk) ->
      forall f data, In (f, data) files ->
        file_ids dk' f
        = map (fun it => productId (deref h0 it)) (file_products data)).
    { intros dk' Hsame f data Hin.
      rewrite <- (Hdk f data) by (right; assumption).
      apply file_ids_ext. apply Hsame. intros ->. apply Hni.
      apply in_map_iff. exists (f0, data). auto. }
    destruct (m1 || m2) eqn:Em.
    + destruct (file_pageInfo data0) as [n|]; [|discriminate].
      apply IH in Hrun; try assumption.
      * destruct Hrun as [HA HB]. split.
        -- intros f data [E|Hin]; [|apply HA; assumption].
           injection E as <- <-.
           rewrite <- Hl1, <- Hl2.
           unfold file_ids, file_products_on_disk.
           rewrite (HB f0 Hni), dict_get_set_same. rewrite map_map. reflexivity.
        -- intros f Hf. simpl in Hf.
           rewrite HB by tauto. apply dict_get_set_other. tauto.
      * apply Htail. intros f Hf. apply dict_get_set_other. congruence.
    + apply orb_false_iff in Em. destruct Em as [-> ->].
      apply IH in Hrun; try assumption.
      * destruct Hrun as [HA HB]. split.
        -- intros f data [E|Hin]; [|apply HA; assumption].
           injection E as <- <-.
           rewrite <- Hl1, (Hm1 eq_refl).
           rewrite <- (Hdk f0 data0) by (left; reflexivity).
           apply file_ids_ext. apply HB. assumption.
        -- intros f Hf. simpl in Hf. apply HB. tauto.
      * apply Htail. auto.
Qed.

Lemma added_items_ids c mps f :
  ids_registered c ->
  map (fun it => productId (deref (objects c) it)) (added_items c mps f)
  = arrivals c mps f.
Proof.
  intros Hreg. unfold added_items, arrivals, arrives_at.
  induction mps as [|mp mps IH]; simpl; [reflexivity|].
  rewrite map_app, IH.
  destruct (lookup_product c (mp_productId mp)) as [r|] eqn:El; [|reflexivity].
  destruct (target_file c (mp_suggested_category mp) =? f)%string;
    [|reflexivity].
  simpl. f_equal.
  unfold lookup_product in El.
  destruct (mp_productId mp) as [pid|]; [|discriminate].
  destruct (Hreg pid r El) as [_ Hid].
  unfold relocated_item.
  destruct (_suggest_subcategory (title (deref (objects c) (Ref r)))
              (mp_suggested_category mp));
    destruct (mem (mp_suggested_category mp) (categories_with_products c));
    simpl; assumption.
Qed.

Lemma arrivals_relocated_to c mps f :
  (forall mp, In mp mps -> lookup_product c (mp_productId mp) <> None) ->
  arrivals c mps f = relocated_to c mps f.
Proof.
  intros H. unfold arrivals, relocated_to. f_equal.
  apply filter_ext_in. intros mp Hin. unfold arrives_at.
  destruct (lookup_product c (mp_productId mp)) eqn:E; [reflexivity|].
  exfalso. exact (H mp Hin E).
Qed.

(** C4, amended.  On a directory whose paths are distinct, a dry run and
    an apply run compute the same report, hence the same list of
    relocations, and the dry run leaves every file as it is.  The target
    file of a listed relocation is the file of the suggested category
    when some loaded file belongs to that category, and other.json
    otherwise.  When the apply run returns and every listed relocation
    can be carried out (the id of the product was loaded and the target
    file is one of the loaded files), each loaded file holds the ids it
    held, in order, without the ids that the report lists as misplaced
    in that file, followed by the ids of the listed products whose
    target file it is; every listed product is then in its target file,
    and the files that were not loaded are not touched. *)
Theorem dry_run_and_apply now d :
  NoDup (map fst d) ->
  let dry := main true false now d in
  let app := main false true now d in
  let c := analyze_misplaced_products (load_all_categories d (init false)) in
  run_report dry = run_report app
  /\ run_files dry = Returned d
  /\ (forall rep after,
        run_report app = Some rep ->
        run_files app = Returned after ->
        can_be_carried_out c (report_misplaced rep) ->
        (forall f, In f (map fst (category_files c)) ->
            file_ids after f
            = (filter
                 (fun product_id =>
                    negb (omem product_id
                            (departures (report_misplaced rep) f)))
                 (file_ids d f)
               ++ relocated_to c (report_misplaced rep) f)%list)
        /\ (forall mp, In mp (report_misplaced rep) ->
              In (mp_productId mp)
                 (file_ids after
                    (target_file c (mp_suggested_category mp))))
        /\ (forall f, ~ In f (map fst (category_files c)) ->
              dict_get String.eqb f after = dict_get String.eqb f d)).
Proof.
  intros Hd. cbn zeta.
  destruct (@analyzed_state d false Hd) as [Hreg [[Hnd Hfiles] Hdry]].
  set (c := analyze_misplaced_products (load_all_categories d (init false)))
    in *.
  assert (Happ : run_report (main false true now d) = Some (generate_report c)
                 /\ run_files (main false true now d) = apply_fixes now c d).
  { unfold main. cbn [negb andb]. fold c.
    destruct (apply_fixes now c d); auto. }
  destruct Happ as [Hrep Hrun].
  split; [|split].
  - rewrite Hrep. unfold main. cbn [negb andb run_report].
    f_equal. apply report_dry_run.
  - reflexivity.
  - intros rep after Er Ea Hok. rewrite Hrep in Er. injection Er as <-.
    simpl report_misplaced in *.
    rewrite Hrun in Ea. unfold apply_fixes in Ea. rewrite Hdry in Ea.
    unfold plan_relocations in Ea.
    destruct (plan_relocations_of c (misplaced_products c)) as [rm add] eqn:Ep.
    change rm with (fst (rm, add)) in Ea.
    change add with (snd (rm, add)) in Ea at 2.
    rewrite <- Ep in Ea.
    apply (@apply_to_files_spec now c (misplaced_products c)
             (plan_subcategory_updates c) (objects c)) in Ea.
    + destruct Ea as [HA HB].
      assert (Hids : forall f, In f (map fst (category_files c)) ->
                file_ids after f
                = (filter
                     (fun product_id =>
                        negb (omem product_id
                                (departures (misplaced_products c) f)))
                     (file_ids d f)
                   ++ relocated_to c (misplaced_products c) f)%list).
      { intros f Hf. apply in_map_iff in Hf.
        destruct Hf as [[f' data] [<- Hin]].
        simpl. rewrite (HA f' data Hin).
        rewrite (@added_items_ids c (misplaced_products c) f' Hreg).
        rewrite arrivals_relocated_to by (intros mp Hmp; apply Hok, Hmp).
        destruct (Hfiles f' data Hin) as [_ [Hps _]].
        unfold file_ids. rewrite Hps, map_map. reflexivity. }
      split; [exact Hids|]. split; [|exact HB].
      intros mp Hmp. destruct (Hok mp Hmp) as [_ Hloaded].
      rewrite (Hids _ Hloaded). apply in_or_app. right.
      unfold relocated_to. apply in_map. apply filter_In.
      split; [exact Hmp | apply String.eqb_refl].
    + assumption.
    + intros r. reflexivity.
    + intros f data Hin. destruct (Hfiles f data Hin) as [_ [Hps _]].
      unfold file_ids. rewrite Hps, map_map. reflexivity.
Qed.

Lemma dry_run_and_apply_witness :
  let d :=
    [("appliances.json",
      Some (CategoryData
              (Some [Product (Some "100000002")
                       "StyleWell Rolling Kitchen Cart" "StyleWell" "" None])
              (Some 1) "2025-12-01T00:00:00"));
     ("other.json",
      Some (CategoryData (Some []) (Some 0) "2025-12-01T00:00:00"))] in
  run_report (main true false "2026-01-01T00:00:00" d)
  = run_report (main false true "2026-01-01T00:00:00" d)
  /\ file_ids (files_of (run_files (main false true "2026-01-01T00:00:00" d)))
       "other.json"
     = [Some "100000002"].
Proof.
  intros d.
  assert (Hd : NoDup (map fst d)).
  { simpl. repeat constructor; simpl; intuition discriminate. }
  destruct (@dry_run_and_apply "2026-01-01T00:00:00" d Hd) as [H1 [_ H3]].
  split; [exact H1|].
  set (c := analyze_misplaced_products (load_all_categories d (init false)))
    in H3.
  specialize
    (H3 (generate_report c)
        (files_of (run_files (main false true "2026-01-01T00:00:00" d)))).
  destruct H3 as [Hids _].
  - vm_compute. reflexivity.
  - vm_compute. reflexivity.
  - intros mp Hmp. vm_compute in Hmp. destruct Hmp as [<-|[]].
    split; [vm_compute; discriminate | vm_compute; tauto].
  - rewrite (Hids "other.json") by (vm_compute; tauto).
    vm_compute. reflexivity.
Defined.

End CleanupRun.

(** ** Product counts: consolidate_structure.py and
       rebuild_category_index.py *)

Section Counts.
Import consolidate_structure.







End Counts.

Section Reindex.
Import rebuild_category_index.

(** Induction on index trees. *)
Lemma category_ind' (P : category -> Prop) :
  (forall cat_id count subs,
      match subs with Some l => Forall P l | None => True end ->
      P (Category cat_id count subs)) ->
  forall c, P c.
Proof.
  intros H. fix IH 1. intros [cat_id count subs]. apply H.
  destruct subs as [l|]; [|exact I].
  revert l. fix IHl 1. intros [|x l]; constructor; [apply IH | apply IHl].
Qed.

Lemma id_update_category counts c : id (update_category counts c) = id c.
Proof. destruct c; reflexivity. Qed.








End Reindex.

(* ================================================================== *)
(** * Further properties of the scripts *)
(* ================================================================== *)

Section ClassifierProperties.
Import Lowered.

(** ** Matching a text in lower case *)

Lemma no_upper_lower s : no_upper (lower s) = true.
Proof.
  unfold no_upper. induction s as [|c s IH]; simpl; [reflexivity|].
  rewrite IH, andb_true_r. unfold lower_char.
  destruct (is_upper c) eqn:E; [|rewrite E; reflexivity].
  unfold is_upper, in_range in *.
  apply andb_true_iff in E. destruct E as [E1 E2].
  apply Nat.leb_le in E1, E2.
  change (nat_of_ascii "A") with 65 in *. change (nat_of_ascii "Z") with 90 in *.
  rewrite nat_ascii_embedding by lia.
  apply negb_true_iff, andb_false_iff. right. apply Nat.leb_gt. lia.
Qed.

Lemma lower_char_fixed c : is_upper c = false -> lower_char c = c.
Proof. intros H. unfold lower_char. rewrite H. reflexivity. Qed.

Lemma lower_fixed s : no_upper s = true -> lower s = s.
Proof.
  unfold no_upper. induction s as [|c s IH]; simpl; [reflexivity|].
  intros H. apply andb_true_iff in H. destruct H as [Hc Hs].
  apply negb_true_iff in Hc. rewrite (lower_char_fixed _ Hc), IH; auto.
Qed.

(** [s.lower().lower() == s.lower()] *)
Lemma lower_lower s : lower (lower s) = lower s.
Proof. apply lower_fixed, no_upper_lower. Qed.

(** The matcher consults its continuation only at states whose text is
    a tail of the current one. *)
Lemma star_loop_cong (A : Type)
    (body : mstate -> (mstate -> option A) -> option A) (k k' : mstate -> option A)
    (Hbody : forall st k1 k2,
        no_upper (rest st) = true ->
        (forall st1, no_upper (rest st1) = true -> k1 st1 = k2 st1) ->
        body st k1 = body st k2) :
  (forall st1, no_upper (rest st1) = true -> k st1 = k' st1) ->
  forall n st, no_upper (rest st) = true ->
    star_loop body k n st = star_loop body k' n st.
Proof.
  intros Hk. induction n as [|n IH]; intros st Hst; simpl; [auto|].
  rewrite (Hbody st _
             (fun st1 =>
                if String.length (rest st1) <? String.length (rest st)
                then star_loop body k' n st1 else None) Hst).
  - rewrite (Hk st Hst). reflexivity.
  - intros st1 H1. destruct (_ <? _); [apply IH, H1 | reflexivity].
Qed.

Lemma rx_cong ci r : forall (A : Type) st (k k' : mstate -> option A),
  no_upper (rest st) = true ->
  (forall st1, no_upper (rest st1) = true -> k st1 = k' st1) ->
  rx ci r st k = rx ci r st k'.
Proof.
  induction r; intros A st k k' Hst Hk; cbn [rx].
  - apply Hk, Hst.
  - destruct (rest st) as [|x tl] eqn:E; [reflexivity|].
    destruct (chr_eqb ci c x); [|reflexivity].
    apply Hk. simpl. unfold no_upper in Hst. try rewrite E in Hst. simpl in Hst.
    apply andb_true_iff in Hst. apply Hst.
  - destruct (rest st) as [|x tl] eqn:E; [reflexivity|].
    destruct (f x); [|reflexivity].
    apply Hk. simpl. unfold no_upper in Hst. try rewrite E in Hst. simpl in Hst.
    apply andb_true_iff in Hst. apply Hst.
  - destruct (at_boundary st); auto.
  - destruct (at_end st); auto.
  - apply IHr1; [assumption|]. intros st1 H1. apply IHr2; assumption.
  - rewrite (IHr1 A st k k' Hst Hk), (IHr2 A st k k' Hst Hk). reflexivity.
  - apply star_loop_cong; try assumption.
    intros st0 k1 k2 H0 H12. apply IHr; assumption.
  - apply IHr; [assumption|]. intros st1 H1. apply Hk. exact H1.
  - rewrite (Hk st Hst). reflexivity.
Qed.

(** On a text in lower case, a pattern in lower case matches with
    IGNORECASE exactly as it does without. *)
Lemma rx_lower r : lower_pattern r = true ->
  forall (A : Type) st (k : mstate -> option A),
    no_upper (rest st) = true ->
    rx true r st k = rx false r st k.
Proof.
  induction r; intros Hr A st k Hst; cbn [rx]; simpl in Hr;
    try reflexivity.
  - destruct (rest st) as [|x tl] eqn:E; [reflexivity|].
    unfold no_upper in Hst. try rewrite E in Hst. simpl in Hst.
    apply andb_true_iff in Hst. destruct Hst as [Hx _].
    apply negb_true_iff in Hr, Hx.
    unfold chr_eqb. rewrite (lower_char_fixed _ Hr), (lower_char_fixed _ Hx).
    reflexivity.
  - apply andb_true_iff in Hr. destruct Hr as [H1 H2].
    rewrite (IHr1 H1). 2: assumption.
    apply rx_cong; [assumption|]. intros st1 Hs1. apply IHr2; assumption.
  - apply andb_true_iff in Hr. destruct Hr as [H1 H2].
    rewrite (IHr1 H1), (IHr2 H2) by assumption. reflexivity.
  - generalize (S (String.length (rest st))). intros n. revert st Hst.
    induction n as [|n IHn]; intros st Hst; simpl; [reflexivity|].
    rewrite (IHr Hr) by assumption.
    rewrite (@rx_cong false r A st _
               (fun st1 =>
                  if String.length (rest st1) <? String.length (rest st)
                  then star_loop (fun st0 k0 => rx false r st0 k0) k n st1
                  else None) Hst).
    + reflexivity.
    + intros st1 H1. destruct (_ <? _); [apply IHn, H1 | reflexivity].
  - apply (IHr Hr); assumption.
  - rewrite (IHr Hr) by assumption. reflexivity.
Qed.

Lemma search_from_lower r : lower_pattern r = true ->
  forall s pv, no_upper s = true ->
    search_from true r pv s = search_from false r pv s.
Proof.
  intros Hr. induction s as [|c s IH]; intros pv Hs.
  - simpl. unfold match_here. rewrite (rx_lower _ Hr) by exact Hs. reflexivity.
  - cbn [search_from]. unfold match_here.
    rewrite (rx_lower _ Hr) by exact Hs.
    destruct (rx false r _ _); [reflexivity|].
    apply IH. unfold no_upper in *. simpl in Hs.
    apply andb_true_iff in Hs. apply Hs.
Qed.

(** [re.search(r, s.lower(), re.IGNORECASE)] is [re.search(r, s.lower())]
    for a pattern without upper-case letters. *)
Lemma isearch_lower r s :
  lower_pattern r = true -> isearch r (lower s) = search r (lower s).
Proof.
  intros Hr. unfold isearch, search.
  rewrite (search_from_lower _ Hr) by apply no_upper_lower. reflexivity.
Qed.

(** A match of an alternation is a match of one of its sides. *)
Lemma search_from_alt ci r1 r2 : forall s pv m,
  search_from ci (Alt r1 r2) pv s = Some m ->
  (exists m1, search_from ci r1 pv s = Some m1)
  \/ (exists m2, search_from ci r2 pv s = Some m2).
Proof.
  induction s as [|c s IH]; intros pv m H; cbn [search_from] in *;
    unfold match_here in *; cbn [rx] in H.
  - destruct (rx ci r1 _ _) as [m1|]; [left; eauto|].
    destruct (rx ci r2 _ _) as [m2|]; [right; eauto | discriminate].
  - destruct (rx ci r1 _ _) as [m1|]; [left; eauto|].
    destruct (rx ci r2 _ _) as [m2|]; [right; eauto|].
    apply IH in H. exact H.
Qed.

Lemma search_alt r1 r2 s :
  search (Alt r1 r2) s = true -> search r1 s = true \/ search r2 s = true.
Proof.
  unfold search. destruct (search_from false (Alt r1 r2) None s) as [m|] eqn:E;
    [|discriminate].
  intros _. apply search_from_alt in E. destruct E as [[m1 E]|[m2 E]];
    rewrite E; auto.
Qed.

(** ** cleanup_categories.py: what [classify_product] can suggest *)

Lemma classify_product_suggestion p cur c :
  classify_product p cur = Some c ->
  c <> cur
  /\ In c ["other"; "furniture"; "home-decor"; "tools"; "appliances"].
Proof.
  intros H. unfold classify_product in H.
  set (t := lower (title p)) in *.
  set (b := brand p) in *.
  destruct (cur =? "appliances")%string eqn:Ea.
  - apply String.eqb_eq in Ea. subst cur. revert H.
    generalize (isearch re_faucet t) (isearch re_brand_furniture t)
      (isearch re_brand_decor t) (isearch re_laundry t) (isearch re_chairs t)
      (isearch re_artificial t) (isearch re_welding t) (isearch re_saws t)
      (isearch re_carts t) (isearch re_buffet t)
      (isearch re_coolers t) (isearch re_cold t)
      (isearch re_clear_tools t) (isearch re_clear_furniture t)
      (existsb (fun keyword : regex => isearch keyword t) APPLIANCES_KEYWORDS)
      (mem b NON_APPLIANCE_BRANDS) (mem b APPLIANCE_BRANDS)
      (mem b ["StyleWell"; "HOMESTYLES"; "FUFU&GAGA"; "US Pride Furniture"])
      (b =? "NATURAE DECOR")%string.
    intros. walk_hyp H; try discriminate; injection H as <-;
      (split; [discriminate | simpl; tauto]).
  - revert H.
    remember (mem cur ["other"; "storage"]) as m1 eqn:E1.
    remember (mem cur ["electrical"; "other"; "storage"]) as m2 eqn:E2.
    generalize (isearch re_coolers t) (isearch re_cold t)
      (isearch re_clear_tools t) (isearch re_clear_furniture t)
      (existsb (fun keyword : regex => isearch keyword t) APPLIANCES_KEYWORDS)
      (mem b NON_APPLIANCE_BRANDS) (mem b APPLIANCE_BRANDS)
      (cur =? "garage")%string (cur =? "outdoors")%string
      (cur =? "home-decor")%string.
    intros. apply String.eqb_neq in Ea.
    walk_hyp H; try discriminate; injection H as <-;
      (split; [| simpl; tauto]);
      try (intros E; apply Ea; symmetry; exact E);
      intros E; subst cur; vm_compute in E2; discriminate.
Qed.

(** A suggestion is one of five categories and never the category the
    product is already in. *)
Theorem classify_product_moves p cur c :
  classify_product p cur = Some c ->
  c <> cur
  /\ In c ["other"; "furniture"; "home-decor"; "tools"; "appliances"].
Proof. apply classify_product_suggestion. Qed.

Lemma classify_product_moves_witness :
  "furniture" <> "appliances"
  /\ In "furniture" ["other"; "furniture"; "home-decor"; "tools"; "appliances"].
Proof.
  apply (@classify_product_moves
           (Product (Some "100000002") "StyleWell Rolling Kitchen Cart"
              "StyleWell" "" None)
           "appliances" "furniture").
  reflexivity.
Defined.

(** "Trust the brand": a product of an appliance brand that is filed
    under appliances stays there, whatever its title says. *)
Theorem appliance_brand_is_trusted p :
  mem (brand p) APPLIANCE_BRANDS = true ->
  classify_product p "appliances" = None.
Proof.
  intros H. unfold classify_product.
  rewrite (brands_disjoint _ H), H. reflexivity.
Qed.

Lemma appliance_brand_is_trusted_witness :
  classify_product
    (Product (Some "100000005") "GE Kitchen Faucet Cart" "GE" "" None)
    "appliances" = None.
Proof. apply appliance_brand_is_trusted. reflexivity. Defined.

(** Outside appliances, electrical, other and storage the only move that
    is ever suggested is into appliances; for an ASCII title it is
    suggested only when the title names a refrigerator, a freezer or a
    fridge, or for a product of an appliance brand whose title has an
    appliance keyword. *)
Theorem only_appliances_are_pulled_in p cur c :
  mem cur ["appliances"; "electrical"; "other"; "storage"] = false ->
  classify_product p cur = Some c ->
  c = "appliances"
  /\ (ascii_text (title p) = true ->
      isearch re_cold (lower (title p)) = true
      \/ (mem (brand p) APPLIANCE_BRANDS = true
          /\ existsb (fun keyword => isearch keyword (lower (title p)))
               APPLIANCES_KEYWORDS = true)).
Proof.
  intros Hc H. unfold classify_product in H.
  set (t := lower (title p)) in *.
  set (b := brand p) in *.
  assert (Ea : (cur =? "appliances")%string = false).
  { unfold mem in Hc. simpl in Hc.
    destruct (cur =? "appliances")%string; [discriminate | reflexivity]. }
  assert (E1 : mem cur ["other"; "storage"] = false).
  { unfold mem in *. simpl in *.
    destruct (cur =? "appliances")%string, (cur =? "electrical")%string,
      (cur =? "other")%string, (cur =? "storage")%string;
      try discriminate; reflexivity. }
  assert (E2 : mem cur ["electrical"; "other"; "storage"] = false).
  { unfold mem in *. simpl in *.
    destruct (cur =? "appliances")%string, (cur =? "electrical")%string,
      (cur =? "other")%string, (cur =? "storage")%string;
      try discriminate; reflexivity. }
  rewrite Ea, E1, E2 in H. revert H.
  destruct (isearch re_cold t) eqn:Ecold;
    destruct (existsb (fun keyword : regex => isearch keyword t)
                APPLIANCES_KEYWORDS) eqn:Ekw;
    destruct (mem b APPLIANCE_BRANDS) eqn:Eb;
    generalize (mem b NON_APPLIANCE_BRANDS)
      (cur =? "garage")%string (cur =? "outdoors")%string
      (cur =? "home-decor")%string;
    intros; walk_hyp H; try discriminate; injection H as <-; auto.
Qed.

Lemma only_appliances_are_pulled_in_witness :
  "appliances" = "appliances"
  /\ (isearch re_cold (lower "Garage Ready Chest Freezer") = true
      \/ (mem "Husky" APPLIANCE_BRANDS = true
          /\ existsb (fun keyword => isearch keyword
                                       (lower "Garage Ready Chest Freezer"))
               APPLIANCES_KEYWORDS = true)).
Proof.
  destruct (@only_appliances_are_pulled_in
              (Product (Some "100000006") "Garage Ready Chest Freezer" "Husky"
                 "" None)
              "garage" "appliances" eq_refl eq_refl) as [H1 H2].
  split; [exact H1 | apply H2; reflexivity].
Defined.

(** ** cleanup_categories.py: subcategories *)

Lemma _suggest_subcategory_spec t category s :
  _suggest_subcategory t category = Some s ->
  category = "appliances"
  /\ exists valid_subs,
       assoc category VALID_SUBCATEGORIES = Some valid_subs
       /\ mem s valid_subs = true.
Proof.
  unfold _suggest_subcategory.
  destruct (category =? "appliances")%string eqn:E; [|discriminate].
  apply String.eqb_eq in E. subst category. intros H.
  split; [reflexivity|]. eexists. split; [reflexivity|].
  revert H. generalize (lower t). intros L H.
  repeat match type of H with
         | (if ?b then _ else _) = _ => destruct b
         end;
    try discriminate; injection H as <-; reflexivity.
Qed.

(** A subcategory is only ever suggested for appliances, and it is one
    of the valid subcategories of appliances. *)
Theorem suggested_subcategory_is_valid t category s :
  _suggest_subcategory t category = Some s ->
  category = "appliances"
  /\ exists valid_subs,
       assoc category VALID_SUBCATEGORIES = Some valid_subs
       /\ mem s valid_subs = true.
Proof. apply _suggest_subcategory_spec. Qed.

Lemma suggested_subcategory_is_valid_witness :
  "appliances" = "appliances"
  /\ exists valid_subs,
       assoc "appliances" VALID_SUBCATEGORIES = Some valid_subs
       /\ mem "French Door" valid_subs = true.
Proof.
  apply (@suggested_subcategory_is_valid
           "GE 27 cu. ft. French Door Refrigerator" "appliances" "French Door").
  reflexivity.
Defined.

Lemma isearch_word_of_alt w1 w2 L :
  no_upper L = true ->
  lower_pattern (word w1) = true -> lower_pattern (word w2) = true ->
  search (alts [word w1; word w2]) L = true ->
  isearch (word w1) L = true \/ isearch (word w2) L = true.
Proof.
  intros HL H1 H2 H. rewrite <- (lower_fixed _ HL).
  rewrite !isearch_lower by assumption. rewrite (lower_fixed _ HL).
  apply search_alt. exact H.
Qed.

(** What [_suggest_subcategory] proposes for a title is accepted by
    [validate_subcategory] for a product with that title. *)
Lemma suggestion_is_accepted t category s p :
  lower t = lower (title p) ->
  _suggest_subcategory t category = Some s ->
  validate_subcategory category s p = None.
Proof.
  intros Ht H.
  destruct (_suggest_subcategory_spec _ _ H) as [-> _].
  unfold _suggest_subcategory in H. rewrite Ht in H.
  unfold validate_subcategory.
  pose proof (no_upper_lower (title p)) as HL.
  set (L := lower (title p)) in *.
  pose proof (@isearch_word_of_alt "refrigerator" "fridge" L HL eq_refl eq_refl)
    as Hcold.
  pose proof (@isearch_word_of_alt "range" "stove" L HL eq_refl eq_refl)
    as Hrange.
  cbn [alts] in Hcold, Hrange.
  change (alts [word "refrigerator"; word "fridge"])
    with (Alt (word "refrigerator") (word "fridge")) in H.
  change (alts [word "range"; word "stove"])
    with (Alt (word "range") (word "stove")) in H.
  destruct (search (Alt (word "refrigerator") (word "fridge")) L) eqn:Ecold;
    destruct (search (Alt (word "range") (word "stove")) L) eqn:Erange;
    cbn [String.eqb Ascii.eqb Bool.eqb] in H;
    repeat match type of H with
           | (if ?b then _ else _) = _ => destruct b
           end;
    try discriminate; injection H as <-;
    cbn [assoc VALID_SUBCATEGORIES String.eqb Ascii.eqb Bool.eqb mem existsb
         andb orb negb];
    try reflexivity.
  all: try (destruct (Hcold eq_refl) as [E|E]; rewrite E;
            cbn [orb negb andb]; rewrite ?orb_true_r; reflexivity).
  all: try (destruct (Hrange eq_refl) as [E|E]; rewrite E;
            cbn [orb negb andb]; rewrite ?orb_true_r; reflexivity).
Qed.

(** A subcategory fix is stable: the subcategory that
    [validate_subcategory] suggests for a product is one it accepts for
    that product, so a second pass suggests nothing more. *)
Theorem subcategory_fix_is_stable category subcategory p s :
  validate_subcategory category subcategory p = Some s ->
  validate_subcategory category s p = None.
Proof.
  intros H. unfold validate_subcategory in H.
  destruct (assoc category VALID_SUBCATEGORIES) as [valid_subs|];
    [|discriminate].
  destruct (mem subcategory valid_subs).
  - destruct (_ && _ && negb _).
    + apply (@suggestion_is_accepted (lower (title p))); [apply lower_lower | exact H].
    + destruct (_ && _ && negb _); [|discriminate].
      apply (@suggestion_is_accepted (lower (title p))); [apply lower_lower | exact H].
  - apply (@suggestion_is_accepted (title p)); [reflexivity | exact H].
Qed.

Lemma subcategory_fix_is_stable_witness :
  validate_subcategory "appliances" "French Door"
    (Product (Some "100000007") "GE 27 cu. ft. French Door Refrigerator" "GE"
       "Fridges" None)
  = None.
Proof.
  apply (@subcategory_fix_is_stable "appliances" "Fridges"). reflexivity.
Defined.

End ClassifierProperties.

(** ** cleanup_categories.py: the findings of the analysis *)

Section CleanupProperties.

Import findings.

Lemma validate_subcategory_valid category subcategory p s :
  validate_subcategory category subcategory p = Some s ->
  exists valid_subs,
    assoc "appliances" VALID_SUBCATEGORIES = Some valid_subs
    /\ mem s valid_subs = true.
Proof.
  intros H. unfold validate_subcategory in H.
  destruct (assoc category VALID_SUBCATEGORIES) as [valid_subs|];
    [|discriminate].
  assert (Hs : exists t, _suggest_subcategory t category = Some s).
  { destruct (mem subcategory valid_subs).
    - destruct (_ && _ && negb _); [eauto|].
      destruct (_ && _ && negb _); [eauto | discriminate].
    - eauto. }
  destruct Hs as [t Hs].
  destruct (_suggest_subcategory_spec _ _ Hs) as [-> Hv]. exact Hv.
Qed.

Lemma analyze_product_findings f p c :
  let c' := analyze_product f (get_category_from_path f) p c in
  (exists new_mp new_sf,
      misplaced_products c' = (misplaced_products c ++ new_mp)%list
      /\ subcategory_fixes c' = (subcategory_fixes c ++ new_sf)%list
      /\ Forall sound_misplaced new_mp /\ Forall sound_fix new_sf
      /\ Forall (fun mp => mp_current_file mp = f) new_mp
      /\ Forall (fun sf => sf_file sf = f) new_sf
      /\ List.length new_mp + List.length new_sf <= 1).
Proof.
  unfold analyze_product.
  destruct (classify_product p (get_category_from_path f)) as [c1|] eqn:Ec.
  - exists [Misplaced (productId p) (title p) (brand p)
              (get_category_from_path f) f (subcategory p) c1], [].
    simpl. rewrite app_nil_r.
    destruct (classify_product_suggestion _ _ Ec) as [Hne Hin].
    repeat split; auto; try (constructor; [|constructor]); try constructor;
      try reflexivity; try assumption.
    unfold sound_misplaced. simpl. auto.
  - destruct (validate_subcategory (get_category_from_path f) (subcategory p) p)
      as [s|] eqn:Ev.
    + destruct (s =? subcategory p)%string eqn:Es.
      * exists [], []. rewrite !app_nil_r. repeat split; auto.
      * exists [], [SubcategoryFix (productId p) (title p) f (subcategory p) s].
        simpl. rewrite app_nil_r. apply String.eqb_neq in Es.
        repeat split; auto; try (constructor; [|constructor]); try reflexivity.
        unfold sound_fix. simpl. split; [assumption|].
        eapply validate_subcategory_valid. eassumption.
    + exists [], []. rewrite !app_nil_r. repeat split; auto.
Qed.

Lemma analyze_file_findings f h l : forall c,
  let c' := fold_left
              (fun c2 it =>
                 analyze_product f (get_category_from_path f) (deref h it) c2)
              l c in
  exists new_mp new_sf,
    misplaced_products c' = (misplaced_products c ++ new_mp)%list
    /\ subcategory_fixes c' = (subcategory_fixes c ++ new_sf)%list
    /\ Forall sound_misplaced new_mp /\ Forall sound_fix new_sf
    /\ Forall (fun mp => mp_current_file mp = f) new_mp
    /\ Forall (fun sf => sf_file sf = f) new_sf
    /\ List.length new_mp + List.length new_sf <= List.length l.
Proof.
  induction l as [|it l IH]; intros c; simpl.
  - exists [], []. rewrite !app_nil_r. repeat split; auto.
  - destruct (analyze_product_findings f (deref h it) c)
      as [m1 [s1 [E1 [E2 [F1 [F2 [G1 [G2 L1]]]]]]]].
    destruct (IH (analyze_product f (get_category_from_path f) (deref h it) c))
      as [m2 [s2 [E3 [E4 [F3 [F4 [G3 [G4 L2]]]]]]]].
    exists (m1 ++ m2)%list, (s1 ++ s2)%list.
    rewrite E3, E4, E1, E2, <- !app_assoc, !length_app.
    repeat split; auto; try (apply Forall_app; split; assumption). lia.
Qed.

Lemma analyze_files_findings h files : forall c,
  let c' := fold_left
              (fun c1 '(file_path, data) =>
                 fold_left
                   (fun c2 it =>
                      analyze_product file_path
                        (get_category_from_path file_path) (deref h it) c2)
                   (file_products data) c1)
              files c in
  exists new_mp new_sf,
    misplaced_products c' = (misplaced_products c ++ new_mp)%list
    /\ subcategory_fixes c' = (subcategory_fixes c ++ new_sf)%list
    /\ Forall sound_misplaced new_mp /\ Forall sound_fix new_sf
    /\ Forall (fun mp => In (mp_current_file mp) (map fst files)) new_mp
    /\ Forall (fun sf => In (sf_file sf) (map fst files)) new_sf
    /\ List.length new_mp + List.length new_sf
       <= list_sum (map (fun '(_, data) => List.length (file_products data))
                      files).
Proof.
  induction files as [|[f data] files IH]; intros c; simpl.
  - exists [], []. rewrite !app_nil_r. repeat split; auto.
  - destruct (analyze_file_findings f h (file_products data) c)
      as [m1 [s1 [E1 [E2 [F1 [F2 [G1 [G2 L1]]]]]]]].
    match goal with
    | |- context [fold_left _ files ?c1] =>
        destruct (IH c1) as [m2 [s2 [E3 [E4 [F3 [F4 [G3 [G4 L2]]]]]]]]
    end.
    exists (m1 ++ m2)%list, (s1 ++ s2)%list.
    rewrite E3, E4, E1, E2, <- !app_assoc, !length_app.
    repeat split; auto; try (apply Forall_app; split; try assumption).
    + eapply Forall_impl; [|exact G1]. simpl. intros mp ->. auto.
    + eapply Forall_impl; [|exact G3]. simpl. auto.
    + eapply Forall_impl; [|exact G2]. simpl. intros sf ->. auto.
    + eapply Forall_impl; [|exact G4]. simpl. auto.
    + lia.
Qed.

Lemma load_products_findings f ps : forall c,
  misplaced_products (fst (load_products f ps c)) = misplaced_products c
  /\ subcategory_fixes (fst (load_products f ps c)) = subcategory_fixes c.
Proof.
  induction ps as [|p ps IH]; intros c; simpl; [auto|].
  match goal with
  | |- context [load_products f ps ?c1] =>
      specialize (IH c1); destruct (load_products f ps c1) as [c2 refs]
  end.
  simpl in *. destruct IH as [-> ->].
  destruct (productId p) as [pid|]; [destruct (pid =? "")%string|]; auto.
Qed.

Lemma load_files_findings d : forall c,
  misplaced_products (load_files d c) = misplaced_products c
  /\ subcategory_fixes (load_files d c) = subcategory_fixes c.
Proof.
  induction d as [|[f content] d IH]; intros c; simpl; [auto|].
  destruct (name f =? "index.json")%string; [apply IH|].
  destruct content as [[[ps|] pi lu]|]; try apply IH.
  pose proof (load_products_findings f ps c) as H.
  destruct (load_products f ps c) as [c1 refs]. simpl in H.
  destruct H as [H1 H2].
  match goal with
  | |- context [load_files d ?c2] => destruct (IH c2) as [-> ->]
  end.
  simpl. auto.
Qed.

(** The analysis records at most one finding per loaded product.  Every
    misplaced entry belongs to a loaded file, names the category of that
    file, and suggests one of five categories, never the current one;
    every subcategory fix belongs to a loaded file and suggests a valid
    subcategory of appliances that differs from the current one. *)
Theorem analysis_findings b d :
  let c := analyze_misplaced_products (load_all_categories d (init b)) in
  Forall sound_misplaced (misplaced_products c)
  /\ Forall sound_fix (subcategory_fixes c)
  /\ (forall mp, In mp (misplaced_products c) ->
        In (mp_current_file mp) (map fst (category_files c)))
  /\ (forall sf, In sf (subcategory_fixes c) ->
        In (sf_file sf) (map fst (category_files c)))
  /\ List.length (misplaced_products c) + List.length (subcategory_fixes c)
     <= loaded_products c.
Proof.
  intros c.
  destruct (analyze_keeps (load_all_categories d (init b))) as [_ [_ [Hf _]]].
  fold c in Hf. unfold loaded_products. rewrite Hf.
  subst c. unfold analyze_misplaced_products, load_all_categories.
  destruct (load_files_findings d (init b)) as [Hm Hs]. simpl in Hm, Hs.
  match goal with
  | |- context [fold_left ?g (category_files ?c0) ?c0] =>
      destruct (analyze_files_findings (objects c0) (category_files c0) c0)
        as [m [s [E1 [E2 [F1 [F2 [G1 [G2 L]]]]]]]]
  end.
  rewrite Hm in E1. rewrite Hs in E2. simpl in E1, E2.
  rewrite E1, E2.
  repeat split; try assumption.
  - intros mp Hin. rewrite Forall_forall in G1. apply G1, Hin.
  - intros sf Hin. rewrite Forall_forall in G2. apply G2, Hin.
Qed.

(** ** cleanup_categories.py: runs that change nothing *)

Lemma load_products_keys f ps : forall c pid,
  In pid (map fst (all_products (fst (load_products f ps c)))) ->
  In pid (map fst (all_products c)) \/ In (Some pid) (map productId ps).
Proof.
  induction ps as [|p ps IH]; intros c pid; simpl; [auto|].
  match goal with
  | |- context [load_products f ps ?c1] =>
      specialize (IH c1 pid); destruct (load_products f ps c1) as [c2 refs]
  end.
  simpl in *. intros H. destruct (IH H) as [H1|H1]; [|auto].
  destruct (productId p) as [product_id|]; [|auto].
  destruct (product_id =? "")%string; [auto|].
  simpl in H1. apply dict_set_In in H1. destruct H1 as [->|H1]; auto.
Qed.

Lemma load_files_keys d : forall c pid,
  In pid (map fst (all_products (load_files d c))) ->
  In pid (map fst (all_products c)) \/ In (Some pid) (reload_ids d).
Proof.
  induction d as [|[f content] d IH]; intros c pid; simpl; [auto|].
  destruct (name f =? "index.json")%string; [apply IH|].
  destruct content as [[[ps|] pi lu]|]; try apply IH.
  pose proof (load_products_keys f ps c pid) as Hp.
  destruct (load_products f ps c) as [c1 refs]. simpl in Hp.
  intros H. apply IH in H. simpl in H.
  rewrite in_app_iff. destruct H as [H|H]; [|auto].
  destruct (Hp H); auto.
Qed.

(** Whatever was loaded from a directory is found again when the
    directory is read as it is. *)
Lemma unchanged_directory_verifies b d :
  verify_no_products_lost
    (analyze_misplaced_products (load_all_categories d (init b))) d = true.
Proof.
  apply verification_detects_loss. intros pid H.
  destruct (analyze_keeps (load_all_categories d (init b))) as [_ [Ha _]].
  rewrite Ha in H. apply load_files_keys in H. destruct H as [[]|H]. exact H.
Qed.

(** With both flags the run is a dry run: [--dry-run] wins over
    [--apply], no file is written, and the verification that [--apply]
    asks for passes. *)
Theorem dry_run_wins_over_apply now d :
  main true true now d
  = Run (Some (generate_report
                 (analyze_misplaced_products
                    (load_all_categories d (init true)))))
      (Returned d) (Some true).
Proof.
  unfold main. simpl.
  assert (Hd : dry_run (analyze_misplaced_products
                          (load_all_categories d (init true))) = true).
  { destruct (analyze_keeps (load_all_categories d (init true)))
      as [_ [_ [_ ->]]].
    unfold load_all_categories.
    change (init true) with (with_dry_run true (init true)).
    rewrite load_files_dry. reflexivity. }
  unfold apply_fixes. rewrite Hd.
  rewrite unchanged_directory_verifies. reflexivity.
Qed.

Lemma apply_to_files_nothing now files : forall h d,
  apply_to_files now [] [] [] files h d = Returned d.
Proof.
  induction files as [|[f data] files IH]; intros h d; simpl; [reflexivity|].
  apply IH.
Qed.

(** A directory in which the analysis finds nothing is left as it is by
    an apply run, and the verification passes. *)
Theorem clean_directory_is_untouched now d :
  let c := analyze_misplaced_products (load_all_categories d (init false)) in
  misplaced_products c = [] -> subcategory_fixes c = [] ->
  main false true now d
  = Run (Some (generate_report c)) (Returned d) (Some true).
Proof.
  intros c Hm Hs. unfold main. simpl. fold c.
  assert (Ha : apply_fixes now c d = Returned d).
  { unfold apply_fixes. destruct (dry_run c); [reflexivity|].
    unfold plan_relocations, plan_relocations_of, plan_subcategory_updates.
    rewrite Hm, Hs. simpl. apply apply_to_files_nothing. }
  rewrite Ha. unfold c. rewrite unchanged_directory_verifies. reflexivity.
Qed.

Lemma clean_directory_is_untouched_witness :
  main false true "2026-01-01T00:00:00"
    [("appliances.json",
      Some (CategoryData
              (Some [Product (Some "100000001")
                       "GE 27 cu. ft. French Door Refrigerator" "GE"
                       "French Door" None])
              (Some 1) "2025-12-01T00:00:00"))]
  = Run (Some (Report [] [] 1 1))
      (Returned
         [("appliances.json",
           Some (CategoryData
                   (Some [Product (Some "100000001")
                            "GE 27 cu. ft. French Door Refrigerator" "GE"
                            "French Door" None])
                   (Some 1) "2025-12-01T00:00:00"))])
      (Some true).
Proof.
  apply (@clean_directory_is_untouched "2026-01-01T00:00:00"
           [("appliances.json",
             Some (CategoryData
                     (Some [Product (Some "100000001")
                              "GE 27 cu. ft. French Door Refrigerator" "GE"
                              "French Door" None])
                     (Some 1) "2025-12-01T00:00:00"))]);
    reflexivity.
Defined.

(** ** cleanup_categories.py: what an apply run writes *)

Lemma apply_to_files_written now rm add upd files : forall h d f,
  let after := files_of (apply_to_files now rm add upd files h d) in
  dict_get String.eqb f after = dict_get String.eqb f d
  \/ (In f (map fst files) /\ written_at now (dict_get String.eqb f after)).
Proof.
  induction files as [|[file_path data] files IH]; intros h d f; simpl;
    [auto|].
  destruct (relocate_in_file rm add h file_path (file_products data))
    as [l1 m1].
  destruct (match dict_get String.eqb file_path upd with
            | Some updates => fix_subcategories updates l1 h
            | None => (l1, h, false)
            end) as [[l2 h2] m2].
  destruct (m1 || m2).
  - destruct (file_pageInfo data); [|simpl; auto].
    match goal with
    | |- context [apply_to_files _ _ _ _ files h2 ?d1] =>
        destruct (IH h2 d1 f) as [E|[Hin Hw]]
    end.
    + destruct (string_dec file_path f) as [->|Hne].
      * right. split; [auto|]. rewrite E, dict_get_set_same.
        eexists. rewrite length_map. reflexivity.
      * left. rewrite E. apply dict_get_set_other. assumption.
    + right. auto.
  - destruct (IH h2 d f) as [E|[Hin Hw]]; auto.
Qed.

(** Whether the run returns or raises, a file either is as it was or is
    one of the loaded files, written with its [totalResults] equal to
    the number of its products and with the time stamp of the run. *)
Theorem apply_writes_consistent_files now c d f :
  let after := files_of (apply_fixes now c d) in
  dict_get String.eqb f after = dict_get String.eqb f d
  \/ (In f (map fst (category_files c))
      /\ written_at now (dict_get String.eqb f after)).
Proof.
  unfold apply_fixes. destruct (dry_run c); [simpl; auto|].
  destruct (plan_relocations c) as [rm add].
  apply apply_to_files_written.
Qed.

Lemma apply_to_files_returns now rm add upd files : forall h d,
  (forall f data, In (f, data) files -> file_pageInfo data <> None) ->
  exists d', apply_to_files now rm add upd files h d = Returned d'.
Proof.
  induction files as [|[file_path data] files IH]; intros h d Hp; simpl;
    [eauto|].
  destruct (relocate_in_file rm add h file_path (file_products data))
    as [l1 m1].
  destruct (match dict_get String.eqb file_path upd with
            | Some updates => fix_subcategories updates l1 h
            | None => (l1, h, false)
            end) as [[l2 h2] m2].
  assert (Htl : forall f data0, In (f, data0) files -> file_pageInfo data0 <> None)
    by (intros f data0 Hin; apply (Hp f); right; exact Hin).
  destruct (m1 || m2); [|apply IH, Htl].
  destruct (file_pageInfo data) eqn:E; [apply IH, Htl|].
  exfalso. apply (Hp file_path data); [left; reflexivity | exact E].
Qed.

(** The one statement of [apply_fixes] that can raise is the update of
    [pageInfo]: when every loaded file has a [pageInfo] object the run
    returns, and the verification is reached. *)
Theorem apply_run_returns now d :
  let c := analyze_misplaced_products (load_all_categories d (init false)) in
  (forall f data, In (f, data) (category_files c) -> file_pageInfo data <> None) ->
  exists d',
    run_files (main false true now d) = Returned d'
    /\ run_verified (main false true now d)
       = Some (verify_no_products_lost c d').
Proof.
  intros c Hp. unfold main. simpl. fold c.
  assert (Ha : exists d', apply_fixes now c d = Returned d').
  { unfold apply_fixes. destruct (dry_run c); [eauto|].
    destruct (plan_relocations c) as [rm add].
    apply apply_to_files_returns, Hp. }
  destruct Ha as [d' Ha]. exists d'. rewrite Ha. auto.
Qed.

Lemma apply_run_returns_witness :
  exists d',
    run_files
      (main false true "2026-01-01T00:00:00"
         [("appliances.json",
           Some (CategoryData
                   (Some [Product (Some "100000002")
                            "StyleWell Rolling Kitchen Cart" "StyleWell" "" None])
                   (Some 1) "2025-12-01T00:00:00"));
          ("furniture.json",
           Some (CategoryData (Some []) (Some 0) "2025-12-01T00:00:00"))])
    = Returned d'.
Proof.
  destruct (@apply_run_returns "2026-01-01T00:00:00"
              [("appliances.json",
                Some (CategoryData
                        (Some [Product (Some "100000002")
                                 "StyleWell Rolling Kitchen Cart" "StyleWell" ""
                                 None])
                        (Some 1) "2025-12-01T00:00:00"));
               ("furniture.json",
                Some (CategoryData (Some []) (Some 0) "2025-12-01T00:00:00"))])
    as [d' [H _]].
  - intros f data Hin. vm_compute in Hin.
    destruct Hin as [E|[E|[]]]; injection E as <- <-; discriminate.
  - exists d'. exact H.
Defined.

End CleanupProperties.

(** ** rebuild_category_index.py: rebuilding again, and the one way to fail *)

Section ReindexProperties.
Import rebuild_category_index.

Lemma children_update_category counts c :
  children (update_category counts c)
  = map (update_category counts) (children c).
Proof. destruct c as [i n [l|]]; reflexivity. Qed.

Lemma subcategories_update_category counts c :
  subcategories (update_category counts c)
  = match subcategories c with
    | Some l => Some (map (update_category counts) l)
    | None => None
    end.
Proof. destruct c as [i n [l|]]; reflexivity. Qed.

Lemma existsb_id_update counts x l :
  existsb (fun s => (id s =? x)%string) (map (update_category counts) l)
  = existsb (fun s => (id s =? x)%string) l.
Proof.
  induction l as [|c l IH]; simpl; [reflexivity|].
  rewrite id_update_category, IH. reflexivity.
Qed.

Lemma update_category_twice counts c :
  update_category counts (update_category counts c) = update_category counts c.
Proof.
  induction c as [cat_id count subs IH] using category_ind'.
  simpl. f_equal.
  - destruct (dict_get String.eqb cat_id counts); reflexivity.
  - destruct subs as [l|]; [|reflexivity]. f_equal.
    rewrite map_map. apply map_ext_in. intros c Hc.
    rewrite Forall_forall in IH. apply IH, Hc.
Qed.

Lemma add_outdoor_ids counts : forall cats cats',
  add_outdoor counts cats = Some cats' -> map id cats' = map id cats.
Proof.
  induction cats as [|c tl IH]; intros cats' H; simpl in H.
  - injection H as <-. reflexivity.
  - destruct (id c =? "furniture")%string.
    + destruct (negb _ && _).
      * destruct (subcategories c); [|discriminate].
        injection H as <-. reflexivity.
      * injection H as <-. reflexivity.
    + destruct (add_outdoor counts tl) as [tl'|]; [|discriminate].
      injection H as <-. simpl. f_equal. apply IH. reflexivity.
Qed.

Lemma add_outdoor_settled counts : forall cats cats',
  add_outdoor counts cats = Some cats' ->
  add_outdoor counts (map (update_category counts) cats')
  = Some (map (update_category counts) cats').
Proof.
  induction cats as [|c tl IH]; intros cats' H; simpl in H.
  - injection H as <-. reflexivity.
  - destruct (id c =? "furniture")%string eqn:Ef.
    + destruct (negb (existsb _ (children c)) && _) eqn:Ec.
      * destruct (subcategories c) as [l|] eqn:Es; [|discriminate].
        injection H as <-. simpl. rewrite Ef.
        unfold children. cbn [subcategories].
        rewrite existsb_id_update, existsb_app. simpl.
        rewrite orb_true_r. reflexivity.
      * injection H as <-. simpl.
        rewrite id_update_category, Ef, children_update_category,
          existsb_id_update, Ec.
        reflexivity.
    + destruct (add_outdoor counts tl) as [tl'|]; [|discriminate].
      injection H as <-. simpl.
      rewrite id_update_category, Ef, (IH tl' eq_refl). reflexivity.
Qed.

(** Rebuilding the index a second time over the same files changes
    nothing but the time stamp, and the top-level categories keep their
    ids and their order. *)
Theorem rebuild_is_idempotent now now' d idx idx' :
  main now d idx = Some idx' ->
  main now' d idx'
  = Some (Index (categories idx') (totalProducts idx') now')
  /\ map id (categories idx') = map id (categories idx).
Proof.
  unfold main. intros H.
  destruct (add_outdoor (get_category_counts d) (categories idx)) as [cats|] eqn:E;
    [|discriminate].
  injection H as <-. simpl. split.
  - rewrite (add_outdoor_settled _ _ E).
    rewrite map_map.
    rewrite (map_ext _ _ (update_category_twice (get_category_counts d))).
    reflexivity.
  - rewrite map_map.
    rewrite (map_ext _ id (id_update_category (get_category_counts d))).
    eapply add_outdoor_ids. eassumption.
Qed.

Lemma rebuild_is_idempotent_witness :
  main "2026-02-01T00:00:00"
    [("furniture.json", Some NoKey);
     ("furniture/outdoor.json",
      Some (Listed
              [Product (Some "100000008") "Patio Chair" "Hampton Bay" "" None]))]
    (Index [Category "furniture" 0 (Some [Category "furniture/outdoor" 1 None])]
       1 "2026-01-01T00:00:00")
  = Some (Index [Category "furniture" 0 (Some [Category "furniture/outdoor" 1 None])]
            1 "2026-02-01T00:00:00").
Proof.
  refine (proj1 (@rebuild_is_idempotent "2026-01-01T00:00:00" "2026-02-01T00:00:00"
            [("furniture.json", Some NoKey);
             ("furniture/outdoor.json",
              Some (Listed
                      [Product (Some "100000008") "Patio Chair" "Hampton Bay"
                         "" None]))]
            (Index [Category "furniture" 7 (Some [])] 9 "")
            (Index [Category "furniture" 0
                      (Some [Category "furniture/outdoor" 1 None])]
               1 "2026-01-01T00:00:00") _)).
  reflexivity.
Defined.

(** The rebuild fails in one situation only: a file is counted under
    the id furniture/outdoor (it can be read and its ["products"] value
    is absent or has a length) and the first category with the id
    furniture has no ["subcategories"] key to append to. *)
Theorem rebuild_raises_only_for_furniture now d idx :
  main now d idx = None
  <-> dict_has String.eqb "furniture/outdoor" (get_category_counts d) = true
      /\ exists before furniture after,
           categories idx = (before ++ furniture :: after)%list
           /\ Forall (fun c => id c <> "furniture") before
           /\ id furniture = "furniture"
           /\ subcategories furniture = None.
Proof.
  unfold main.
  generalize (get_category_counts d) (categories idx). intros counts cats.
  assert (H : add_outdoor counts cats = None
              <-> dict_has String.eqb "furniture/outdoor" counts = true
                  /\ exists before furniture after,
                       cats = (before ++ furniture :: after)%list
                       /\ Forall (fun c => id c <> "furniture") before
                       /\ id furniture = "furniture"
                       /\ subcategories furniture = None).
  { induction cats as [|c tl IH]; simpl.
    - split; [discriminate|].
      intros [_ [before [f [after [E _]]]]]. destruct before; discriminate.
    - destruct (id c =? "furniture")%string eqn:Ef.
      + apply String.eqb_eq in Ef. split.
        * destruct (negb _ && _) eqn:Ec; [|discriminate].
          destruct (subcategories c) eqn:Es; [discriminate|]. intros _.
          apply andb_true_iff in Ec. destruct Ec as [_ Ec].
          split; [assumption|]. exists [], c, tl. auto.
        * intros [Hc [before [f [after [E [Hb [Hf Hs]]]]]]].
          destruct before as [|x before]; simpl in E; injection E as -> ->.
          -- unfold children. rewrite Hs, Hc. reflexivity.
          -- inversion Hb; subst. contradiction.
      + apply String.eqb_neq in Ef.
        destruct (add_outdoor counts tl) as [tl'|].
        * split; [discriminate|].
          intros [Hc [before [f [after [E [Hb [Hf Hs]]]]]]].
          destruct before as [|x before]; simpl in E; injection E as -> ->.
          -- contradiction.
          -- inversion Hb; subst. destruct IH as [_ IH].
             assert (Hn : Some tl' = None).
             { apply IH. split; [assumption|].
               exists before, f, after. auto. }
             discriminate Hn.
        * split; [|reflexivity]. intros _.
          destruct IH as [IH _]. destruct (IH eq_refl)
            as [Hc [before [f [after [E [Hb [Hf Hs]]]]]]].
          split; [assumption|]. exists (c :: before), f, after.
          subst tl. repeat split; auto. }
  destruct (add_outdoor counts cats); split; intros H1.
  - discriminate.
  - apply H in H1. discriminate.
  - apply H. reflexivity.
  - reflexivity.
Qed.

End ReindexProperties.

(** ** consolidate_structure.py: no product is lost or duplicated *)

Section ConsolidationProperties.
Import consolidate_structure consolidation.

Lemma append_product_perm slug p : forall cf cf',
  append_product slug p cf = Some cf' ->
  Permutation (all_child_products cf') (all_child_products cf ++ [p])
  /\ map fst cf' = map fst cf.
Proof.
  unfold all_child_products.
  induction cf as [|[k d] tl IH]; intros cf' H; simpl in H; [discriminate|].
  destruct (k =? slug)%string.
  - destruct (child_products d) as [l|] eqn:E; [|discriminate].
    injection H as <-. simpl. unfold products_of at 1 3. simpl. rewrite E.
    split; [|reflexivity].
    rewrite <- !app_assoc. apply Permutation_app_head, Permutation_app_comm.
  - destruct (append_product slug p tl) as [tl'|]; [|discriminate].
    injection H as <-. simpl. destruct (IH tl' eq_refl) as [IH1 IH2].
    split; [|congruence].
    rewrite <- app_assoc. apply Permutation_app_head, IH1.
Qed.

Lemma distribute_perm : forall ps cf um cf' um',
  distribute ps cf um = Some (cf', um') ->
  Permutation (all_child_products cf' ++ um')
    (all_child_products cf ++ um ++ ps).
Proof.
  induction ps as [|p ps IH]; intros cf um cf' um' H; simpl in H.
  - injection H as <- <-. rewrite app_nil_r. reflexivity.
  - assert (Hun : distribute ps cf (um ++ [p])%list = Some (cf', um') ->
                  Permutation (all_child_products cf' ++ um')
                    (all_child_products cf ++ um ++ p :: ps)).
    { intros H1. apply IH in H1. rewrite <- app_assoc in H1. exact H1. }
    destruct (get_product_subcategory_slug p) as [target_slug|]; [|auto].
    destruct (negb _ && _); [|auto].
    destruct (append_product target_slug p cf) as [cf1|] eqn:E; [|discriminate].
    apply IH in H. apply append_product_perm in E. destruct E as [E _].
    rewrite H, E. rewrite <- !app_assoc. apply Permutation_app_head.
    simpl. apply Permutation_middle.
Qed.

Lemma append_all_perm slug : forall um cf cf',
  fold_left
    (fun acc p =>
       match acc with
       | Some cf0 => append_product slug p cf0
       | None => None
       end) um (Some cf) = Some cf' ->
  Permutation (all_child_products cf') (all_child_products cf ++ um).
Proof.
  induction um as [|p um IH]; intros cf cf' H; simpl in H.
  - injection H as <-. rewrite app_nil_r. reflexivity.
  - destruct (append_product slug p cf) as [cf1|] eqn:E.
    + apply IH in H. apply append_product_perm in E. destruct E as [E _].
      rewrite H, E, <- app_assoc. reflexivity.
    + exfalso. clear -H. induction um as [|q um IHum]; simpl in H;
        [discriminate | auto].
Qed.

Lemma all_child_products_app cf1 cf2 :
  all_child_products (cf1 ++ cf2)
  = (all_child_products cf1 ++ all_child_products cf2)%list.
Proof. apply flat_map_app. Qed.

Lemma add_unmatched_perm um cf cf' :
  add_unmatched um cf = Some cf' ->
  Permutation (all_child_products cf') (all_child_products cf ++ um).
Proof.
  unfold add_unmatched. destruct um as [|p um].
  - intros H. injection H as <-. rewrite app_nil_r. reflexivity.
  - intros H. apply append_all_perm in H. rewrite H.
    destruct (dict_has String.eqb "other" cf); [reflexivity|].
    rewrite all_child_products_app. simpl. rewrite app_nil_r. reflexivity.
Qed.

Lemma save_children_products : forall cf saved ok,
  save_children cf = (saved, ok) ->
  ok = true -> all_child_products saved = all_child_products cf.
Proof.
  unfold all_child_products.
  induction cf as [|[slug d] cf IH]; intros saved ok H Hok; simpl in H.
  - injection H as <- _. reflexivity.
  - destruct (products_of d) as [|p ps] eqn:Ep.
    + simpl. rewrite Ep. simpl. eapply IH; eassumption.
    + destruct (child_pageInfo d); [|congruence].
      destruct (save_children cf) as [saved' ok'].
      injection H as <- <-. simpl. rewrite (IH saved' ok' eq_refl Hok).
      reflexivity.
Qed.

(** When the parent file is converted, the child files that were saved
    hold, taken together, exactly the products that the children held
    before and the products of the parent: none is lost and none is
    duplicated. *)
Theorem consolidation_keeps_every_product cn sn pd cf p' :
  saved_parent (consolidate_category cn sn (Some pd) (Some cf)) = Some p' ->
  Permutation
    (all_child_products
       (saved_children (consolidate_category cn sn (Some pd) (Some cf))))
    (all_child_products cf
     ++ match parent_products pd with Some l => l | None => [] end).
Proof.
  unfold consolidate_category.
  destruct (parent_products pd) as [[|p ps]|]; try discriminate.
  destruct (distribute (p :: ps) cf []) as [[cf1 um]|] eqn:Ed; [|discriminate].
  destruct (add_unmatched um cf1) as [cf2|] eqn:Ea; [|discriminate].
  destruct (save_children cf2) as [saved ok] eqn:Es.
  destruct ok; simpl; [|discriminate].
  destruct (parent_pageInfo pd); [|discriminate].
  simpl. intros _.
  rewrite (save_children_products _ Es eq_refl).
  apply add_unmatched_perm in Ea. apply distribute_perm in Ed.
  rewrite Ea, Ed. reflexivity.
Qed.

Lemma consolidation_keeps_every_product_witness :
  Permutation
    (all_child_products
       (saved_children
          (consolidate_category "appliances" "refrigerators"
             (Some (ParentData
                      (Some [Product (Some "100000001")
                               "GE 27 cu. ft. French Door Refrigerator" "GE" "" None;
                             Product (Some "100000009") "Water Filter" "GE" "" None])
                      (Some 2) []))
             (Some [("french-door",
                     ChildData
                       (Some [Product (Some "100000010")
                                "LG French Door Refrigerator" "LG" "" None])
                       (Some 1))]))))
    (all_child_products
       [("french-door",
         ChildData
           (Some [Product (Some "100000010") "LG French Door Refrigerator" "LG"
                    "" None])
           (Some 1))]
     ++ [Product (Some "100000001")
           "GE 27 cu. ft. French Door Refrigerator" "GE" "" None;
         Product (Some "100000009") "Water Filter" "GE" "" None]).
Proof.
  eapply (@consolidation_keeps_every_product "appliances" "refrigerators"
            (ParentData
               (Some [Product (Some "100000001")
                        "GE 27 cu. ft. French Door Refrigerator" "GE" "" None;
                      Product (Some "100000009") "Water Filter" "GE" "" None])
               (Some 2) [])).
  reflexivity.
Defined.

(** *** A run that fails half-way *)

Lemma append_product_succeeds slug p : forall cf,
  well_formed cf -> dict_has String.eqb slug cf = true ->
  exists cf', append_product slug p cf = Some cf' /\ well_formed cf'.
Proof.
  unfold well_formed, dict_has.
  induction cf as [|[k d] tl IH]; intros Hw Hh; simpl in *; [discriminate|].
  inversion Hw as [|? ? [H1 H2] Htl]; subst. simpl in H1, H2.
  rewrite (String.eqb_sym slug k) in Hh. destruct (k =? slug)%string.
  - destruct (child_products d) as [l|] eqn:E; [|contradiction].
    eexists. split; [reflexivity|]. constructor; [|assumption].
    simpl. split; [discriminate | assumption].
  - destruct (IH Htl Hh) as [cf' [-> Hw']].
    eexists. split; [reflexivity|]. constructor; [|assumption].
    simpl. auto.
Qed.

Lemma distribute_succeeds : forall ps cf um,
  well_formed cf ->
  exists cf' um', distribute ps cf um = Some (cf', um') /\ well_formed cf'.
Proof.
  induction ps as [|p ps IH]; intros cf um Hw; simpl; [eauto|].
  destruct (get_product_subcategory_slug p) as [target_slug|]; [|apply IH, Hw].
  destruct (negb (target_slug =? "")%string) ; simpl; [|apply IH, Hw].
  destruct (dict_has String.eqb target_slug cf) eqn:Eh; [|apply IH, Hw].
  destruct (append_product_succeeds target_slug p Hw Eh) as [cf1 [-> Hw1]].
  apply IH, Hw1.
Qed.

Lemma dict_has_append k cf (d0 : child_data) :
  dict_has String.eqb k (cf ++ [(k, d0)]) = true.
Proof.
  unfold dict_has. induction cf as [|[k' d] cf IH]; simpl.
  - rewrite String.eqb_refl. reflexivity.
  - destruct (k =? k')%string; [reflexivity | exact IH].
Qed.

Lemma dict_has_after_append slug p k : forall cf cf',
  append_product slug p cf = Some cf' ->
  dict_has String.eqb k cf' = dict_has String.eqb k cf.
Proof.
  unfold dict_has.
  induction cf as [|[k' d] tl IH]; intros cf' H; simpl in H; [discriminate|].
  destruct (k' =? slug)%string.
  - destruct (child_products d); [|discriminate]. injection H as <-.
    simpl. destruct (k =? k')%string; reflexivity.
  - destruct (append_product slug p tl) as [tl'|]; [|discriminate].
    injection H as <-. simpl. destruct (k =? k')%string; [reflexivity|].
    apply IH. reflexivity.
Qed.

Lemma append_all_succeeds slug : forall um cf,
  well_formed cf -> dict_has String.eqb slug cf = true ->
  exists cf',
    fold_left
      (fun acc p =>
         match acc with
         | Some cf0 => append_product slug p cf0
         | None => None
         end) um (Some cf) = Some cf'
    /\ well_formed cf'.
Proof.
  induction um as [|p um IH]; intros cf Hw Hh; simpl; [eauto|].
  destruct (append_product_succeeds slug p Hw Hh) as [cf1 [E Hw1]].
  rewrite E. apply IH; [assumption|].
  rewrite (dict_has_after_append _ _ _ _ E). exact Hh.
Qed.

Lemma add_unmatched_succeeds um cf :
  well_formed cf ->
  exists cf', add_unmatched um cf = Some cf' /\ well_formed cf'.
Proof.
  intros Hw. unfold add_unmatched. destruct um as [|p um]; [eauto|].
  destruct (dict_has String.eqb "other" cf) eqn:Eh.
  - apply append_all_succeeds; assumption.
  - apply append_all_succeeds.
    + apply Forall_app. split; [assumption|].
      constructor; [|constructor]. simpl. split; discriminate.
    + apply dict_has_append.
Qed.

Lemma save_children_succeeds : forall cf,
  well_formed cf -> snd (save_children cf) = true.
Proof.
  induction cf as [|[slug d] cf IH]; intros Hw; simpl; [reflexivity|].
  inversion Hw as [|? ? [H1 H2] Htl]; subst. simpl in H1, H2.
  destruct (products_of d); [apply IH, Htl|].
  destruct (child_pageInfo d); [|contradiction].
  specialize (IH Htl). destruct (save_children cf). exact IH.
Qed.

(** When the parent file has products but no ["pageInfo"] object, the
    run raises at the update of the parent, after the child files have
    been saved: the children then hold the products of the parent as
    well as their own, and the parent file is left as it was, with its
    products. *)
Theorem consolidation_can_fail_after_saving cn sn pd cf p ps :
  parent_products pd = Some (p :: ps) ->
  parent_pageInfo pd = None ->
  well_formed cf ->
  let res := consolidate_category cn sn (Some pd) (Some cf) in
  raised res = true /\ saved_parent res = None
  /\ Permutation (all_child_products (saved_children res))
       (all_child_products cf ++ p :: ps).
Proof.
  intros Hp Hi Hw. unfold consolidate_category. rewrite Hp, Hi.
  destruct (distribute_succeeds (p :: ps) [] Hw) as [cf1 [um [Ed Hw1]]].
  rewrite Ed.
  destruct (add_unmatched_succeeds um Hw1) as [cf2 [Ea Hw2]].
  rewrite Ea.
  pose proof (save_children_succeeds Hw2) as Hs.
  destruct (save_children cf2) as [saved ok] eqn:Es. simpl in Hs. subst ok.
  simpl. repeat split.
  rewrite (save_children_products _ Es eq_refl).
  apply add_unmatched_perm in Ea. apply distribute_perm in Ed.
  rewrite Ea, Ed. reflexivity.
Qed.

Lemma consolidation_can_fail_after_saving_witness :
  raised
    (consolidate_category "appliances" "refrigerators"
       (Some (ParentData
                (Some [Product (Some "100000001")
                         "GE 27 cu. ft. French Door Refrigerator" "GE" "" None])
                None []))
       (Some [("french-door", ChildData (Some []) (Some 0))]))
  = true.
Proof.
  refine (proj1 (@consolidation_can_fail_after_saving "appliances" "refrigerators"
            (ParentData
               (Some [Product (Some "100000001")
                        "GE 27 cu. ft. French Door Refrigerator" "GE" "" None])
               None [])
            [("french-door", ChildData (Some []) (Some 0))]
            (Product (Some "100000001")
               "GE 27 cu. ft. French Door Refrigerator" "GE" "" None)
            [] eq_refl eq_refl _)).
  constructor; [|constructor]. simpl. split; discriminate.
Defined.

End ConsolidationProperties.

(** ** consolidate_structure.py: [compute_featured_brands] *)

Section FeaturedBrands.
Import consolidate_structure consolidation.

Lemma products_of_brand_cons b p ps :
  products_of_brand b (p :: ps)
  = (if (brand p =? b)%string then 1 else 0) + products_of_brand b ps.
Proof.
  unfold products_of_brand. simpl. destruct (brand p =? b)%string; reflexivity.
Qed.

(** The counts after the loop, from the counts before it. *)
Lemma count_brands_get b : forall ps acc,
  dict_get String.eqb b (fold_left count_brand ps acc)
  = let k := if (b =? "")%string then 0 else products_of_brand b ps in
    match dict_get String.eqb b acc with
    | Some n => Some (n + k)
    | None => if k =? 0 then None else Some k
    end.
Proof.
  induction ps as [|p ps IH]; intros acc; simpl.
  - unfold products_of_brand. simpl.
    destruct (b =? "")%string; destruct (dict_get String.eqb b acc);
      simpl; f_equal; try lia; reflexivity.
  - rewrite IH. rewrite products_of_brand_cons. unfold count_brand.
    destruct (brand p =? "")%string eqn:Ee.
    + apply String.eqb_eq in Ee.
      destruct (b =? "")%string eqn:Eb; [reflexivity|].
      rewrite Ee. rewrite (String.eqb_sym "" b), Eb. reflexivity.
    + destruct (string_dec (brand p) b) as [E|Hne].
      * rewrite E in *. rewrite Ee, String.eqb_refl, dict_get_set_same. simpl.
        destruct (dict_get String.eqb b acc); simpl; f_equal; lia.
      * rewrite dict_get_set_other by assumption.
        apply String.eqb_neq in Hne. rewrite Hne. reflexivity.
Qed.

Lemma count_brands_NoDup : forall ps acc,
  NoDup (map fst acc) -> NoDup (map fst (fold_left count_brand ps acc)).
Proof.
  induction ps as [|p ps IH]; intros acc H; simpl; [assumption|].
  apply IH. unfold count_brand. destruct (brand p =? "")%string; [assumption|].
  apply dict_set_NoDup. assumption.
Qed.

(** Each brand that occurs is counted once, with the number of products
    that carry it. *)
Lemma brand_counts_spec ps :
  NoDup (map fst (brand_counts ps))
  /\ forall b n, In (b, n) (brand_counts ps) ->
       b <> "" /\ n = products_of_brand b ps /\ 0 < n.
Proof.
  assert (Hnd : NoDup (map fst (brand_counts ps)))
    by (apply count_brands_NoDup; constructor).
  split; [assumption|]. intros b n Hin.
  apply (dict_get_In_NoDup _ _ _ Hnd) in Hin.
  unfold brand_counts in Hin. rewrite count_brands_get in Hin. simpl in Hin.
  destruct (b =? "")%string eqn:Eb; [discriminate|].
  apply String.eqb_neq in Eb.
  destruct (products_of_brand b ps =? 0) eqn:E0; [discriminate|].
  apply Nat.eqb_neq in E0. injection Hin as <-. repeat split; [assumption | lia].
Qed.

Lemma brand_counts_complete ps b :
  b <> "" -> 0 < products_of_brand b ps ->
  In (b, products_of_brand b ps) (brand_counts ps).
Proof.
  intros Hb Hn. apply dict_get_In. unfold brand_counts.
  rewrite count_brands_get. simpl.
  apply String.eqb_neq in Hb. rewrite Hb.
  destruct (products_of_brand b ps =? 0) eqn:E0; [|reflexivity].
  apply Nat.eqb_eq in E0. lia.
Qed.

(** *** The sort *)

Lemma insert_by_perm (A : Type) (le : A -> A -> bool) x : forall l,
  Permutation (insert_by le x l) (x :: l).
Proof.
  induction l as [|y l IH]; simpl; [reflexivity|].
  destruct (le x y); [reflexivity|].
  rewrite IH. apply perm_swap.
Qed.

Lemma sort_by_perm (A : Type) (le : A -> A -> bool) : forall l,
  Permutation (sort_by le l) l.
Proof.
  induction l as [|x l IH]; simpl; [reflexivity|].
  rewrite insert_by_perm, IH. reflexivity.
Qed.

(** [ordered R l]: each element is in relation [R] to every later one. *)
Lemma insert_by_ordered (A : Type) (le : A -> A -> bool) (R : A -> A -> Prop) x :
  (forall a b c, R a b -> R b c -> R a c) ->
  (forall a b, le a b = true -> R a b) ->
  (forall a b, le a b = false -> R b a) ->
  forall l, ForallOrdPairs R l -> ForallOrdPairs R (insert_by le x l).
Proof.
  intros Ht H1 H0. induction l as [|y l IH]; intros Hl; simpl.
  - constructor; constructor.
  - inversion Hl as [|? ? Hy Hl']; subst.
    destruct (le x y) eqn:E.
    + constructor; [|assumption]. constructor; [auto|].
      rewrite Forall_forall in *. intros z Hz. eapply Ht; eauto.
    + constructor; [|auto].
      rewrite Forall_forall in *. intros z Hz.
      apply (Permutation_in _ (insert_by_perm le x l)) in Hz.
      destruct Hz as [<-|Hz]; auto.
Qed.

Lemma sort_by_ordered (A : Type) (le : A -> A -> bool) (R : A -> A -> Prop) :
  (forall a b c, R a b -> R b c -> R a c) ->
  (forall a b, le a b = true -> R a b) ->
  (forall a b, le a b = false -> R b a) ->
  forall l, ForallOrdPairs R (sort_by le l).
Proof.
  intros Ht H1 H0. induction l as [|x l IH]; simpl; [constructor|].
  apply insert_by_ordered; assumption.
Qed.

Lemma sorted_brands_ordered l :
  ForallOrdPairs (fun a b : string * nat => snd b <= snd a)
    (sort_by brand_before l).
Proof.
  apply sort_by_ordered.
  - intros a b c. lia.
  - intros a b H. unfold brand_before in H.
    apply orb_true_iff in H. destruct H as [H|H].
    + apply Nat.ltb_lt in H. lia.
    + apply andb_true_iff in H. destruct H as [H _].
      apply Nat.eqb_eq in H. lia.
  - intros a b H. unfold brand_before in H.
    apply orb_false_iff in H. destruct H as [H _].
    apply Nat.ltb_ge in H. exact H.
Qed.

Lemma ordered_app_inv (A : Type) (R : A -> A -> Prop) l1 : forall l2,
  ForallOrdPairs R (l1 ++ l2) ->
  ForallOrdPairs R l1 /\ forall x y, In x l1 -> In y l2 -> R x y.
Proof.
  induction l1 as [|a l1 IH]; intros l2 H; simpl in *.
  - split; [constructor | intros x y []].
  - inversion H as [|? ? Ha Hl]; subst.
    destruct (IH l2 Hl) as [H1 H2]. rewrite Forall_forall in Ha. split.
    + constructor; [|assumption]. rewrite Forall_forall. intros z Hz.
      apply Ha. apply in_or_app. auto.
    + intros x y [<-|Hx] Hy; [|auto]. apply Ha. apply in_or_app. auto.
Qed.

(** The featured brands are at most [max_brands] brands, each listed
    once with the number of products that carry it; the list goes from
    the most frequent brand down, and a brand that is left out has no
    more products than any brand that is listed. *)
Theorem featured_brands_are_the_most_frequent products max_brands :
  let featured := compute_featured_brands products max_brands in
  List.length featured <= max_brands
  /\ NoDup (map brandName featured)
  /\ (forall x, In x featured ->
        brandName x <> ""
        /\ count x = products_of_brand (brandName x) products
        /\ 0 < count x
        /\ brandId x = slugify (brandName x))
  /\ ForallOrdPairs (fun x y => count y <= count x) featured
  /\ (forall b x, b <> "" -> ~ In b (map brandName featured) ->
        In x featured -> products_of_brand b products <= count x).
Proof.
  intros featured. unfold compute_featured_brands in featured.
  set (sorted_brands := sort_by brand_before (brand_counts products)) in *.
  destruct (brand_counts_spec products) as [Hnd Hspec].
  pose proof (sort_by_perm brand_before (brand_counts products)) as Hperm.
  fold sorted_brands in Hperm.
  pose proof (sorted_brands_ordered (brand_counts products)) as Hord.
  fold sorted_brands in Hord.
  rewrite <- (firstn_skipn max_brands sorted_brands) in Hord, Hperm.
  apply ordered_app_inv in Hord. destruct Hord as [Hord1 Hord2].
  assert (Hnames : map brandName featured
                   = map fst (firstn max_brands sorted_brands)).
  { unfold featured. rewrite map_map. apply map_ext. intros [b n]. reflexivity. }
  assert (Hin : forall x, In x featured ->
            In (brandName x, count x) (firstn max_brands sorted_brands)
            /\ brandId x = slugify (brandName x)).
  { intros x Hx. unfold featured in Hx. apply in_map_iff in Hx.
    destruct Hx as [[b n] [<- Hx]]. simpl. auto. }
  repeat split.
  - unfold featured. rewrite length_map. apply firstn_le_length.
  - rewrite Hnames.
    assert (Hnd' : NoDup (map fst (firstn max_brands sorted_brands
                                   ++ skipn max_brands sorted_brands)%list)).
    { eapply Permutation_NoDup; [|exact Hnd].
      apply Permutation_map, Permutation_sym, Hperm. }
    rewrite map_app in Hnd'. apply NoDup_app_remove_r in Hnd'. exact Hnd'.
  - destruct (Hin x H) as [Hx _].
    apply (Hspec (brandName x) (count x)).
    apply (Permutation_in _ Hperm), in_or_app. auto.
  - destruct (Hin x H) as [Hx _].
    apply (Hspec (brandName x) (count x)).
    apply (Permutation_in _ Hperm), in_or_app. auto.
  - destruct (Hin x H) as [Hx _].
    apply (Hspec (brandName x) (count x)).
    apply (Permutation_in _ Hperm), in_or_app. auto.
  - apply Hin, H.
  - unfold featured.
    clear -Hord1. induction Hord1 as [|[b n] l Hx Hl IH]; simpl; constructor;
      [|assumption].
    rewrite Forall_forall in *. intros y Hy. apply in_map_iff in Hy.
    destruct Hy as [[b' n'] [<- Hy]]. simpl. apply (Hx _ Hy).
  - intros b x Hb Hout Hx.
    destruct (Nat.eq_dec (products_of_brand b products) 0) as [->|Hpos];
      [lia|].
    assert (Hcounted : In (b, products_of_brand b products)
                         (brand_counts products))
      by (apply brand_counts_complete; [assumption | lia]).
    apply (Permutation_in _ (Permutation_sym Hperm)) in Hcounted.
    apply in_app_or in Hcounted. destruct Hcounted as [Hc|Hc].
    + exfalso. apply Hout. rewrite Hnames.
      apply in_map_iff. exists (b, products_of_brand b products). auto.
    + destruct (Hin x Hx) as [Hx' _].
      apply (Hord2 _ _ Hx' Hc).
Qed.

End FeaturedBrands.

(** ** Gallery images: the normalization *)

Section GalleryProperties.
Import images.

(** The size suffix on the last line of a text that ends in a newline. *)
Lemma size_pattern_at_final_line pv d size e :
  is_digit d = true -> all_chars is_digit size = true -> In e extensions ->
  exists m,
    match_here false size_pattern pv
      (String "_" (String d size ++ String "." (e ++ String newline "")))
    = Some m
    /\ rest m = String newline "".
Proof.
  intros Hd Hs He. unfold match_here.
  cbv [size_pattern seqs plus]. cbn [rx]. simpl rest. cbn [chr_eqb].
  change (Ascii.eqb "_" "_") with true. cbn iota.
  unfold digit. cbn [rx step rest caps]. rewrite Hd.
  simpl in He.
  destruct He as [<-|[<-|[<-|[<-|[]]]]];
    (eexists; split;
     [ apply (@star_loop_greedy false is_digit);
       [ reflexivity | assumption | rewrite length_append; simpl; lia
       | reflexivity ]
     | reflexivity ]).
Qed.

Lemma sub_scan_final_newline fuel pv :
  sub_scan fuel size_pattern "_1000.jpg" pv (String newline "")
  = String newline "".
Proof. destruct fuel as [|[|fuel]]; reflexivity. Qed.

Lemma sub_scan_size_suffix_line d size e :
  is_digit d = true -> all_chars is_digit size = true -> In e extensions ->
  forall pre pv fuel,
    String.length
      (pre ++ String "_" (String d size ++ String "." (e ++ String newline "")))
    < fuel ->
    sub_scan fuel size_pattern "_1000.jpg" pv
      (pre ++ String "_" (String d size ++ String "." (e ++ String newline "")))
    = pre ++ "_1000.jpg" ++ String newline "".
Proof.
  intros Hd Hs He. induction pre as [|c pre IH]; intros pv fuel Hf.
  - destruct fuel as [|fuel]; [lia|].
    destruct (@size_pattern_at_final_line pv d size e Hd Hs He) as [m [Em Hm]].
    change ("" ++ String "_" (String d size ++ String "." (e ++ String newline "")))
      with (String "_" (String d size ++ String "." (e ++ String newline ""))).
    cbn [sub_scan]. rewrite Em, Hm.
    replace (String.length (String newline "")
             <? String.length
                  (String "_"
                     (String d size ++ String "." (e ++ String newline ""))))
      with true
      by (symmetry; apply Nat.ltb_lt; simpl; rewrite length_append; simpl; lia).
    rewrite sub_scan_final_newline. reflexivity.
  - destruct fuel as [|fuel]; [lia|].
    change (String c pre
            ++ String "_" (String d size ++ String "." (e ++ String newline "")))
      with (String c
              (pre ++ String "_"
                        (String d size ++ String "." (e ++ String newline "")))).
    cbn [sub_scan]. rewrite size_pattern_not_before.
    change (String c pre ++ "_1000.jpg" ++ String newline "")
      with (String c (pre ++ "_1000.jpg" ++ String newline "")).
    f_equal. apply IH. simpl in Hf. simpl. lia.
Qed.

(** The substitution leaves the text as it is or puts [_1000.jpg] where
    a final size suffix was. *)
Lemma sub_scan_size_pattern : forall s pv fuel,
  String.length s < fuel ->
  sub_scan fuel size_pattern "_1000.jpg" pv s = s
  \/ exists pre nl,
       (nl = "" \/ nl = String newline "")
       /\ sub_scan fuel size_pattern "_1000.jpg" pv s = pre ++ "_1000.jpg" ++ nl.
Proof.
  induction s as [|c s IH]; intros pv fuel Hf.
  - left. destruct fuel; reflexivity.
  - destruct fuel as [|fuel]; [lia|]. cbn [sub_scan].
    destruct (match_here false size_pattern pv (String c s)) as [m|] eqn:Em.
    + right. apply size_pattern_shape in Em.
      destruct Em as [size [e [nl [E [_ [_ [Hnl Hm]]]]]]].
      exists "", nl. split; [assumption|].
      rewrite Hm.
      replace (String.length nl <? String.length (String c s)) with true.
      * destruct Hnl as [-> | ->].
        -- destruct fuel; reflexivity.
        -- rewrite sub_scan_final_newline. reflexivity.
      * symmetry. apply Nat.ltb_lt. rewrite E. simpl.
        rewrite length_append. simpl. rewrite length_append. lia.
    + simpl in Hf. destruct (IH (Some c) fuel) as [E|[pre [nl [Hnl E]]]]; [lia| |].
      * left. rewrite E. reflexivity.
      * right. exists (String c pre), nl. split; [assumption|].
        rewrite E. reflexivity.
Qed.

(** Normalizing a URL twice gives what normalizing it once gives. *)
Theorem normalize_is_idempotent url :
  normalize (normalize url) = normalize url.
Proof.
  unfold normalize, sub.
  destruct (@sub_scan_size_pattern url None (S (String.length url)))
    as [E|[pre [nl [Hnl E]]]]; [lia | |].
  - rewrite E. exact E.
  - rewrite E. destruct Hnl as [-> | ->].
    + rewrite append_nil_r.
      apply (@sub_scan_size_suffix "1" "000" "jpg"); try reflexivity;
        [simpl; auto | apply Nat.lt_succ_diag_r].
    + apply (@sub_scan_size_suffix_line "1" "000" "jpg"); try reflexivity;
        [simpl; auto | apply Nat.lt_succ_diag_r].
Qed.

(** ** Gallery images: every entry is a product image of the CDN *)

(** Every URL of a gallery is an https URL of images.thdstatic.com under
    productImages, a UUID of the characters [a-f0-9-] and svn; in the
    dictionary of extract_gallery_from_scrapes.py the URL stored under
    a UUID is a URL of that UUID. *)
Theorem gallery_urls_are_product_images text :
  (forall url,
      In url (categorize_scraped_products.extract_images_from_html (Some text)) ->
      exists uuid tail,
        all_chars uuid_char uuid = true /\ uuid <> ""
        /\ url = image_url uuid tail)
  /\ (forall uuid url,
        In (uuid, url)
           (extract_gallery_from_scrapes.extract_images_from_html (Some text)) ->
        all_chars uuid_char uuid = true /\ uuid <> ""
        /\ exists tail, url = image_url uuid tail).
Proof.
  split.
  - intros url H.
    unfold categorize_scraped_products.extract_images_from_html in H.
    rewrite collect_first in H. simpl in H. apply in_map_iff in H.
    destruct H as [m [<- Hm]]. apply first_by_uuid_In in Hm.
    destruct (@image_match_uuid _ _ Hm) as [Hu Hn].
    destruct (@entry_is_image_url _ _ Hm) as [tail E].
    exists (uuid_of m), tail. auto.
  - intros uuid url H.
    unfold extract_gallery_from_scrapes.extract_images_from_html in H.
    destruct (@gallery_collect_keys (image_matches text) [])
      as [Hnd _]; [constructor|].
    apply (@dict_get_In_NoDup _ _ _ _ Hnd) in H.
    rewrite gallery_collect_get in H.
    destruct (last_by_uuid uuid (image_matches text)) as [m|] eqn:El;
      [|discriminate].
    injection H as <-. apply last_by_uuid_In in El. destruct El as [Hm <-].
    destruct (@image_match_uuid _ _ Hm) as [Hu Hn].
    repeat split; try assumption. apply (@entry_is_image_url _ _ Hm).
Qed.

End GalleryProperties.

(** ** process_all_saved_html.py: the list of ids *)

Section ExtractorProperties.
Import process_all_saved_html.

Lemma add_new_NoDup acc x : NoDup acc -> NoDup (add_new acc x).
Proof.
  intros H. unfold add_new. destruct (mem x acc) eqn:E; [assumption|].
  apply NoDup_app; [assumption | constructor; [intros [] | constructor] |].
  intros y Hy [<-|[]]. apply mem_In in Hy. congruence.
Qed.

Lemma fold_add_new_NoDup l : forall acc,
  NoDup acc -> NoDup (fold_left add_new l acc).
Proof.
  induction l as [|x l IH]; intros acc H; simpl; [assumption|].
  apply IH, add_new_NoDup, H.
Qed.

(** No id is returned twice, and the ids found in [data-product-id]
    attributes come first, in the order of the document. *)
Theorem extract_product_ids_are_distinct page :
  NoDup (extract_product_ids page)
  /\ exists later, extract_product_ids page = (method1 page [] ++ later)%list.
Proof.
  unfold extract_product_ids.
  rewrite method4_candidates, method3_candidates, method2_candidates.
  split.
  - rewrite method1_candidates.
    repeat apply fold_add_new_NoDup. constructor.
  - rewrite <- !fold_left_app, fold_add_new. eexists. reflexivity.
Qed.

End ExtractorProperties.

(** ** extract_from_saved_html.py: the accounts of the merge *)

Section MergeAccounts.
Import extract_from_saved_html saved_html_files.

Variable product : Type.
Variable itemId : product -> string.
Variable str : product -> string.

Lemma length_dict_set (V : Type) k (v : V) d :
  List.length (dict_set String.eqb k v d)
  = if dict_has String.eqb k d then List.length d else S (List.length d).
Proof.
  unfold dict_has. induction d as [|[k' v'] d IH]; simpl; [reflexivity|].
  destruct (k =? k')%string; simpl; [reflexivity|].
  rewrite IH. destruct (dict_get String.eqb k d); reflexivity.
Qed.

Lemma merge_accounts (P : product -> Prop) : forall ps d n,
  NoDup (map fst d) ->
  (forall k q, In (k, q) d -> k = itemId q /\ P q) ->
  (forall q, In q ps -> P q) ->
  let r := fold_left (merge itemId str) ps (d, n) in
  List.length (fst r) + snd r = List.length d + n + List.length ps
  /\ NoDup (map fst (fst r))
  /\ (forall k q, In (k, q) (fst r) -> k = itemId q /\ P q).
Proof.
  induction ps as [|p ps IH]; intros d n Hnd Hd Hps; simpl.
  - split; [lia | split; [assumption | exact Hd]].
  - assert (Hp : P p) by (apply Hps; left; reflexivity).
    assert (Htl : forall q, In q ps -> P q) by (intros q Hq; apply Hps; right; exact Hq).
    assert (Hset : forall k q,
               In (k, q) (dict_set String.eqb (itemId p) p d) ->
               k = itemId q /\ P q).
    { intros k q Hin. apply dict_set_In_pair in Hin.
      destruct Hin as [E|Hin]; [injection E as -> ->; auto | auto]. }
    pose proof (@length_dict_set product (itemId p) p d) as Hlen.
    unfold dict_has in Hlen.
    destruct (dict_get String.eqb (itemId p) d) as [stored|] eqn:Eg.
    + destruct (String.length (str stored) <? String.length (str p)).
      * destruct (IH (dict_set String.eqb (itemId p) p d) (S n))
          as [H1 [H2 H3]]; auto using dict_set_NoDup.
        split; [rewrite H1, Hlen; lia | split; [assumption | exact H3]].
      * destruct (IH d (S n)) as [H1 [H2 H3]]; auto.
        split; [rewrite H1; lia | split; [assumption | exact H3]].
    + destruct (IH (dict_set String.eqb (itemId p) p d) n)
        as [H1 [H2 H3]]; auto using dict_set_NoDup.
      split; [rewrite H1, Hlen; lia | split; [assumption | exact H3]].
Qed.

(** The two numbers that [main] prints account for every record read:
    the unique products and the duplicates add up to the number of
    records with an id.  Each product is stored once, under its own
    [itemId], which is not empty, and it is one of the records read. *)
Theorem merge_accounts_for_every_record (files : list (list product)) :
  let read := map (process_html_file itemId) files in
  let all_products := fst (merge_all itemId str read) in
  let duplicate_count := snd (merge_all itemId str read) in
  List.length all_products + duplicate_count = List.length (concat read)
  /\ NoDup (map fst all_products)
  /\ (forall item_id q, In (item_id, q) all_products ->
        item_id = itemId q /\ item_id <> ""
        /\ exists extracted, In extracted files /\ In q extracted).
Proof.
  intros read all_products duplicate_count.
  unfold all_products, duplicate_count. rewrite merge_all_concat.
  destruct (@merge_accounts
              (fun q => itemId q <> ""
                        /\ exists extracted, In extracted files /\ In q extracted)
              (concat read) [] 0) as [H1 [H2 H3]].
  - constructor.
  - intros k q [].
  - intros q Hq. unfold read in Hq. apply in_concat in Hq.
    destruct Hq as [l [Hl Hq]]. apply in_map_iff in Hl.
    destruct Hl as [extracted [<- He]]. unfold process_html_file in Hq.
    apply filter_In in Hq. destruct Hq as [Hq Hne].
    apply negb_true_iff, String.eqb_neq in Hne. eauto.
  - split; [simpl in H1; lia | split; [assumption|]].
    intros item_id q H. destruct (H3 item_id q H) as [E [Hne Hex]].
    subst item_id. auto.
Qed.

End MergeAccounts.

(** ** Manifests of scraped pages *)

Section ManifestProperties.
Import process_all_saved_html manifests.

Lemma search_from_sound ci r : forall s pv m,
  search_from ci r pv s = Some m ->
  exists pv' s', Matches ci r (MState pv' s' []) m.
Proof.
  induction s as [|c s IH]; intros pv m H; cbn [search_from] in H.
  - destruct (match_here ci r pv "") as [m0|] eqn:E; [|discriminate].
    injection H as <-. unfold match_here in E. apply rx_sound in E.
    destruct E as [st' [HM E]]. injection E as ->. eauto.
  - destruct (match_here ci r pv (String c s)) as [m0|] eqn:E.
    + injection H as <-. unfold match_here in E. apply rx_sound in E.
      destruct E as [st' [HM E]]. injection E as ->. eauto.
    + eapply IH. eassumption.
Qed.

(** What [href_pattern] captures when it is found. *)
Lemma href_pattern_found s m :
  search_from false href_pattern None s = Some m ->
  all_chars is_digit (group 1 m) = true /\ 9 <= String.length (group 1 m).
Proof.
  intros H. apply search_from_sound in H. destruct H as [pv [s' H]].
  cbv [href_pattern seqs] in H. invert_seq.
  invert_one (Grp 1 (at_least 9 digit)).
  rewrite group_set_group. apply digits_captured. assumption.
Qed.

Lemma manifest_readers_agree_aux manifest p :
  extract_product_from_manifest manifest = Some p ->
  all_chars is_digit (sp_productId p) = true
  /\ 9 <= String.length (sp_productId p).
Proof.
  unfold extract_product_from_manifest.
  destruct manifest as [[| | | | | |data]|]; try discriminate.
  destruct (get_field "originalUrl" data) as [[| | | |original_url| |]|];
    try discriminate.
  destruct (negb (contains "homedepot.com/p/" original_url)); [discriminate|].
  destruct (search_from false href_pattern None original_url) as [m|] eqn:Em;
    [|discriminate].
  destruct (href_pattern_found _ Em) as [Hd Hl].
  destruct (get_field "title" data) as [[| | | |title| |]|];
    try discriminate; intros H; injection H as <-; simpl; auto.
Qed.

(** The two scripts read the same product id from a manifest.  When
    categorize_scraped_products.py takes a manifest for a product page,
    extract_gallery_from_scrapes.py reads the same id from it, the URL
    is the [originalUrl] of the manifest and names homedepot.com/p/, and
    no images are attached yet; when the URL is ASCII text the id is a
    run of at least nine digits. *)
Theorem manifest_readers_agree manifest p :
  extract_product_from_manifest manifest = Some p ->
  extract_product_id_from_manifest manifest = Some (sp_productId p)
  /\ contains "homedepot.com/p/" (sp_url p) = true
  /\ sp_images p = None
  /\ (ascii_text (sp_url p) = true ->
      all_chars is_digit (sp_productId p) = true
      /\ 9 <= String.length (sp_productId p)).
Proof.
  unfold extract_product_from_manifest, extract_product_id_from_manifest.
  destruct manifest as [[| | | | | |data]|]; try discriminate.
  destruct (get_field "originalUrl" data) as [[| | | |original_url| |]|];
    try discriminate.
  destruct (contains "homedepot.com/p/" original_url) eqn:Ec; [|discriminate].
  simpl.
  destruct (search_from false href_pattern None original_url) as [m|] eqn:Em;
    [|discriminate].
  destruct (href_pattern_found _ Em) as [Hd Hl].
  destruct (get_field "title" data) as [[| | | |title| |]|];
    try discriminate; intros H; injection H as <-; simpl; auto.
Qed.

Lemma manifest_readers_agree_witness :
  extract_product_id_from_manifest
    (Some (JObj [("originalUrl",
                  JStr "https://www.homedepot.com/p/GE-Refrigerator/123456789");
                 ("title", JStr "GE Refrigerator - The Home Depot")]))
  = Some "123456789".
Proof.
  refine (proj1 (@manifest_readers_agree
            (Some (JObj [("originalUrl",
                          JStr "https://www.homedepot.com/p/GE-Refrigerator/123456789");
                         ("title", JStr "GE Refrigerator - The Home Depot")]))
            (ScrapedProduct "123456789"
               "https://www.homedepot.com/p/GE-Refrigerator/123456789"
               "GE Refrigerator" "GE-Refrigerator" None) _)).
  reflexivity.
Defined.

(** *** The scanning loop of categorize_scraped_products.py *)

Lemma filed_after_append (k : string) (v : scraped_product) : forall d,
  list_sum
    (map (fun kv : string * list scraped_product => List.length (snd kv))
       (dict_set String.eqb k (dict_default k d ++ [v])%list d))
  = S (list_sum
         (map (fun kv : string * list scraped_product => List.length (snd kv))
            d)).
Proof.
  unfold dict_default. induction d as [|[k' l] d IH]; simpl; [reflexivity|].
  destruct (k =? k')%string; simpl.
  - rewrite length_app. simpl. lia.
  - rewrite IH. lia.
Qed.

Lemma dict_default_In (V : Type) k (d : list (string * list V)) x :
  In x (dict_default k d) -> exists l, In (k, l) d /\ In x l.
Proof.
  unfold dict_default.
  destruct (dict_get String.eqb k d) as [l|] eqn:E; [|intros []].
  intros H. exists l. split; [apply dict_get_In; exact E | exact H].
Qed.

Lemma scan_folder_invariant existing_products s f :
  (filed s = new_products s
   /\ new_products s <= total_products s
   /\ NoDup (map fst (products_by_category s))
   /\ forall key ps p, In (key, ps) (products_by_category s) -> In p ps ->
        filed_well existing_products key p) ->
  let s' := scan_folder existing_products s f in
  (filed s' = new_products s'
   /\ new_products s' <= total_products s'
   /\ NoDup (map fst (products_by_category s'))
   /\ forall key ps p, In (key, ps) (products_by_category s') -> In p ps ->
        filed_well existing_products key p)
  /\ total_products s' + skipped s'
     = total_products s + skipped s
       + (if is_dir f
          then match manifest_json f with Some _ => 1 | None => 0 end
          else 0).
Proof.
  intros [H1 [H2 [H3 H4]]]. unfold scan_folder.
  destruct (is_dir f); simpl; [|split; [auto | lia]].
  destruct (manifest_json f) as [manifest|]; [|split; [auto | lia]].
  destruct (extract_product_from_manifest manifest) as [product|] eqn:Ep;
    [|simpl; split; [unfold filed in *; simpl; auto | lia]].
  destruct (mem (sp_productId product) existing_products) eqn:Em.
  { simpl. split; [|lia]. unfold filed in *. simpl.
    split; [exact H1|]. split; [lia|]. split; [exact H3 | exact H4]. }
  destruct (@manifest_readers_agree_aux _ _ Ep) as [Hd Hl].
  match goal with
  | |- context [match images_entry ?i with _ => _ end] =>
      set (product' := match images_entry i with
                       | Some entry =>
                           ScrapedProduct (sp_productId product) (sp_url product)
                             (sp_title product) (sp_slug product) (Some entry)
                       | None => product
                       end)
  end.
  assert (Hsame : sp_productId product' = sp_productId product
                  /\ sp_title product' = sp_title product
                  /\ sp_slug product' = sp_slug product).
  { unfold product'. destruct (images_entry _); simpl; auto. }
  destruct Hsame as [Ei [Et Es]].
  simpl. split; [|lia]. unfold filed. simpl.
  rewrite filed_after_append. unfold filed in H1.
  split; [lia|]. split; [lia|]. split; [apply dict_set_NoDup, H3|].
  intros key ps p Hin Hp. apply dict_set_In_pair in Hin.
  destruct Hin as [E|Hin]; [|eapply H4; eassumption].
  injection E as -> ->. apply in_app_or in Hp. destruct Hp as [Hp|[<-|[]]].
  - apply dict_default_In in Hp. destruct Hp as [l [Hl1 Hl2]].
    eapply H4; eassumption.
  - unfold filed_well. rewrite Ei. split; [exact Em|].
    split; [reflexivity|]. intros _. auto.
Qed.

(** The scanning loop files every new product page exactly once, under
    the key that [categorize_product] gives for its title, and files no
    product whose id is already in the catalog.  Every page with a
    manifest is counted as a product page or as skipped.  The id of a
    filed product whose URL is ASCII text is a run of nine digits or
    more. *)
Theorem scan_files_each_new_product_once existing_products folders :
  let s := scan_folders existing_products folders in
  filed s = new_products s
  /\ new_products s <= total_products s
  /\ total_products s + skipped s
     = List.length
         (filter (fun f => is_dir f
                           && match manifest_json f with
                              | Some _ => true
                              | None => false
                              end) folders)
  /\ NoDup (map fst (products_by_category s))
  /\ (forall key ps p, In (key, ps) (products_by_category s) -> In p ps ->
        mem (sp_productId p) existing_products = false
        /\ key = category_key
                   (categorize_scraped_products.categorize_product
                      (sp_title p) (sp_slug p))
        /\ (ascii_text (sp_url p) = true ->
            all_chars is_digit (sp_productId p) = true
            /\ 9 <= String.length (sp_productId p))).
Proof.
  unfold scan_folders.
  assert (H : forall fs s0,
             (filed s0 = new_products s0
              /\ new_products s0 <= total_products s0
              /\ NoDup (map fst (products_by_category s0))
              /\ forall key ps p, In (key, ps) (products_by_category s0) ->
                   In p ps -> filed_well existing_products key p) ->
             let s := fold_left (scan_folder existing_products) fs s0 in
             (filed s = new_products s
              /\ new_products s <= total_products s
              /\ NoDup (map fst (products_by_category s))
              /\ forall key ps p, In (key, ps) (products_by_category s) ->
                   In p ps -> filed_well existing_products key p)
             /\ total_products s + skipped s
                = total_products s0 + skipped s0
                  + List.length
                      (filter (fun f => is_dir f
                                        && match manifest_json f with
                                           | Some _ => true
                                           | None => false
                                           end) fs)).
  { induction fs as [|f fs IH]; intros s0 H0; simpl; [split; [auto | lia]|].
    destruct (@scan_folder_invariant existing_products s0 f H0) as [Hi Hc].
    destruct (IH _ Hi) as [Hi' Hc']. split; [exact Hi'|].
    rewrite Hc', Hc.
    destruct (is_dir f); simpl; [|lia].
    destruct (manifest_json f); simpl; lia. }
  destruct (H folders (Scan [] 0 0 0)) as [[H1 [H2 [H3 H4]]] H5].
  - simpl. split; [reflexivity|]. split; [lia|]. split; [constructor|].
    intros key ps p [].
  - simpl in H5. auto.
Qed.

End ManifestProperties.

(** ** extract_gallery_from_scrapes.py: the galleries that [main] accepts *)

Section GalleryMatching.
Import images process_all_saved_html gallery_matching.

(** A text of one character holds no UUID. *)
Lemma url_uuid_character c : url_uuid (String c "") = None.
Proof.
  unfold url_uuid. cbn [search_from]. unfold match_here.
  cbv [uuid_pattern seqs lit]. cbn [rx rest step chr_eqb].
  destruct (Ascii.eqb "/" c); reflexivity.
Qed.

Lemma filter_unique_without_uuid : forall gallery seen_uuids unique_gallery,
  (forall url, In url gallery -> url_uuid url = None) ->
  filter_unique gallery seen_uuids unique_gallery = unique_gallery.
Proof.
  induction gallery as [|url tl IH]; intros seen u H; simpl; [reflexivity|].
  rewrite (H url (or_introl eq_refl)). apply IH.
  intros x Hx. apply H. right. exact Hx.
Qed.

Lemma filter_unique_length : forall gallery seen_uuids unique_gallery,
  List.length (filter_unique gallery seen_uuids unique_gallery)
  = List.length unique_gallery
    + List.length (dedup seen_uuids (uuids gallery)).
Proof.
  unfold uuids.
  induction gallery as [|url tl IH]; intros seen u; simpl; [lia|].
  destruct (url_uuid url) as [uuid|]; simpl; [|apply IH].
  destruct (mem uuid seen); [apply IH|].
  rewrite IH, length_app. simpl. lia.
Qed.

(** A catalog product gets a new gallery only from
    [product_galleries]: between 2 and 20 URLs, one for each UUID that
    occurs in the URLs scraped for the product.  A product that is
    matched through its primary UUID alone gets none, because the loop
    then runs over the characters of a single URL. *)
Theorem new_gallery_comes_from_product_galleries
    pid primary_uuid product_galleries all_images unique_gallery :
  new_gallery pid primary_uuid product_galleries all_images
  = Some unique_gallery ->
  exists gallery,
    dict_get String.eqb pid product_galleries = Some gallery
    /\ List.length unique_gallery = List.length (dedup [] (uuids gallery))
    /\ 2 <= List.length unique_gallery <= 20.
Proof.
  unfold new_gallery, gallery_of.
  destruct (dict_get String.eqb pid product_galleries) as [gallery|].
  - destruct (_ && _) eqn:E; [|discriminate].
    intros H. injection H as <-. exists gallery.
    apply andb_true_iff in E. destruct E as [E1 E2].
    apply Nat.leb_le in E1, E2.
    rewrite filter_unique_length in *. simpl in *. auto.
  - assert (Hc : forall url,
               filter_unique (characters url) [] [] = []).
    { intros url. apply filter_unique_without_uuid.
      intros x Hx. unfold characters in Hx. apply in_map_iff in Hx.
      destruct Hx as [c [<- _]]. apply url_uuid_character. }
    destruct primary_uuid as [uuid|]; [|discriminate].
    destruct (uuid =? "")%string; [discriminate|].
    destruct (dict_get String.eqb uuid all_images) as [url|]; [|discriminate].
    rewrite Hc. discriminate.
Qed.

Lemma new_gallery_comes_from_product_galleries_witness :
  exists gallery,
    dict_get String.eqb "100000001"
      [("100000001",
        ["https://images.thdstatic.com/productImages/0a1b/svn/ge-64_100.jpg";
         "https://images.thdstatic.com/productImages/22c3/svn/ge-e1_600.webp"])]
    = Some gallery.
Proof.
  destruct (@new_gallery_comes_from_product_galleries "100000001" None
              [("100000001",
                ["https://images.thdstatic.com/productImages/0a1b/svn/ge-64_100.jpg";
                 "https://images.thdstatic.com/productImages/22c3/svn/ge-e1_600.webp"])]
              []
              ["https://images.thdstatic.com/productImages/0a1b/svn/ge-64_1000.jpg";
               "https://images.thdstatic.com/productImages/22c3/svn/ge-e1_600.jpg"])
    as [gallery [H _]].
  - vm_compute. reflexivity.
  - exists gallery. exact H.
Defined.

End GalleryMatching.

(** ** extract_gallery_from_scrapes.py: the URLs read from a manifest *)

Section ManifestImages.
Import images process_all_saved_html gallery_matching.

Lemma Matches_digit st st' :
  Matches false digit st st' ->
  exists x, rest st = String x (rest st') /\ is_digit x = true.
Proof.
  intros H. inversion H as [| |? x tl ? Hr Hf| | | | | | | | |]; subst.
  exists x. simpl. auto.
Qed.

Lemma Matches_eos st st' :
  Matches false Eos st st' ->
  st' = st /\ (rest st = "" \/ rest st = String newline "").
Proof.
  intros H. inversion H as [| | | |? Hend| | | | | | |]; subst.
  split; [reflexivity|]. unfold at_end in Hend.
  destruct (rest st') as [|c [|c' r]]; try discriminate; [left; reflexivity|].
  right. apply Ascii.eqb_eq in Hend. subst c. reflexivity.
Qed.

Lemma avif_size_shape pv s m :
  match_here false avif_size_pattern pv s = Some m ->
  exists size nl,
    s = String "_" (size ++ ".avif" ++ nl)
    /\ all_chars is_digit size = true
    /\ (nl = "" \/ nl = String newline "").
Proof.
  unfold match_here. intros H. apply rx_sound in H.
  destruct H as [st' [H E]]. injection E as ->.
  cbv [avif_size_pattern seqs plus] in H.
  inversion H as [| | | | |? ? ? s1 ? H1 H2| | | | | |]; subst; clear H.
  inversion H2 as [| | | | |? ? ? s2 ? H3 H4| | | | | |]; subst; clear H2.
  inversion H3 as [| | | | |? ? ? s3 ? H5 H6| | | | | |]; subst; clear H3.
  inversion H4 as [| | | | |? ? ? s4 ? H7 H8| | | | | |]; subst; clear H4.
  inversion H8 as [| | | | |? ? ? s5 ? H9 H10| | | | | |]; subst; clear H8.
  apply Matches_chr in H1, H7. destruct H1 as [E1 _], H7 as [E7 _].
  apply Matches_digit in H5. destruct H5 as [x [E5 Hx]].
  apply Matches_star_cls in H6. destruct H6 as [w [E6 [Hw _]]].
  apply (@Matches_lit "avif") in H9. destruct H9 as [E9 _].
  apply Matches_eos in H10. destruct H10 as [_ Hnl].
  simpl in E1. subst s.
  exists (String x w), (rest s5). simpl. rewrite Hx, Hw.
  rewrite E5, E6, E7, E9. auto.
Qed.
Lemma modern_extension_shape pv s m :
  match_here false modern_extension_pattern pv s = Some m ->
  exists e nl,
    s = String "." (e ++ nl)
    /\ (e = "avif" \/ e = "webp")
    /\ (nl = "" \/ nl = String newline "").
Proof.
  unfold match_here. intros H. apply rx_sound in H.
  destruct H as [st' [H E]]. injection E as ->.
  cbv [modern_extension_pattern seqs alts] in H.
  inversion H as [| | | | |? ? ? s1 ? H1 H2| | | | | |]; subst; clear H.
  inversion H2 as [| | | | |? ? ? s2 ? H3 H4| | | | | |]; subst; clear H2.
  apply Matches_chr in H1. destruct H1 as [E1 _].
  apply Matches_eos in H4. destruct H4 as [_ Hnl].
  inversion H3 as [| | | | | | | | | |? ? ? s3 H5|]; subst; clear H3.
  simpl in E1, Hnl. subst s.
  inversion H5 as [| | | | | |? ? ? ? H6|? ? ? ? H6| | | |]; subst; clear H5.
  - apply (@Matches_lit "avif") in H6. destruct H6 as [E6 _].
    exists "avif", (rest s3). rewrite E6. auto.
  - apply (@Matches_lit "webp") in H6. destruct H6 as [E6 _].
    exists "webp", (rest s3). rewrite E6. auto.
Qed.

Lemma last_char_append pre t :
  t <> "" -> last_char (pre ++ t) = last_char t.
Proof.
  intros Ht. induction pre as [|c pre IH]; [reflexivity|].
  change (String c pre ++ t) with (String c (pre ++ t)).
  cbn [last_char]. destruct (pre ++ t) eqn:E; [|exact IH].
  destruct pre; [simpl in E; contradiction | discriminate].
Qed.

(** The substitution changes nothing when the pattern matches nowhere,
    as for a pattern that asks for another last character. *)
Lemma sub_scan_unchanged r repl z :
  (forall pv, match_here false r pv "" = None) ->
  (forall pv s, last_char s = Some z -> match_here false r pv s = None) ->
  forall s pv fuel, last_char s = Some z -> sub_scan fuel r repl pv s = s.
Proof.
  intros H0 Hz. induction s as [|c s IH]; intros pv fuel Hl; [discriminate|].
  destruct fuel as [|fuel]; [reflexivity|].
  cbn [sub_scan]. rewrite (Hz pv _ Hl). f_equal.
  destruct s as [|c' s'].
  - destruct fuel; [reflexivity|]. cbn [sub_scan]. rewrite H0. reflexivity.
  - apply IH. exact Hl.
Qed.

(** The substitution at the end of a text, when the pattern matches
    nowhere before. *)
Lemma sub_scan_last r repl tail result :
  (forall pv c x, match_here false r pv (String c (x ++ tail)) = None) ->
  (forall pv fuel, String.length tail < fuel ->
                   sub_scan fuel r repl pv tail = result) ->
  forall pre pv fuel,
    String.length (pre ++ tail) < fuel ->
    sub_scan fuel r repl pv (pre ++ tail) = pre ++ result.
Proof.
  intros Hb Ht. induction pre as [|c pre IH]; intros pv fuel Hf.
  - apply Ht. exact Hf.
  - destruct fuel as [|fuel]; [simpl in Hf; lia|].
    change (String c pre ++ tail) with (String c (pre ++ tail)).
    cbn [sub_scan]. rewrite Hb.
    change (String c pre ++ result) with (String c (pre ++ result)).
    f_equal. apply IH. simpl in Hf. lia.
Qed.

Lemma avif_size_needs_f_or_newline pv s z :
  last_char s = Some z -> z <> "f"%char -> z <> newline ->
  match_here false avif_size_pattern pv s = None.
Proof.
  intros Hl Hf Hn.
  destruct (match_here false avif_size_pattern pv s) as [m|] eqn:E;
    [exfalso | reflexivity].
  apply avif_size_shape in E. destruct E as [size [nl [-> [_ Hnl]]]].
  change (String "_" (size ++ ".avif" ++ nl))
    with (String "_" size ++ (".avif" ++ nl)) in Hl.
  rewrite last_char_append in Hl by (destruct Hnl as [-> | ->]; discriminate).
  destruct Hnl as [-> | ->]; simpl in Hl; injection Hl as <-;
    [apply Hf | apply Hn]; reflexivity.
Qed.

Lemma modern_extension_needs_f_p_or_newline pv s z :
  last_char s = Some z -> z <> "f"%char -> z <> "p"%char -> z <> newline ->
  match_here false modern_extension_pattern pv s = None.
Proof.
  intros Hl Hf Hp Hn.
  destruct (match_here false modern_extension_pattern pv s) as [m|] eqn:E;
    [exfalso | reflexivity].
  apply modern_extension_shape in E. destruct E as [e [nl [-> [He Hnl]]]].
  destruct He as [-> | ->]; destruct Hnl as [-> | ->]; simpl in Hl;
    injection Hl as <-; auto.
Qed.

(** A URL that ends in g, as one that ends in .jpg or in .png, is kept
    as it is. *)
Lemma manifest_normalize_g url :
  last_char url = Some "g"%char -> manifest_normalize url = url.
Proof.
  intros Hl. unfold manifest_normalize, sub.
  rewrite (@sub_scan_unchanged avif_size_pattern "_1000.jpg" "g"%char);
    try assumption.
  - rewrite (@sub_scan_unchanged modern_extension_pattern ".jpg" "g"%char);
      try assumption; [reflexivity | reflexivity |].
    intros pv s Hs.
    apply (@modern_extension_needs_f_p_or_newline pv s "g"%char);
      [assumption | discriminate | discriminate | discriminate].
  - reflexivity.
  - intros pv s Hs.
    apply (@avif_size_needs_f_or_newline pv s "g"%char);
      [assumption | discriminate | discriminate].
Qed.

Lemma avif_size_at_suffix pv d size :
  is_digit d = true -> all_chars is_digit size = true ->
  exists m,
    match_here false avif_size_pattern pv
      (String "_" (String d size ++ ".avif")) = Some m
    /\ rest m = "".
Proof.
  intros Hd Hs. unfold match_here.
  cbv [avif_size_pattern seqs plus]. cbn [rx]. simpl rest. cbn [chr_eqb].
  change (Ascii.eqb "_" "_") with true. cbn iota.
  unfold digit. cbn [rx step rest caps]. rewrite Hd.
  eexists. split.
  - apply (@star_loop_greedy false is_digit);
      [ reflexivity | assumption | rewrite length_append; lia | reflexivity ].
  - reflexivity.
Qed.

Lemma avif_size_not_before pv c x tail :
  match_here false avif_size_pattern pv (String c (x ++ String "_" tail)) = None.
Proof.
  destruct (match_here false avif_size_pattern pv (String c (x ++ String "_" tail)))
    as [m|] eqn:E; [exfalso | reflexivity].
  apply avif_size_shape in E. destruct E as [size [nl [E [Hs Hnl]]]].
  injection E as _ E.
  assert (H : all_chars not_underscore (x ++ String "_" tail) = true).
  { rewrite E, all_chars_append.
    rewrite (@all_chars_impl is_digit not_underscore size digit_not_underscore Hs).
    destruct Hnl as [-> | ->]; reflexivity. }
  rewrite all_chars_append in H. simpl in H.
  rewrite andb_false_r in H. discriminate.
Qed.

Lemma last_char_last pre c : last_char (pre ++ String c "") = Some c.
Proof. rewrite last_char_append by discriminate. reflexivity. Qed.

(** What [extract_images_from_manifest] makes of a URL.  A URL that
    ends in .jpg is kept as it is, size suffix included: the result of
    the substitution for jpg is overwritten.  A URL that ends in a size
    suffix and .avif gets the size 1000 and the extension jpg.  A URL
    that ends in .webp gets the extension jpg and keeps its size. *)
Theorem manifest_urls_after_normalization pre size :
  manifest_normalize (pre ++ ".jpg") = pre ++ ".jpg"
  /\ (isdigit size = true ->
      manifest_normalize (pre ++ "_" ++ size ++ ".avif") = pre ++ "_1000.jpg")
  /\ manifest_normalize (pre ++ ".webp") = pre ++ ".jpg".
Proof.
  split; [|split].
  - apply manifest_normalize_g.
    change ".jpg" with (".jp" ++ String "g" ""). rewrite <- append_assoc.
    apply last_char_last.
  - intros Hs. destruct size as [|d size]; [discriminate|].
    simpl in Hs. apply andb_true_iff in Hs. destruct Hs as [Hd Hs].
    unfold manifest_normalize, sub.
    change (pre ++ "_" ++ String d size ++ ".avif")
      with (pre ++ String "_" (String d size ++ ".avif")).
    rewrite (@sub_scan_last avif_size_pattern "_1000.jpg"
               (String "_" (String d size ++ ".avif")) "_1000.jpg").
    + apply (@sub_scan_unchanged modern_extension_pattern ".jpg" "g"%char).
      * reflexivity.
      * intros pv s Hl.
        apply (@modern_extension_needs_f_p_or_newline pv s "g"%char);
          [assumption | discriminate | discriminate | discriminate].
      * change "_1000.jpg" with ("_1000.jp" ++ String "g" "").
        rewrite <- append_assoc. apply last_char_last.
    + intros pv c x. apply avif_size_not_before.
    + intros pv fuel Hf. destruct fuel as [|fuel]; [lia|].
      destruct (@avif_size_at_suffix pv d size Hd Hs) as [m [Em Hm]].
      cbn [sub_scan]. rewrite Em, Hm.
      change (String.length "" <? String.length (String "_" (String d size ++ ".avif")))
        with true. cbn iota.
      destruct fuel as [|fuel]; reflexivity.
    + apply Nat.lt_succ_diag_r.
  - unfold manifest_normalize, sub.
    rewrite (@sub_scan_unchanged avif_size_pattern "_1000.jpg" "p"%char).
    + apply (@sub_scan_last modern_extension_pattern ".jpg" ".webp" ".jpg").
      * intros pv c x.
        destruct (match_here false modern_extension_pattern pv
                    (String c (x ++ ".webp"))) as [m|] eqn:E;
          [exfalso | reflexivity].
        apply modern_extension_shape in E.
        destruct E as [e [nl [E [He Hnl]]]].
        assert (Hlen : String.length (String c (x ++ ".webp"))
                       = String.length (String "." (e ++ nl)))
          by (rewrite E; reflexivity).
        assert (Hlast : last_char (String c (x ++ ".webp"))
                        = last_char (String "." (e ++ nl)))
          by (rewrite E; reflexivity).
        assert (Hp : last_char (String c (x ++ ".webp")) = Some "p"%char).
        { change (String c (x ++ ".webp")) with (String c x ++ ".webp").
          rewrite last_char_append by discriminate. reflexivity. }
        rewrite Hp in Hlast. simpl in Hlen. rewrite !length_append in Hlen.
        destruct He as [-> | ->]; destruct Hnl as [-> | ->];
          simpl in Hlast, Hlen; try discriminate; lia.
      * intros pv fuel Hf. simpl in Hf.
        do 6 (destruct fuel as [|fuel]; [lia|]). reflexivity.
      * apply Nat.lt_succ_diag_r.
    + reflexivity.
    + intros pv s Hl.
      apply (@avif_size_needs_f_or_newline pv s "p"%char);
        [assumption | discriminate | discriminate].
    + change ".webp" with (".web" ++ String "p" ""). rewrite <- append_assoc.
      apply last_char_last.
Qed.

Lemma manifest_urls_after_normalization_witness :
  manifest_normalize ("ge-fridge-64" ++ "_" ++ "600" ++ ".avif")
  = "ge-fridge-64" ++ "_1000.jpg".
Proof.
  apply (proj1 (proj2 (@manifest_urls_after_normalization "ge-fridge-64" "600"))).
  reflexivity.
Defined.

End ManifestImages.

(** ** categorize_scraped_products.py: the shape of a categorization *)

Section CategorizeProperties.
Import categorize_scraped_products manifests.

(** The test that decides the next branch of the chain. *)
Ltac head_test t :=
  match t with
  | (if ?b then _ else _) => head_test b
  | (?a && _)%bool => head_test a
  | (?a || _)%bool => head_test a
  | negb ?a => head_test a
  | well_shaped ?x => head_test x
  | _ => let _ := match goal with _ => is_var t end in constr:(t)
  end.

Lemma categorize_product_well_shaped title slug :
  well_shaped (categorize_product title slug) = true.
Proof.
  cbv beta zeta delta [categorize_product].
  generalize (lower title). intros t.
  repeat match goal with
         | |- context [any_in ?l t] => generalize (any_in l t); intro
         end.
  repeat match goal with
         | |- context [contains ?x t] => generalize (contains x t); intro
         end.
  repeat match goal with
         | |- context [@pair string (option string) ?c ?s] =>
             generalize (eq_refl : well_shaped (c, s) = true);
             generalize (c, s); intros ? ?
         end.
  repeat (match goal with
          | |- ?l = true =>
              let b := head_test l in
              match type of b with bool => destruct b end
          end;
          cbv beta iota delta [andb orb negb]).
  all: assumption.
Qed.

(** Whatever the title, the category is one of ten, and there is a
    subcategory, which is not empty, exactly when the category is not
    other. *)
Theorem categorize_product_shape title slug :
  let r := categorize_product title slug in
  In (fst r)
     ["tools"; "appliances"; "furniture"; "home-decor"; "electrical";
      "garage"; "storage"; "smart-home"; "solar"; "other"]
  /\ (fst r = "other" <-> snd r = None)
  /\ (forall subcategory, snd r = Some subcategory -> subcategory <> "").
Proof.
  intros r. pose proof (categorize_product_well_shaped title slug) as H.
  fold r in H. unfold well_shaped in H.
  apply andb_true_iff in H. destruct H as [Hc Hs].
  apply mem_In in Hc. split; [exact Hc|].
  destruct (snd r) as [s|].
  - apply andb_true_iff in Hs. destruct Hs as [H1 H2].
    apply negb_true_iff, String.eqb_neq in H1, H2.
    split; [split; [contradiction | discriminate]|].
    intros s' E. injection E as <-. exact H2.
  - apply String.eqb_eq in Hs.
    split; [split; auto | discriminate].
Qed.

End CategorizeProperties.
(* ================================================================== *)
(** * scripts/consolidate_structure.py: [slugify] and the slug a
      product is filed under *)
(* ================================================================== *)

Section SlugifyProperties.
Import Lowered Runs images consolidate_structure.

(** ** Runs of a class *)

Lemma take_drop_run f s : s = take_run f s ++ drop_run f s.
Proof.
  induction s as [|c s IH]; simpl; [reflexivity|].
  destruct (f c); simpl; [f_equal; exact IH | reflexivity].
Qed.

Lemma all_chars_take_run f s : all_chars f (take_run f s) = true.
Proof.
  induction s as [|c s IH]; simpl; [reflexivity|].
  destruct (f c) eqn:E; simpl; [rewrite E, IH|]; reflexivity.
Qed.

Lemma drop_run_head f s :
  match drop_run f s with String c _ => f c = false | EmptyString => True end.
Proof.
  induction s as [|c s IH]; simpl; [exact I|].
  destruct (f c) eqn:E; [exact IH | exact E].
Qed.

Lemma length_drop_run f s : String.length (drop_run f s) <= String.length s.
Proof.
  induction s as [|c s IH]; simpl; [lia|].
  destruct (f c); simpl; lia.
Qed.

Lemma length_take_run f s : String.length (take_run f s) <= String.length s.
Proof.
  induction s as [|c s IH]; simpl; [lia|].
  destruct (f c); simpl; lia.
Qed.

(** One attempt of [[f]+]: it fails on a character outside the class and
    otherwise reads the whole run. *)
Lemma plus_cls_here f pv c tl :
  match_here false (plus (Cls f)) pv (String c tl) =
    if f c
    then Some (MState (last_of (take_run f tl) (Some c)) (drop_run f tl) [])
    else None.
Proof.
  unfold match_here, plus.
  change (rx false (Seq (Cls f) (Star (Cls f)))
            (MState pv (String c tl) []) (fun st => Some st))
    with (if f c
          then star_loop (fun st0 (k0 : mstate -> option mstate) =>
                            rx false (Cls f) st0 k0)
                 (fun st => Some st) (S (String.length tl))
                 (MState (Some c) tl [])
          else None).
  destruct (f c); [|reflexivity].
  replace (MState (Some c) tl [])
    with (MState (Some c) (take_run f tl ++ drop_run f tl) [])
    by (rewrite <- take_drop_run; reflexivity).
  apply (@star_loop_greedy false f).
  - apply drop_run_head.
  - apply all_chars_take_run.
  - pose proof (length_take_run f tl). lia.
  - reflexivity.
Qed.

Lemma plus_cls_here_empty f pv :
  match_here false (plus (Cls f)) pv "" = None.
Proof. reflexivity. Qed.

Lemma squeeze_in_run f repl s :
  squeeze f repl true s = squeeze f repl false (drop_run f s).
Proof.
  induction s as [|c s IH]; simpl; [reflexivity|].
  destruct (f c) eqn:E; [exact IH|]. simpl. rewrite E. reflexivity.
Qed.

(** [re.sub] of [[f]+] replaces each run of the class once. *)
Lemma sub_scan_squeeze f repl fuel :
  forall s pv, String.length s < fuel ->
    sub_scan fuel (plus (Cls f)) repl pv s = squeeze f repl false s.
Proof.
  induction fuel as [|fuel IH]; intros s pv Hs; [lia|].
  destruct s as [|c tl].
  - reflexivity.
  - cbn [sub_scan]. rewrite plus_cls_here.
    cbn [squeeze]. destruct (f c).
    + cbn [rest prev].
      replace (String.length (drop_run f tl) <? String.length (String c tl))
        with true
        by (symmetry; apply Nat.ltb_lt;
            pose proof (length_drop_run f tl); simpl; lia).
      rewrite IH, squeeze_in_run; [reflexivity|].
      pose proof (length_drop_run f tl). simpl in Hs. lia.
    + rewrite IH; [reflexivity | simpl in Hs; lia].
Qed.

Lemma sub_plus_cls f repl s :
  sub (plus (Cls f)) repl s = squeeze f repl false s.
Proof. unfold sub. apply sub_scan_squeeze. lia. Qed.

(** ** Stripping one character *)

Lemma rev_string_cons x s :
  rev_string (String x s) = rev_string s ++ String x "".
Proof.
  unfold rev_string. simpl.
  generalize (rev (list_ascii_of_string s)). intros l.
  induction l as [|a l IH]; simpl; [reflexivity | rewrite IH; reflexivity].
Qed.

Lemma rev_string_snoc s x :
  rev_string (s ++ String x "") = String x (rev_string s).
Proof.
  induction s as [|a s IH]; [reflexivity|].
  change (String a s ++ String x "") with (String a (s ++ String x "")).
  rewrite !rev_string_cons, IH. reflexivity.
Qed.

Lemma lstrip_char_snoc c s x :
  lstrip_char c (s ++ String x "") =
    match lstrip_char c s with
    | EmptyString => if Ascii.eqb x c then "" else String x ""
    | r => r ++ String x ""
    end.
Proof.
  induction s as [|a s IH]; simpl.
  - destruct (Ascii.eqb x c); reflexivity.
  - destruct (Ascii.eqb a c); [exact IH | reflexivity].
Qed.

(** Stripping at the end is stripping the reversed text at the start. *)
Lemma rstrip_char_rev c s :
  rev_string (lstrip_char c (rev_string s)) = rstrip_char c s.
Proof.
  induction s as [|x s IH]; [reflexivity|].
  rewrite rev_string_cons, lstrip_char_snoc. cbn [rstrip_char].
  rewrite <- IH.
  destruct (lstrip_char c (rev_string s)) as [|y r].
  - change (rev_string "") with "". destruct (Ascii.eqb x c); reflexivity.
  - rewrite rev_string_snoc.
    destruct (rev_string (String y r)) eqn:E; [|reflexivity].
    rewrite rev_string_cons in E. destruct (rev_string r); discriminate.
Qed.

Lemma strip_char_spec c s :
  strip_char c s = rstrip_char c (lstrip_char c s).
Proof. unfold strip_char. apply rstrip_char_rev. Qed.

Lemma all_chars_lstrip_char f c s :
  all_chars f s = true -> all_chars f (lstrip_char c s) = true.
Proof.
  induction s as [|x s IH]; simpl; [auto|].
  intros H. destruct (Ascii.eqb x c); [|exact H].
  apply andb_true_iff in H. apply IH, H.
Qed.

Lemma all_chars_rstrip_char f c s :
  all_chars f s = true -> all_chars f (rstrip_char c s) = true.
Proof.
  induction s as [|x s IH]; simpl; [auto|].
  intros H. apply andb_true_iff in H. destruct H as [Hx Hs].
  specialize (IH Hs). destruct (rstrip_char c s).
  - destruct (Ascii.eqb x c); simpl; [reflexivity | rewrite Hx; reflexivity].
  - simpl. simpl in IH. rewrite Hx, IH. reflexivity.
Qed.

Lemma starts_with_lstrip_char c s : starts_with c (lstrip_char c s) = false.
Proof.
  induction s as [|x s IH]; simpl; [reflexivity|].
  destruct (Ascii.eqb x c) eqn:E; [exact IH | simpl; exact E].
Qed.

Lemma starts_with_rstrip_char d c s :
  starts_with d s = false -> starts_with d (rstrip_char c s) = false.
Proof.
  destruct s as [|x s]; simpl; [auto|].
  intros H. destruct (rstrip_char c s); [|exact H].
  destruct (Ascii.eqb x c); [reflexivity | exact H].
Qed.

Lemma ends_with_rstrip_char c s : ends_with c (rstrip_char c s) = false.
Proof.
  induction s as [|x s IH]; simpl; [reflexivity|].
  destruct (rstrip_char c s) as [|y r].
  - destruct (Ascii.eqb x c) eqn:E; simpl; [reflexivity | exact E].
  - exact IH.
Qed.

Lemma no_double_hyphen_cons a s :
  no_double_hyphen (String a s) =
    negb (Ascii.eqb a "-" && starts_with "-" s) && no_double_hyphen s.
Proof.
  destruct s; simpl; [|reflexivity].
  rewrite andb_false_r. reflexivity.
Qed.

Lemma no_double_hyphen_lstrip_char c s :
  no_double_hyphen s = true -> no_double_hyphen (lstrip_char c s) = true.
Proof.
  induction s as [|x s IH]; [auto|].
  intros H. cbn [lstrip_char]. destruct (Ascii.eqb x c); [|exact H].
  rewrite no_double_hyphen_cons in H. apply andb_true_iff in H. apply IH, H.
Qed.

Lemma no_double_hyphen_rstrip_char c s :
  no_double_hyphen s = true -> no_double_hyphen (rstrip_char c s) = true.
Proof.
  induction s as [|x s IH]; [auto|].
  rewrite no_double_hyphen_cons. intros H.
  apply andb_true_iff in H. destruct H as [Hx Hs].
  specialize (IH Hs). cbn [rstrip_char].
  destruct (rstrip_char c s) as [|y r] eqn:E.
  - destruct (Ascii.eqb x c); reflexivity.
  - rewrite no_double_hyphen_cons, IH, andb_true_r.
    destruct (Ascii.eqb x "-"); [|reflexivity].
    destruct (starts_with "-" s) eqn:Es; [discriminate Hx|].
    apply (starts_with_rstrip_char "-" c) in Es. rewrite E in Es.
    rewrite Es. reflexivity.
Qed.

Lemma lstrip_char_fixed c s : starts_with c s = false -> lstrip_char c s = s.
Proof.
  destruct s as [|x s]; simpl; [auto|]. intros ->. reflexivity.
Qed.

Lemma rstrip_char_fixed c s : ends_with c s = false -> rstrip_char c s = s.
Proof.
  induction s as [|x s IH]; [auto|].
  intros H. cbn [rstrip_char]. destruct s as [|y s].
  - simpl in *. rewrite H. reflexivity.
  - rewrite IH; [reflexivity | exact H].
Qed.

(** ** The characters of a slug *)

Lemma not_alnum_slug_char c : not_alnum c = false -> slug_char c = true.
Proof.
  unfold not_alnum, slug_char. intros H. apply negb_false_iff in H.
  rewrite H. reflexivity.
Qed.

Lemma not_alnum_not_hyphen c : not_alnum c = false -> Ascii.eqb c "-" = false.
Proof.
  intros H. destruct (Ascii.eqb_spec c "-") as [->|]; [|reflexivity].
  discriminate H.
Qed.

Lemma slug_char_hyphen c :
  slug_char c = true -> not_alnum c = true -> c = "-"%char.
Proof.
  unfold not_alnum, slug_char. intros H1 H2. apply negb_true_iff in H2.
  rewrite H2 in H1. simpl in H1. apply Ascii.eqb_eq, H1.
Qed.

Lemma slug_char_no_upper s : all_chars slug_char s = true -> no_upper s = true.
Proof.
  unfold no_upper. induction s as [|c s IH]; simpl; [auto|].
  intros H. apply andb_true_iff in H. destruct H as [Hc Hs].
  rewrite (IH Hs), andb_true_r.
  unfold slug_char, is_lower, is_digit, is_upper, in_range in *.
  change (nat_of_ascii "a") with 97 in *. change (nat_of_ascii "z") with 122 in *.
  change (nat_of_ascii "0") with 48 in *. change (nat_of_ascii "9") with 57 in *.
  change (nat_of_ascii "A") with 65. change (nat_of_ascii "Z") with 90.
  destruct (Ascii.eqb_spec c "-") as [->|_]; [reflexivity|].
  rewrite orb_false_r in Hc.
  apply negb_true_iff, andb_false_iff.
  apply orb_true_iff in Hc. destruct Hc as [Hc|Hc];
    apply andb_true_iff in Hc; destruct Hc as [H1 H2];
    apply Nat.leb_le in H1, H2.
  - right. apply Nat.leb_gt. lia.
  - left. apply Nat.leb_gt. lia.
Qed.

(** ** Replacing the runs of other characters *)

Lemma all_chars_squeeze b s :
  all_chars slug_char (squeeze not_alnum "-" b s) = true.
Proof.
  revert b. induction s as [|c s IH]; intros b; simpl; [reflexivity|].
  destruct (not_alnum c) eqn:E.
  - destruct b; [apply IH|]. simpl. apply IH.
  - simpl. rewrite (not_alnum_slug_char _ E). apply IH.
Qed.

Lemma starts_with_squeeze_in_run s :
  starts_with "-" (squeeze not_alnum "-" true s) = false.
Proof.
  induction s as [|c s IH]; simpl; [reflexivity|].
  destruct (not_alnum c) eqn:E; [exact IH|]. simpl.
  apply not_alnum_not_hyphen, E.
Qed.

Lemma no_double_hyphen_squeeze b s :
  no_double_hyphen (squeeze not_alnum "-" b s) = true.
Proof.
  revert b. induction s as [|c s IH]; intros b; [reflexivity|].
  cbn [squeeze]. destruct (not_alnum c) eqn:E.
  - destruct b; [apply IH|].
    change ("-" ++ squeeze not_alnum "-" true s)
      with (String "-" (squeeze not_alnum "-" true s)).
    rewrite no_double_hyphen_cons, starts_with_squeeze_in_run, IH.
    reflexivity.
  - rewrite no_double_hyphen_cons, (not_alnum_not_hyphen _ E), IH.
    reflexivity.
Qed.

Lemma squeeze_fixed s :
  all_chars slug_char s = true -> no_double_hyphen s = true ->
  squeeze not_alnum "-" false s = s.
Proof.
  induction s as [|c s IH]; [reflexivity|].
  rewrite no_double_hyphen_cons. cbn [all_chars squeeze].
  intros Hc Hd.
  apply andb_true_iff in Hc. destruct Hc as [Hc Hs].
  apply andb_true_iff in Hd. destruct Hd as [Hd Hn].
  specialize (IH Hs Hn).
  destruct (not_alnum c) eqn:E; [|rewrite IH; reflexivity].
  rewrite (slug_char_hyphen _ Hc E) in *.
  change (Ascii.eqb "-" "-") with true in Hd. simpl in Hd.
  apply negb_true_iff in Hd.
  change ("-" ++ squeeze not_alnum "-" true s)
    with (String "-" (squeeze not_alnum "-" true s)).
  f_equal. rewrite <- IH at 2.
  destruct s as [|y s]; [reflexivity|].
  simpl in Hd, Hs. apply andb_true_iff in Hs. destruct Hs as [Hy _].
  cbn [squeeze]. destruct (not_alnum y) eqn:Ey; [|reflexivity].
  rewrite (slug_char_hyphen _ Hy Ey) in Hd. discriminate Hd.
Qed.

(** ** [slugify] *)

Lemma slugify_squeeze name :
  slugify name =
    rstrip_char "-" (lstrip_char "-" (squeeze not_alnum "-" false (lower name))).
Proof.
  unfold slugify. rewrite strip_char_spec.
  change (fun c => negb (is_lower c || is_digit c)) with not_alnum.
  rewrite sub_plus_cls. reflexivity.
Qed.

Lemma slugify_is_slug name : is_slug (slugify name).
Proof.
  rewrite slugify_squeeze. repeat split.
  - apply all_chars_rstrip_char, all_chars_lstrip_char, all_chars_squeeze.
  - apply no_double_hyphen_rstrip_char, no_double_hyphen_lstrip_char,
      no_double_hyphen_squeeze.
  - apply starts_with_rstrip_char, starts_with_lstrip_char.
  - apply ends_with_rstrip_char.
Qed.

Lemma slugify_fixed s : is_slug s -> slugify s = s.
Proof.
  intros (Hc & Hd & Hs & He).
  rewrite slugify_squeeze, (lower_fixed _ (slug_char_no_upper _ Hc)),
    (squeeze_fixed _ Hc Hd), (lstrip_char_fixed _ _ Hs).
  apply rstrip_char_fixed, He.
Qed.

(** [slugify] returns a slug for every name: only characters of
    [a-z0-9-], no two hyphens in a row, and no hyphen first or last. *)
Theorem slugify_gives_a_slug name : is_slug (slugify name).
Proof. apply slugify_is_slug. Qed.

(** The slugs are exactly the texts that [slugify] leaves unchanged; in
    particular slugifying twice is slugifying once. *)
Theorem slugify_fixes_exactly_the_slugs :
  (forall s, slugify s = s <-> is_slug s)
  /\ (forall name, slugify (slugify name) = slugify name).
Proof.
  split.
  - intros s. split.
    + intros <-. apply slugify_is_slug.
    + apply slugify_fixed.
  - intros name. apply slugify_fixed, slugify_is_slug.
Qed.

(** [get_product_subcategory_slug] answers with a slug whenever it
    answers, whether it comes from a title rule or from the product's
    subcategory; it gives no answer only for a product without a
    subcategory. *)
Theorem subcategory_slug_is_a_slug p :
  match get_product_subcategory_slug p with
  | Some s => is_slug s
  | None => subcategory p = ""
  end.
Proof.
  unfold get_product_subcategory_slug. cbv zeta.
  repeat match goal with
  | |- match (if negb ?c then _ else _) with Some _ => _ | None => _ end =>
      fail 1
  | |- match (if ?c then _ else _) with Some _ => _ | None => _ end =>
      destruct c; [cbv iota; repeat split; reflexivity|]
  end.
  destruct (String.eqb_spec (subcategory p) "") as [E|_]; simpl.
  - exact E.
  - apply slugify_is_slug.
Qed.

End SlugifyProperties.
(* ================================================================== *)
(** * scraping_toolkit/parse_manual_html.py: several pages for one
      category *)
(* ================================================================== *)

Section ManualPages.
Import process_all_saved_html parse_manual_html.

Lemma process_spec category files :
  forall total out out' t,
    process files category total out = (out', Some t) ->
    t = total + list_sum (map found files)
    /\ out' =
         match last_page files with
         | Some (name, html_content, page) =>
             fst (parse_html_file name html_content page category)
         | None => out
         end.
Proof.
  induction files as [|[name f] files IH]; intros total out out' t H.
  - simpl in H. injection H as <- <-. simpl. split; [lia | reflexivity].
  - cbn [process] in H. cbn [map last_page].
    change (list_sum (found (name, f) :: map found files))
      with (found (name, f) + list_sum (map found files)).
    unfold found at 1.
    cbn [snd]. destruct f as [| |html_content page].
    + apply IH in H. destruct H as [-> ->]. split; [reflexivity|].
      destruct (last_page files) as [[[? ?] ?]|]; reflexivity.
    + discriminate H.
    + unfold parse_html_file in H. cbv beta iota zeta in H. apply IH in H.
      destruct H as [-> ->]. split; [symmetry; apply Nat.add_assoc|].
      destruct (last_page files) as [[[? ?] ?]|]; reflexivity.
Qed.

(** When [main] runs to its end, the total it prints adds up the
    identifiers of every page given, but each page is written over the
    files of the one before: the output directory holds the identifiers,
    the manifest and the copy of the last page only, and is left as it
    was when no path exists. *)
Theorem main_keeps_the_last_page_only files category out out' total :
  main files category out = (out', Some total) ->
  total = list_sum (map found files)
  /\ match last_page files with
     | Some (name, html_content, page) =>
         let ids := extract_product_ids page in
         out' =
           CatDir
             (Some (Plp category ("manually_saved_" ++ name) ids
                      (List.length ids)))
             (Some (Manifest ("manually_saved_" ++ name)
                      (List.length ids) (List.length ids)))
             (Some html_content)
     | None => out' = out
     end.
Proof.
  intros H. unfold main in H.
  destruct files as [|x files]; [discriminate H|].
  apply process_spec in H. destruct H as [-> ->]. split; [reflexivity|].
  destruct (last_page (x :: files)) as [[[? ?] ?]|]; reflexivity.
Qed.

Lemma main_keeps_the_last_page_only_witness :
  let files :=
    [ ("page1.html", Page "<a>" (Soup ["12345678"; "23456789"] [] []));
      ("gone.html", Missing);
      ("page2.html", Page "<b>" (Soup ["34567890"] [] [])) ] in
  let out := CatDir None None None in
  main files "appliances" out =
    (CatDir
       (Some (Plp "appliances" "manually_saved_page2.html" ["34567890"] 1))
       (Some (Manifest "manually_saved_page2.html" 1 1))
       (Some "<b>"),
     Some 3)
  /\ 3 = list_sum (map found files).
Proof.
  intros files out. split; [reflexivity|].
  apply (@main_keeps_the_last_page_only files "appliances" out
           (CatDir
              (Some (Plp "appliances" "manually_saved_page2.html"
                       ["34567890"] 1))
              (Some (Manifest "manually_saved_page2.html" 1 1))
              (Some "<b>")) 3).
  reflexivity.
Defined.

End ManualPages.
(* ================================================================== *)
(** * scripts/consolidate_structure.py: running the consolidation again *)
(* ================================================================== *)

Section ConsolidationSettles.
Import consolidate_structure.

(** A call of [consolidate_category] that ends normally has either
    written nothing at all, or saved a parent without a products list;
    a later call on that parent, whatever the children then are, returns
    at once and writes nothing. *)
Theorem consolidated_parent_is_left_alone category_name subdir_name
    parent children :
  let r := consolidate_category category_name subdir_name parent children in
  raised r = false ->
  match saved_parent r with
  | Some parent' =>
      parent_products parent' = None
      /\ forall category_name' subdir_name' children',
           consolidate_category category_name' subdir_name' (Some parent')
             children' = Result [] None false
  | None => saved_children r = []
  end.
Proof.
  unfold consolidate_category.
  destruct parent as [parent_data|]; [|reflexivity].
  destruct children as [child_files|]; [|reflexivity].
  destruct (parent_products parent_data) as [[|p products]|];
    [reflexivity| |reflexivity].
  destruct (distribute (p :: products) child_files []) as [[cf unmatched]|];
    [|discriminate].
  destruct (add_unmatched unmatched cf) as [cf'|]; [|discriminate].
  destruct (save_children cf') as [saved [|]]; [|discriminate].
  cbn [negb]. cbv iota.
  destruct (parent_pageInfo parent_data); [|discriminate].
  cbn [raised saved_parent parent_products]. intros _.
  split; [reflexivity|].
  intros ? ? [?|]; reflexivity.
Qed.

Lemma consolidated_parent_is_left_alone_witness :
  consolidate_category "appliances" "refrigerators"
    (Some (ParentData None (Some 2)
             [SubcategoryRef "appliances/refrigerators/french-door"
                "french-door" 2
                "/categories/appliances/refrigerators/french-door"]))
    (Some [("french-door",
            ChildData
              (Some [Product (Some "100000010")
                       "LG French Door Refrigerator" "LG" "" None;
                     Product (Some "100000001")
                       "GE 27 cu. ft. French Door Refrigerator" "GE" "" None])
              (Some 2))])
  = Result [] None false.
Proof.
  pose proof (@consolidated_parent_is_left_alone "appliances" "refrigerators"
                (Some (ParentData
                         (Some [Product (Some "100000001")
                                  "GE 27 cu. ft. French Door Refrigerator"
                                  "GE" "" None])
                         (Some 1) []))
                (Some [("french-door",
                        ChildData
                          (Some [Product (Some "100000010")
                                   "LG French Door Refrigerator" "LG" "" None])
                          (Some 1))])) as H.
  cbv zeta in H.
  match type of H with
  | raised ?r = false -> _ =>
      let v := eval vm_compute in r in
      change r with v in H
  end.
  cbn [raised saved_parent] in H.
  exact (proj2 (H eq_refl) "appliances" "refrigerators" _).
Defined.

End ConsolidationSettles.
